(** * realestate-automation: the polling-driven job pipeline

    A shallow embedding of [complete_automation.py]: the progress tracker,
    the publish gate of [YouTubeUploader], the work queue of
    [FixedSheetsManager], the content pipeline of [CompleteAutomationSystem]
    and the polling loop of [AutoMonitoringManager].

    Python values are modelled as the code has them: [str] is a sequence of
    Unicode code points, [int] is [Z], [float] is an IEEE 754 binary64 value
    ([spec_float] with 53 bits of precision), a [set] of strings is a [gset],
    a row of the sheet is a [gmap] from header to cell. *)

From Stdlib Require Import ZArith NArith String Ascii Bool Sorted.
From Stdlib Require Import Floats.SpecFloat.
From stdpp Require Import base decidable option list gmap sets.

Local Open Scope Z_scope.

(** ** Python strings *)

Module PyStr.

(** A [str] is its sequence of code points. *)
Definition str : Type := list N.

(** UTF-8 decoding of a source literal (well-formed input only). *)
Fixpoint utf8_decode (bs : list N) : str :=
  match bs with
  | [] => []
  | b0 :: r0 =>
    if (b0 <? 128)%N then b0 :: utf8_decode r0
    else match r0 with
      | [] => []
      | b1 :: r1 =>
        if (b0 <? 224)%N then ((b0 - 192) * 64 + (b1 - 128))%N :: utf8_decode r1
        else match r1 with
          | [] => []
          | b2 :: r2 =>
            if (b0 <? 240)%N
            then ((b0 - 224) * 4096 + (b1 - 128) * 64 + (b2 - 128))%N :: utf8_decode r2
            else match r2 with
              | [] => []
              | b3 :: r3 =>
                ((b0 - 240) * 262144 + (b1 - 128) * 4096
                 + (b2 - 128) * 64 + (b3 - 128))%N :: utf8_decode r3
              end
          end
      end
  end.

Definition lit (s : string) : str :=
  utf8_decode (List.map N_of_ascii (list_ascii_of_string s)).

(** [x in s] on strings: [x] occurs as a contiguous run of [s]. *)
Fixpoint starts_with (x s : str) : bool :=
  match x, s with
  | [], _ => true
  | _ :: _, [] => false
  | a :: x', b :: s' => (a =? b)%N && starts_with x' s'
  end.

Fixpoint contains (x s : str) : bool :=
  starts_with x s ||
  match s with
  | [] => false
  | _ :: s' => contains x s'
  end.

(** [c.isspace()]: the code points Python treats as whitespace. *)
Definition isspace (c : N) : bool :=
  ((9 <=? c) && (c <=? 13) || (28 <=? c) && (c <=? 32)
   || (c =? 133) || (c =? 160) || (c =? 5760)
   || (8192 <=? c) && (c <=? 8202)
   || (c =? 8232) || (c =? 8233) || (c =? 8239) || (c =? 8287)
   || (c =? 12288))%N.

Fixpoint lstrip (s : str) : str :=
  match s with
  | [] => []
  | c :: s' => if isspace c then lstrip s' else s
  end.

Definition rstrip (s : str) : str := rev (lstrip (rev s)).

(** [s.strip()] *)
Definition strip (s : str) : str := rstrip (lstrip s).

(** [s[:n]] for [n >= 0] *)
Definition prefix (n : nat) (s : str) : str := take n s.

(** [bool(s)] *)
Definition nonempty (s : str) : bool :=
  match s with [] => false | _ :: _ => true end.

(** [str(n)] for an [int]: decimal digits, with a leading [-] when negative. *)
Fixpoint digits (fuel : nat) (n : N) (acc : str) : str :=
  match fuel with
  | O => acc
  | S fuel' =>
    let acc' := (48 + n mod 10)%N :: acc in
    if (n <? 10)%N then acc' else digits fuel' (n / 10)%N acc'
  end.

Definition of_N (n : N) : str := digits (S (N.to_nat (N.log2 n))) n [].

Definition of_Z (z : Z) : str :=
  match z with
  | Z0 => of_N 0
  | Zpos p => of_N (Npos p)
  | Zneg p => 45%N :: of_N (Npos p)
  end.

End PyStr.

Export PyStr.

(** ** Python floats: IEEE 754 binary64 *)

Module PyFloat.

Definition prec : Z := 53.
Definition emax : Z := 1024.

Definition float : Type := spec_float.

(** [float(n)] *)
Definition of_int (n : Z) : float := binary_normalize prec emax n 0 false.

Definition fadd : float -> float -> float := SFadd prec emax.
Definition fmul : float -> float -> float := SFmul prec emax.
Definition fdiv : float -> float -> float := SFdiv prec emax.

(** [a / b] on two [int]s that a binary64 holds exactly. *)
Definition int_truediv (a b : Z) : float := fdiv (of_int a) (of_int b).

(** [int(x)]: truncation toward zero ([None] where Python raises, on an
    infinity or a NaN). *)
Definition to_int (x : float) : option Z :=
  match x with
  | S754_zero _ => Some 0
  | S754_finite s m e =>
    let a := if 0 <=? e then Z.shiftl (Zpos m) e else Z.shiftr (Zpos m) (- e) in
    Some (if s then - a else a)
  | S754_infinity _ | S754_nan => None
  end.

End PyFloat.

(** ** ProgressTracker *)

Module ProgressTracker.
Import PyFloat.

Record t := {
  has_callback : bool;
  current_step : Z;
  total_steps : Z;
  step_details : gmap Z str
}.

Definition default_details : gmap Z str :=
  list_to_map
    [ (0, lit "🚀 자동화 시스템 초기화");
      (1, lit "🏠 부동산 데이터 수집 중");
      (2, lit "✍️ AI 스크립트 생성 중");
      (3, lit "📊 브랜디드 PPT 생성 중");
      (4, lit "🎨 썸네일 및 이미지 생성 중");
      (5, lit "🎙️ 음성 나레이션 생성 중");
      (6, lit "📝 자막 파일 생성 중");
      (7, lit "🎬 영상 편집 및 합성 중");
      (8, lit "📺 YouTube 업로드 준비 중");
      (9, lit "✅ 최종 완료 및 상태 업데이트") ].

(** [ProgressTracker.__init__] *)
Definition init (has_cb : bool) : t :=
  {| has_callback := has_cb; current_step := 0; total_steps := 10;
     step_details := default_details |}.

(** The value of [overall_progress] at the end of [update] ([None] where
    the arithmetic raises): the baseline is computed first and replaced when
    [sub_progress > 0]. *)
Definition overall_progress (total step sub_progress : Z) : option Z :=
  overall ← to_int (fmul (int_truediv step total) (of_int 100));
  if 0 <? sub_progress then
    let step_increment :=
      fmul (int_truediv 1 total) (int_truediv sub_progress 100) in
    to_int (fmul (fdiv (fadd (of_int step) step_increment) (of_int total))
                 (of_int 100))
  else Some overall.

(** The message logged by [update]. *)
Definition message_of (tr : t) (step : Z) (message : str) : str :=
  if nonempty message then message
  else default (lit "단계 " ++ of_Z (step + 1) ++ lit " 처리 중")
               (step_details tr !! step).

End ProgressTracker.

(** ** Effects: state, exceptions and the trace of collaborator calls *)

Module Eff.

(** An [Exception], identified by its text [str(e)]. *)
Definition exn : Type := str.

Inductive outcome (A : Type) : Type :=
| Ret (a : A)
| Raise (e : exn).
Arguments Ret {A} a.
Arguments Raise {A} e.

(** A computation over a mutable state [S]; the state survives a raise. *)
Definition M (S A : Type) : Type := S -> S * outcome A.

Definition ret {S A} (a : A) : M S A := fun s => (s, Ret a).
Definition raise {S A} (e : exn) : M S A := fun s => (s, Raise e).

Definition bind {S A B} (m : M S A) (k : A -> M S B) : M S B :=
  fun s =>
    match m s with
    | (s', Ret a) => k a s'
    | (s', Raise e) => (s', Raise e)
    end.

(** [try: body except Exception as e: handler e] *)
Definition try_except {S A} (body : M S A) (handler : exn -> M S A) : M S A :=
  fun s =>
    match body s with
    | (s', Ret a) => (s', Ret a)
    | (s', Raise e) => handler e s'
    end.

Definition get {S} : M S S := fun s => (s, Ret s).
Definition gets {S A} (f : S -> A) : M S A := fun s => (s, Ret (f s)).
Definition modify {S} (f : S -> S) : M S unit := fun s => (f s, Ret tt).

(** [if c: m] *)
Definition when {S} (c : bool) (m : M S unit) : M S unit :=
  if c then m else ret tt.

(** Calls that leave the process, in the order they were made. *)
Inductive event : Type :=
| Progress (message : str) (percent : Z)
| ConfirmPrompt (video_file title description : str)
| UploadAttempt (real : bool) (video_file title : str)
| StatusWrite (row_id : Z) (status url : str)
| QueueRead (sheet_url : str)
| PipelineRun (address property_type notice : str) (row_id : Z)
| Notify (address : str)
| Sleep (seconds : Z)
| ThreadStart (name : str).

(** The part of the state every component shares: the outside world [W]
    (files, network, operator, clock) and the trace. *)
Record env (W : Type) : Type := {
  world : W;
  trace : list event
}.
Arguments world {W} e.
Arguments trace {W} e.

Definition emit {W L} (ev : event) : M (L * env W) unit :=
  modify (fun '(l, e) => (l, {| world := world e; trace := trace e ++ [ev] |})).

(** A call into the outside world: it may change the world and may raise. *)
Definition external {W L A} (f : W -> W * outcome A) : M (L * env W) A :=
  fun '(l, e) =>
    let '(w', r) := f (world e) in
    ((l, {| world := w'; trace := trace e |}), r).

Definition local {W L A} (f : L -> A) : M (L * env W) A :=
  gets (fun '(l, _) => f l).

Definition update_local {W L} (f : L -> L) : M (L * env W) unit :=
  modify (fun '(l, e) => (f l, e)).

(** A collaborator method that may also assign attributes of [self]. *)
Definition method {W L A} (f : L -> W -> (L * W) * outcome A)
  : M (L * env W) A :=
  fun '(l, e) =>
    let '((l', w'), r) := f l (world e) in
    ((l', {| world := w'; trace := trace e |}), r).

(** Run a method of an attribute of [self] (read with [proj], assigned
    with [inj]). *)
Definition zoom {W L1 L2 A} (proj : L2 -> L1) (inj : L1 -> L2 -> L2)
    (m : M (L1 * env W) A) : M (L2 * env W) A :=
  fun '(l2, e) =>
    let '((l1', e'), r) := m (proj l2, e) in
    ((inj l1' l2, e'), r).

End Eff.

Export Eff.

#[export] Instance M_ret {S} : MRet (M S) := fun A a => ret a.
#[export] Instance M_bind {S} : MBind (M S) := fun A B k m => bind m k.

Module TrackerOps.
Import ProgressTracker.

Section WithWorld.
Context {W L : Type}.
(** The observer registered at construction: [callback(message, percent)]. *)
Variable callback : str -> Z -> W -> W * outcome unit.

(** [ProgressTracker.update]: returns the tracker with [current_step] set. *)
Definition update (tr : t) (step : Z) (message : str) (sub_progress : Z)
  : M (L * env W) t :=
  let tr' := {| has_callback := has_callback tr; current_step := step;
                total_steps := total_steps tr;
                step_details := step_details tr |} in
  match overall_progress (total_steps tr) step sub_progress with
  | None => raise (lit "float division by zero")
  | Some percent =>
    let message := message_of tr step message in
    emit (Progress message percent);;
    when (has_callback tr)
      (try_except (external (callback message percent)) (fun _ => ret tt));;
    ret tr'
  end.

(** [ProgressTracker.substep] *)
Definition substep (tr : t) (message : str) (sub_progress : Z)
  : M (L * env W) t :=
  update tr (current_step tr) message sub_progress.

End WithWorld.
End TrackerOps.

(** ** YouTubeUploader: the publish sink and its confirmation gate *)

Module YouTubeUploader.
Import ProgressTracker.

Record t := {
  youtube_service : bool;   (* a service object was built by setup_youtube_auth *)
  api_available : bool;
  auto_upload_mode : bool
}.

(** [YouTubeUploader.__init__] *)
Definition init (YOUTUBE_API_AVAILABLE : bool) : t :=
  {| youtube_service := false; api_available := YOUTUBE_API_AVAILABLE;
     auto_upload_mode := false |}.

(** [set_auto_upload_mode] *)
Definition set_auto_upload_mode (enabled : bool) (self : t) : t :=
  {| youtube_service := youtube_service self;
     api_available := api_available self;
     auto_upload_mode := enabled |}.

Definition cancelled_by_user : str := lit "사용자가 업로드를 취소했습니다.".

(** The collaborators of [upload_video_with_confirmation]. *)
Class Backend (W : Type) := {
  (** the observer of the progress tracker *)
  callback : str -> Z -> W -> W * outcome unit;
  (** [_show_upload_confirmation(video_file, title, description)]: the
      operator's answer at the console or in the popup *)
  _show_upload_confirmation : str -> str -> str -> W -> W * outcome bool;
  (** [_upload_to_youtube(video_file, title, description, tags, thumbnail_file)] *)
  _upload_to_youtube :
    str -> str -> str -> option (list str) -> option str ->
    W -> W * outcome (bool * str);
  (** [_mock_upload(video_file, title)] *)
  _mock_upload : str -> str -> W -> W * outcome (bool * str)
}.

Section WithBackend.
Context {W : Type} {B : Backend W}.

Definition progress (progress_tracker : option ProgressTracker.t)
    (message : str) (sub_progress : Z) : M (t * env W) unit :=
  match progress_tracker with
  | Some tr => TrackerOps.substep callback tr message sub_progress;; mret tt
  | None => mret tt
  end.

(** Step 2 of [upload_video_with_confirmation]: the upload itself. *)
Definition do_upload (video_file title description : str)
    (tags : option (list str)) (thumbnail_file : option str)
    : M (t * env W) (bool * str) :=
  service ← local youtube_service;
  if service : bool then
    emit (UploadAttempt true video_file title);;
    external (_upload_to_youtube video_file title description tags thumbnail_file)
  else
    emit (UploadAttempt false video_file title);;
    external (_mock_upload video_file title).

(** [upload_video_with_confirmation] *)
Definition upload_video_with_confirmation (video_file title description : str)
    (tags : option (list str)) (thumbnail_file : option str)
    (progress_tracker : option ProgressTracker.t)
    : M (t * env W) (bool * str) :=
  try_except
    (progress progress_tracker (lit "📺 YouTube 업로드 준비 중") 10;;
     auto ← local auto_upload_mode;
     if negb auto then
       emit (ConfirmPrompt video_file title description);;
       confirmed ← external (_show_upload_confirmation video_file title description);
       if negb confirmed then mret (false, cancelled_by_user)
       else do_upload video_file title description tags thumbnail_file
     else
       progress progress_tracker (lit "🚀 100% 자동화 모드 - 바로 업로드") 30;;
       do_upload video_file title description tags thumbnail_file)
    (fun e => mret (false, e)).

End WithBackend.
End YouTubeUploader.

(** ** FixedSheetsManager: the work queue *)

Module FixedSheetsManager.

(** A cell of a row, as far as the queue looks at it: its truth value and
    its [str()]. *)
Inductive pyval : Type :=
| VStr (s : str)
| VInt (n : Z)
| VOther (truth : bool) (text : str).

Definition truthy (v : pyval) : bool :=
  match v with
  | VStr s => nonempty s
  | VInt n => negb (n =? 0)
  | VOther b _ => b
  end.

Definition py_str (v : pyval) : str :=
  match v with
  | VStr s => s
  | VInt n => of_Z n
  | VOther _ s => s
  end.

(** A row: header name to cell. *)
Abbreviation record := (gmap str pyval).

(** An element of the list [get_property_queue] returns. *)
Record item := {
  row_id : Z;
  address : str;
  property_type : str;
  status : pyval;
  priority : pyval;
  created_date : pyval;
  advertising_notice : str
}.

Inductive source : Type :=
| SrcNone | SrcMock | SrcServiceAccount | SrcPublicCsv | SrcApiV4 | SrcOAuth.

#[export] Instance source_eq_dec : EqDecision source.
Proof. solve_decision. Defined.

Inductive worksheet : Type := Worksheet (url : str).

Record t := {
  client : bool;
  sheet : option worksheet;
  data_source : source;
  last_data : list record;
  is_connected : bool
}.

(** [FixedSheetsManager.__init__] *)
Definition init : t :=
  {| client := false; sheet := None; data_source := SrcNone;
     last_data := []; is_connected := false |}.

Definition set_data_source (d : source) (m : t) : t :=
  {| client := client m; sheet := sheet m; data_source := d;
     last_data := last_data m; is_connected := is_connected m |}.

Definition set_is_connected (b : bool) (m : t) : t :=
  {| client := client m; sheet := sheet m; data_source := data_source m;
     last_data := last_data m; is_connected := b |}.

Definition status_fields : list str :=
  [lit "status"; lit "상태"; lit "Status"; lit "처리상태"; lit "진행상태"].
Definition address_fields : list str :=
  [lit "address"; lit "주소"; lit "Address"; lit "부동산주소"; lit "매물주소"].
Definition type_fields : list str :=
  [lit "property_type"; lit "매물유형"; lit "Type"; lit "부동산유형";
   lit "PropertyType"].
Definition notice_fields : list str :=
  [lit "광고시유의사항"; lit "광고시 유의사항"; lit "advertising_notice";
   lit "유의사항"; lit "notice"; lit "Advertising Notice"; lit "주의사항"].

Definition waiting_keywords : list str :=
  [lit "대기"; lit "pending"; lit "처리전"; lit "신규"; lit "new"; lit ""].

Definition default_notice : str :=
  lit "본 영상은 정보 제공 목적으로 제작되었으며, 투자 권유가 아닙니다. 부동산 투자 시 신중한 검토가 필요합니다.".

(** [for field in fields: if field in record and record[field]: ... break] *)
Fixpoint first_field (fields : list str) (r : record) : option pyval :=
  match fields with
  | [] => None
  | f :: fields' =>
    match r !! f with
    | Some v => if truthy v then Some v else first_field fields' r
    | None => first_field fields' r
    end
  end.

Definition str_eqb (a b : str) : bool := bool_decide (a = b).

Section Rows.
(** [str.lower]: the Unicode case mapping of the interpreter. *)
Variable lower : str -> str.

Definition status_of (r : record) : str :=
  match first_field status_fields r with
  | Some v => strip (lower (py_str v))
  | None => []
  end.

Definition address_of (r : record) : str :=
  match first_field address_fields r with
  | Some v => strip (py_str v)
  | None => []
  end.

Definition property_type_of (r : record) : str :=
  match first_field type_fields r with
  | Some v => strip (py_str v)
  | None => lit "아파트"
  end.

Definition notice_of (r : record) : str :=
  let notice :=
    match first_field notice_fields r with
    | Some v => strip (py_str v)
    | None => []
    end in
  if nonempty notice then notice else default_notice.

(** [is_pending] of a row whose normalised status is [status]. *)
Definition is_pending (status : str) : bool :=
  existsb (fun keyword => contains keyword status) waiting_keywords
  || str_eqb status [].

(** [record.get(k1, record.get(k2, d))] *)
Definition get2 (r : record) (k1 k2 : str) (d : pyval) : pyval :=
  default (default d (r !! k2)) (r !! k1).

(** One turn of the filtering loop: the item appended for row [idx], if any. *)
Definition row_item (today : str) (idx : nat) (r : record) : option item :=
  let status := status_of r in
  let address := address_of r in
  if is_pending status && nonempty address then
    Some {| row_id := Z.of_nat idx + 2;
            address := address;
            property_type := property_type_of r;
            status := get2 r (lit "status") (lit "상태") (VStr (lit "대기중"));
            priority :=
              default (get2 r (lit "우선순위") (lit "Priority")
                            (VStr (lit "medium")))
                      (r !! lit "priority");
            created_date :=
              get2 r (lit "created_date") (lit "등록일") (VStr today);
            advertising_notice := notice_of r |}
  else None.

(** [pending_items] after the loop over [enumerate(records)]. *)
Definition pending_items (today : str) (records : list record) : list item :=
  omap (fun '(idx, r) => row_item today idx r) (imap pair records).

End Rows.

(** [_get_mock_data] *)
Definition _get_mock_data (today : str) : list item :=
  [ {| row_id := 1;
       address := lit "서울시 강남구 대치동 아파트";
       property_type := lit "아파트";
       status := VStr (lit "대기중");
       priority := VStr (lit "high");
       created_date := VStr today;
       advertising_notice := default_notice |};
    {| row_id := 2;
       address := lit "서울시 서초구 반포동 오피스텔";
       property_type := lit "오피스텔";
       status := VStr (lit "대기중");
       priority := VStr (lit "medium");
       created_date := VStr today;
       advertising_notice :=
         lit "투자에는 리스크가 따르며, 투자 결과에 대한 책임은 투자자 본인에게 있습니다. 전문가와 상담 후 결정하시기 바랍니다." |} ].

(** A connection strategy: it may assign attributes of the manager, and
    answers whether it connected. *)
Definition strategy (W : Type) : Type :=
  str -> t -> W -> (t * W) * outcome bool.

(** What the manager reaches outside the process. *)
Class Backend (W : Type) := {
  GSPREAD_AVAILABLE : bool;
  _try_service_account_fixed : strategy W;
  _try_public_csv_improved : strategy W;
  _try_api_key_improved : strategy W;
  _try_oauth_flow : strategy W;
  (** [self.sheet.get_all_records()] *)
  get_all_records : worksheet -> W -> W * outcome (list record);
  (** the header lookup and [update_cell] calls of [update_status] *)
  update_cells : worksheet -> Z -> str -> option str -> W -> W * outcome unit;
  (** [datetime.now().strftime('%Y-%m-%d')] *)
  today : W -> str;
  (** [str.lower] *)
  lower : str -> str
}.

Section WithBackend.
Context {W : Type} {B : Backend W}.

Definition connection_methods : list (strategy W) :=
  [_try_service_account_fixed; _try_public_csv_improved;
   _try_api_key_improved; _try_oauth_flow].

(** The loop over [connection_methods] and the code after it. *)
Fixpoint try_methods (methods : list (strategy W)) (sheet_url : str)
  : M (t * env W) bool :=
  match methods with
  | [] =>
    update_local (set_data_source SrcMock);;
    update_local (set_is_connected false);;
    mret false
  | method_func :: rest =>
    ok ← try_except (method (method_func sheet_url)) (fun _ => mret false);
    if ok : bool then update_local (set_is_connected true);; mret true
    else try_methods rest sheet_url
  end.

(** [setup_sheets_connection] *)
Definition setup_sheets_connection (sheet_url : str) : M (t * env W) bool :=
  if negb GSPREAD_AVAILABLE then
    update_local (set_data_source SrcMock);; mret false
  else try_methods connection_methods sheet_url.

Definition reads_sheet (d : source) : bool :=
  match d with SrcServiceAccount | SrcOAuth => true | _ => false end.

Definition reads_cache (d : source) : bool :=
  match d with SrcPublicCsv | SrcApiV4 => true | _ => false end.

(** [get_property_queue] *)
Definition get_property_queue (sheet_url : str) : M (t * env W) (list item) :=
  try_except
    (d ← local data_source;
     when (bool_decide (d = SrcNone))
       (setup_sheets_connection sheet_url;; mret tt);;
     d ← local data_source;
     sh ← local sheet;
     records ←
       match sh with
       | Some ws =>
         if reads_sheet d then
           try_except (external (get_all_records ws)) (fun _ => mret [])
         else if reads_cache d then local last_data
         else mret []
       | None =>
         if reads_cache d then local last_data else mret []
       end;
     now ← external (fun w => (w, Ret (today w)));
     mret (pending_items lower now records))
    (fun _ => now ← external (fun w => (w, Ret (today w)));
              mret (_get_mock_data now)).

(** [update_status] *)
Definition update_status (row_id : Z) (status : str) (video_url : option str)
  : M (t * env W) unit :=
  emit (StatusWrite row_id status (default [] video_url));;
  try_except
    (connected ← local is_connected;
     if negb connected then mret tt
     else
       d ← local data_source;
       sh ← local sheet;
       match sh with
       | Some ws =>
         if reads_sheet d then
           try_except (external (update_cells ws row_id status video_url))
                      (fun _ => mret tt)
         else mret tt
       | None => mret tt
       end)
    (fun _ => mret tt).

End WithBackend.
End FixedSheetsManager.

(** ** CompleteAutomationSystem: the content pipeline *)

Module Pipeline.
Import ProgressTracker.

Record PropertyData := {
  pd_address : str;
  pd_property_type : str;
  average_price : str;
  recent_trades : list str;
  price_trend : str;
  market_analysis : str;
  school_info : str;
  transport_info : str;
  pd_advertising_notice : str;
  contact_info : str;
  brand_message : str
}.

(** The dictionary [_generate_branded_script_with_notice] returns. *)
Record script_data := {
  full_script : str;
  duration : str;
  word_count : Z;
  sd_advertising_notice : str
}.

Record ContentResult := {
  video_file : str;
  script : str;
  ppt_file : str;
  voice_file : str;
  subtitle_file : str;
  thumbnail_file : str;
  youtube_url : option str;
  success : bool;
  error_message : option str;
  sheets_row_id : option Z
}.

(** The attributes of the system the pipeline touches. *)
Record t := {
  sheets_manager : FixedSheetsManager.t;
  youtube_uploader : YouTubeUploader.t;
  progress_tracker : option ProgressTracker.t
}.

Definition set_sheets_manager (m : FixedSheetsManager.t) (self : t) : t :=
  {| sheets_manager := m; youtube_uploader := youtube_uploader self;
     progress_tracker := progress_tracker self |}.

Definition set_youtube_uploader (u : YouTubeUploader.t) (self : t) : t :=
  {| sheets_manager := sheets_manager self; youtube_uploader := u;
     progress_tracker := progress_tracker self |}.

Definition set_progress_tracker (p : option ProgressTracker.t) (self : t) : t :=
  {| sheets_manager := sheets_manager self;
     youtube_uploader := youtube_uploader self; progress_tracker := p |}.

(** [if sheets_row_id:] on an [Optional[int]] *)
Definition row_given (sheets_row_id : option Z) : option Z :=
  match sheets_row_id with
  | Some n => if n =? 0 then None else Some n
  | None => None
  end.

(** The stage workers: renderers, the title generator, the sheet and the
    upload backends. *)
Class Backend (W : Type) := {
  sheets_backend :: FixedSheetsManager.Backend W;
  upload_backend :: YouTubeUploader.Backend W;
  mock_property_data : str -> str -> W -> W * outcome PropertyData;
  _generate_branded_script_with_notice :
    PropertyData -> W -> W * outcome script_data;
  _create_branded_ppt_with_notice :
    script_data -> PropertyData -> W -> W * outcome str;
  _create_thumbnail : PropertyData -> script_data -> W -> W * outcome str;
  _generate_real_voice_and_subtitles :
    script_data -> W -> W * outcome (str * str);
  _create_real_video : str -> str -> str -> str -> W -> W * outcome str;
  create_branded_title : str -> str -> W -> W * outcome str
}.

Definition nl : str := [10%N].

(** The description built in [_upload_to_youtube_with_confirmation]. *)
Definition youtube_description (p : PropertyData) : str :=
  nl ++ lit "🏠 " ++ pd_address p ++ lit " " ++ pd_property_type p
     ++ lit " 전문가 분석" ++ nl ++ nl
  ++ lit "📊 주요 정보:" ++ nl
  ++ lit "• 평균 시세: " ++ average_price p ++ nl
  ++ lit "• 시장 트렌드: " ++ price_trend p ++ nl
  ++ lit "• 교육 환경: " ++ school_info p ++ nl
  ++ lit "• 교통 접근성: " ++ transport_info p ++ nl ++ nl
  ++ lit "📈 전문가 분석:" ++ nl ++ market_analysis p ++ nl ++ nl
  ++ lit "⚠️ 광고시 유의사항:" ++ nl ++ pd_advertising_notice p ++ nl ++ nl
  ++ lit "📞 문의: " ++ contact_info p ++ nl
  ++ lit "🏢 " ++ brand_message p ++ nl ++ nl
  ++ lit "#부동산 #투자 #청산부동산 #아파트 #시세분석" ++ nl.

Definition upload_tags : list str :=
  [lit "부동산"; lit "투자"; lit "청산부동산"; lit "아파트"; lit "시세분석"].

Section WithBackend.
Context {W : Type} {B : Backend W}.

(** [self.progress_tracker.update(step, message, sub_progress)] *)
Definition track (step : Z) (message : str) (sub_progress : Z)
  : M (t * env W) unit :=
  p ← local progress_tracker;
  match p with
  | Some tr =>
    tr' ← TrackerOps.update YouTubeUploader.callback tr step message sub_progress;
    update_local (set_progress_tracker (Some tr'))
  | None => raise (lit "'NoneType' object has no attribute 'update'")
  end.

(** [_upload_to_youtube_with_confirmation]: the link, the failure text, or
    [None] after an exception. *)
Definition _upload_to_youtube_with_confirmation (video : str)
    (property_data : PropertyData) (script_text : str)
  : M (t * env W) (option str) :=
  try_except
    (title ← external (create_branded_title (pd_address property_data)
                                            (pd_property_type property_data));
     let description := youtube_description property_data in
     p ← local progress_tracker;
     '(ok, url) ← zoom youtube_uploader set_youtube_uploader
        (YouTubeUploader.upload_video_with_confirmation
           video title description (Some upload_tags) None p);
     if ok : bool then mret (Some url)
     else mret (Some (lit "업로드 실패: " ++ url)))
    (fun _ => mret None).

Definition update_status (row : Z) (status : str) (url : option str)
  : M (t * env W) unit :=
  zoom sheets_manager set_sheets_manager
       (FixedSheetsManager.update_status row status url).

(** The artifacts of stages 1 to 8: video, script, deck, narration,
    subtitles, thumbnail and the published link. *)
Definition artifacts : Type :=
  (str * script_data * str * str * str * str * option str)%type.

(** The result returned by the [except] clause. *)
Definition failure_result (e : exn) (sheets_row_id : option Z)
  : ContentResult :=
  {| video_file := []; script := []; ppt_file := [];
     voice_file := []; subtitle_file := []; thumbnail_file := [];
     youtube_url := Some []; success := false;
     error_message := Some e; sheets_row_id := sheets_row_id |}.

(** [run_full_automation_with_notice], from the start of the [try] block
    to the end of stage 8. *)
Definition stages (property_address : str) (advertising_notice : str)
  : M (t * env W) artifacts :=
  update_local (set_progress_tracker (Some (ProgressTracker.init true)));;
  track 0 (lit "🚀 청산부동산 완전 자동화 시작...") 0;;
  track 1 (lit "🏠 부동산 데이터 수집 중...") 0;;
  property_data ← external (mock_property_data property_address
                                               advertising_notice);
  track 2 (lit "✍️ AI 스크립트 생성 중...") 0;;
  script_data ← external (_generate_branded_script_with_notice property_data);
  track 3 (lit "📊 브랜디드 PPT 생성 중...") 0;;
  ppt ← external (_create_branded_ppt_with_notice script_data property_data);
  track 4 (lit "🎨 썸네일 생성 중...") 0;;
  thumbnail ← external (_create_thumbnail property_data script_data);
  track 5 (lit "🎙️ 음성 생성 중...") 0;;
  '(voice, subtitle) ← external (_generate_real_voice_and_subtitles script_data);
  track 6 (lit "📝 자막 파일 생성 중...") 0;;
  track 7 (lit "🎬 영상 편집 중...") 0;;
  video ← external (_create_real_video ppt voice subtitle thumbnail);
  track 8 (lit "📺 YouTube 업로드 중...") 0;;
  url ← _upload_to_youtube_with_confirmation video property_data
                                             (full_script script_data);
  mret (video, script_data, ppt, voice, subtitle, thumbnail, url).

(** Stage 9 and the construction of the result. *)
Definition finalize (sheets_row_id : option Z) (a : artifacts)
  : M (t * env W) ContentResult :=
  let '(video, script_data, ppt, voice, subtitle, thumbnail, url) := a in
  track 9 (lit "✅ 최종 완료 및 상태 업데이트...") 0;;
  match row_given sheets_row_id with
  | Some row => update_status row (lit "완료") url
  | None => mret tt
  end;;
  let result :=
    {| video_file := video; script := full_script script_data;
       ppt_file := ppt; voice_file := voice; subtitle_file := subtitle;
       thumbnail_file := thumbnail; youtube_url := url; success := true;
       error_message := None; sheets_row_id := sheets_row_id |} in
  track 9 (lit "🎉 완전 자동화 100% 완료!") 100;;
  mret result.

(** [run_full_automation_with_notice]; the body never reads
    [property_type]. *)
Definition run_full_automation_with_notice (property_address : str)
    (property_type : str) (advertising_notice : str)
    (sheets_row_id : option Z) : M (t * env W) ContentResult :=
  try_except
    (stages property_address advertising_notice ≫= finalize sheets_row_id)
    (fun e =>
       match row_given sheets_row_id with
       | Some row => update_status row (lit "오류") (Some [])
       | None => mret tt
       end;;
       mret (failure_result e sheets_row_id)).

End WithBackend.
End Pipeline.

(** ** AutoMonitoringManager: the polling loop *)

Module AutoMonitoringManager.
Import FixedSheetsManager Pipeline.

Record thread := {
  thread_name : str;
  daemon : bool;
  started : bool
}.

Record t := {
  is_running : bool;
  check_interval : Z;
  last_check_time : Z;
  processed_items : gset str;
  sheet_url : option str;          (* unset until start_monitoring assigns it *)
  monitoring_thread : option thread
}.

(** The monitor together with the module-level [SHUTDOWN_FLAG]. *)
Record mstate := {
  self : t;
  SHUTDOWN_FLAG : bool
}.

(** What other threads and the outside world may change while a call of the
    monitoring thread blocks: the world, [is_running] (through
    [stop_monitoring]) and [SHUTDOWN_FLAG] (through the signal handler). *)
Record outside (W : Type) := {
  o_world : W;
  o_is_running : bool;
  o_shutdown : bool
}.
Arguments o_world {W} o.
Arguments o_is_running {W} o.
Arguments o_shutdown {W} o.

Definition set_is_running (b : bool) (m : t) : t :=
  {| is_running := b; check_interval := check_interval m;
     last_check_time := last_check_time m;
     processed_items := processed_items m; sheet_url := sheet_url m;
     monitoring_thread := monitoring_thread m |}.

Definition set_last_check_time (now : Z) (m : t) : t :=
  {| is_running := is_running m; check_interval := check_interval m;
     last_check_time := now;
     processed_items := processed_items m; sheet_url := sheet_url m;
     monitoring_thread := monitoring_thread m |}.

Definition set_sheet_url (u : str) (m : t) : t :=
  {| is_running := is_running m; check_interval := check_interval m;
     last_check_time := last_check_time m;
     processed_items := processed_items m; sheet_url := Some u;
     monitoring_thread := monitoring_thread m |}.

Definition set_monitoring_thread (th : thread) (m : t) : t :=
  {| is_running := is_running m; check_interval := check_interval m;
     last_check_time := last_check_time m;
     processed_items := processed_items m; sheet_url := sheet_url m;
     monitoring_thread := Some th |}.

(** [self.processed_items.add(item_id)] *)
Definition add_processed (item_id : str) (m : t) : t :=
  {| is_running := is_running m; check_interval := check_interval m;
     last_check_time := last_check_time m;
     processed_items := {[ item_id ]} ∪ processed_items m;
     sheet_url := sheet_url m;
     monitoring_thread := monitoring_thread m |}.

Definition on_self (f : t -> t) (s : mstate) : mstate :=
  {| self := f (self s); SHUTDOWN_FLAG := SHUTDOWN_FLAG s |}.

(** [not self.is_running or SHUTDOWN_FLAG] *)
Definition stop_requested (s : mstate) : bool :=
  negb (is_running (self s)) || SHUTDOWN_FLAG s.

Definition default_sheet_url : str :=
  lit "https://docs.google.com/spreadsheets/d/1xXxaMYfdTytn3a28_c9AuAEMU4Uu3PLI99FfWZHbknE/edit?usp=sharing".

Definition thread_label : str := lit "AutoMonitoringThread".

(** The key of the filter in [_check_and_process_new_items]:
    [f"{item.get('row_id', '')}_{item.get('address', '')}"]. *)
Definition item_key (it : item) : str :=
  of_Z (row_id it) ++ lit "_" ++ address it.

(** The key of [_process_single_item], whose [address] is
    [item.get('address', '').strip()]. *)
Definition processed_key (it : item) : str :=
  of_Z (row_id it) ++ lit "_" ++ strip (address it).

(** [new_items] after the filtering loop. *)
Definition new_items (pending : list item) (processed : gset str) : list item :=
  List.filter (fun it => bool_decide (item_key it ∉ processed)) pending.

(** The collaborators of the monitoring thread. Every call blocks, so each
    one sees and returns the [outside]. *)
Class Backend (W : Type) := {
  (** [self.automation.sheets_manager.get_property_queue] *)
  get_property_queue : str -> outside W -> outside W * outcome (list item);
  (** [self.automation.sheets_manager.update_status] *)
  update_status :
    Z -> str -> option str -> outside W -> outside W * outcome unit;
  (** [self.automation.run_full_automation_with_notice] *)
  run_full_automation_with_notice :
    str -> str -> str -> Z -> outside W -> outside W * outcome ContentResult;
  (** [self._send_completion_notification] *)
  _send_completion_notification :
    str -> ContentResult -> outside W -> outside W * outcome unit;
  (** [time.sleep] *)
  sleep : Z -> outside W -> outside W;
  (** [self.monitoring_thread.is_alive()] *)
  is_alive : thread -> W -> bool;
  (** [datetime.now()] *)
  clock : W -> Z
}.

Section WithBackend.
Context {W : Type} {B : Backend W}.

Definition view (st : mstate * env W) : outside W :=
  {| o_world := world st.2; o_is_running := is_running (self st.1);
     o_shutdown := SHUTDOWN_FLAG st.1 |}.

Definition merge (st : mstate * env W) (o : outside W) : mstate * env W :=
  ({| self := set_is_running (o_is_running o) (self st.1);
      SHUTDOWN_FLAG := o_shutdown o |},
   {| world := o_world o; trace := trace st.2 |}).

(** A blocking call of the monitoring thread. *)
Definition blocking {A} (f : outside W -> outside W * outcome A)
  : M (mstate * env W) A :=
  fun st => let '(o, r) := f (view st) in (merge st o, r).

Definition nap (seconds : Z) : M (mstate * env W) unit :=
  emit (Sleep seconds);;
  blocking (fun o => (sleep seconds o, Ret tt)).

Definition write_status (row : Z) (status : str) (url : option str)
  : M (mstate * env W) unit :=
  emit (StatusWrite row status (default [] url));;
  blocking (update_status row status url).

(** [start_monitoring] *)
Definition start_monitoring (url : str) : M (mstate * env W) unit :=
  running ← local (fun s => is_running (self s));
  if running : bool then mret tt
  else
    update_local (on_self (set_is_running true));;
    update_local (on_self (set_sheet_url url));;
    update_local (on_self (set_monitoring_thread
      {| thread_name := thread_label; daemon := true; started := true |}));;
    emit (ThreadStart thread_label).

(** [stop_monitoring] *)
Definition stop_monitoring : M (mstate * env W) unit :=
  update_local (on_self (set_is_running false));;
  th ← local (fun s => monitoring_thread (self s));
  match th with
  | Some th =>
    alive ← external (fun w => (w, Ret (is_alive th w)));
    if alive : bool then nap 2 else mret tt
  | None => mret tt
  end.

(** The attributes assigned by [__init__] before it calls
    [start_monitoring]. *)
Definition fresh (now : Z) : t :=
  {| is_running := false; check_interval := 300; last_check_time := now;
     processed_items := ∅; sheet_url := None; monitoring_thread := None |}.

(** [AutoMonitoringManager.__init__] *)
Definition __init__ : M (mstate * env W) unit :=
  now ← external (fun w => (w, Ret (clock w)));
  update_local (on_self (fun _ => fresh now));;
  start_monitoring default_sheet_url.

(** [_process_single_item]. The names bound at the top of the [try] block
    are bound here: on a row of the queue none of them can raise. *)
Definition _process_single_item (it : item) : M (mstate * env W) unit :=
  let address := strip (FixedSheetsManager.address it) in
  let row := row_id it in
  let notice := advertising_notice it in
  let item_id := of_Z row ++ lit "_" ++ address in
  try_except
    (if negb (nonempty address) then
       update_local (on_self (add_processed item_id))
     else
       write_status row (lit "처리중") (Some []);;
       emit (PipelineRun address (FixedSheetsManager.property_type it) notice row);;
       result ← blocking (run_full_automation_with_notice
                            address (FixedSheetsManager.property_type it)
                            notice row);
       '(status, url) ←
         (if success result then
            emit (Notify address);;
            blocking (_send_completion_notification address result);;
            mret (lit "완료", youtube_url result)
          else
            mret (lit "오류",
                  Some (lit "오류: "
                        ++ default (lit "None") (error_message result))));
       write_status row status url;;
       update_local (on_self (add_processed item_id));;
       nap 10)
    (fun e =>
       update_local (on_self (add_processed item_id));;
       try_except
         (write_status row (lit "오류")
                       (Some (lit "처리 실패: " ++ prefix 100 e)))
         (fun _ => mret tt)).

(** [for item in new_items: if stop requested: break; process item] *)
Fixpoint process_new_items (items : list item) : M (mstate * env W) unit :=
  match items with
  | [] => mret tt
  | it :: rest =>
    stop ← local stop_requested;
    if stop : bool then mret tt
    else _process_single_item it;; process_new_items rest
  end.

(** [_check_and_process_new_items] *)
Definition _check_and_process_new_items : M (mstate * env W) unit :=
  try_except
    (now ← external (fun w => (w, Ret (clock w)));
     update_local (on_self (set_last_check_time now));;
     u ← local (fun s => sheet_url (self s));
     match u with
     | None =>
       raise (lit "'AutoMonitoringManager' object has no attribute 'sheet_url'")
     | Some url =>
       emit (QueueRead url);;
       pending ← blocking (get_property_queue url);
       processed ← local (fun s => processed_items (self s));
       process_new_items (new_items pending processed)
     end)
    (fun _ => mret tt).

(** The interval wait: [for _ in range(n): if stop requested: break;
    time.sleep(1)]. *)
Fixpoint interval_wait (n : nat) : M (mstate * env W) unit :=
  match n with
  | O => mret tt
  | S n' =>
    stop ← local stop_requested;
    if stop : bool then mret tt
    else nap 1;; interval_wait n'
  end.

(** [_monitoring_loop], run for at most [fuel] turns of its [while]. *)
Fixpoint _monitoring_loop (fuel : nat) : M (mstate * env W) unit :=
  match fuel with
  | O => mret tt
  | S fuel' =>
    stop ← local stop_requested;
    if stop : bool then mret tt
    else
      try_except
        (_check_and_process_new_items;;
         n ← local (fun s => check_interval (self s));
         interval_wait (Z.to_nat n))
        (fun _ => nap 30);;
      _monitoring_loop fuel'
  end.

End WithBackend.
End AutoMonitoringManager.

(** ** CompleteAutomationSystem: construction and the monitoring commands *)

Module System.
Import AutoMonitoringManager.

Record t := {
  pipeline : Pipeline.t;
  auto_monitor : mstate
}.

Definition set_auto_monitor (m : mstate) (s : t) : t :=
  {| pipeline := pipeline s; auto_monitor := m |}.

Section WithBackend.
Context {W : Type} {B : AutoMonitoringManager.Backend W}.
Variable YOUTUBE_API_AVAILABLE : bool.

(** [AutoMonitoringManager(automation)]: the object after [__init__]. *)
Definition new_monitor (shutdown : bool) (e : env W)
  : (mstate * env W) * outcome unit :=
  __init__ ({| self := fresh 0; SHUTDOWN_FLAG := shutdown |}, e).

(** [CompleteAutomationSystem()]: the attributes the pipeline and the
    monitor use, in the order [__init__] assigns them. *)
Definition new_system (shutdown : bool) (e : env W)
  : (t * env W) * outcome unit :=
  let p := {| Pipeline.sheets_manager := FixedSheetsManager.init;
              Pipeline.youtube_uploader :=
                YouTubeUploader.init YOUTUBE_API_AVAILABLE;
              Pipeline.progress_tracker := None |} in
  let '((m, e'), r) := new_monitor shutdown e in
  (({| pipeline := p; auto_monitor := m |}, e'), r).

(** [start_auto_monitoring] *)
Definition start_auto_monitoring (url : str) : M (t * env W) bool :=
  try_except
    (zoom auto_monitor set_auto_monitor (start_monitoring url);; mret true)
    (fun _ => mret false).

(** [stop_auto_monitoring] *)
Definition stop_auto_monitoring : M (t * env W) bool :=
  try_except
    (zoom auto_monitor set_auto_monitor stop_monitoring;; mret true)
    (fun _ => mret false).

End WithBackend.
End System.

(** ** Statements of the specification, in its own words *)

Module Spec.

(** The overall percent of the specification:
    [floor(100 * (stage + subPercent/100) / totalStages)], which over the
    integers is [(100 * stage + subPercent) / totalStages] rounded down. *)
Definition percent (totalStages stage subPercent : Z) : Z :=
  (100 * stage + subPercent) / totalStages.

End Spec.

(** * Further parts of the program *)

(** ** The header matching of [FixedSheetsManager.update_status] *)

Module SheetColumns.

Definition status_headers : list str :=
  [lit "status"; lit "상태"; lit "Status"; lit "처리상태"].

Definition url_headers : list str :=
  [lit "url"; lit "링크"; lit "link"; lit "youtube"; lit "YouTube";
   lit "video_url"; lit "동영상링크"].

Section Columns.
(** [str.lower] *)
Variable lower : str -> str.

(** [any(keyword.lower() in header_lower for keyword in keywords)] with
    [header_lower = header.lower().strip()] *)
Definition header_matches (keywords : list str) (header : str) : bool :=
  existsb (fun keyword => contains (lower keyword) (strip (lower header)))
          keywords.

(** The loop over [enumerate(headers)] for one of the two columns: [col]
    is the column found so far, [i] the index of the next header. *)
Fixpoint find_col_from (keywords : list str) (i : nat) (headers : list str)
    (col : option nat) : option nat :=
  match headers with
  | [] => col
  | header :: rest =>
    find_col_from keywords (S i) rest
      (if header_matches keywords header then Some (S i) else col)
  end.

(** [status_col] (or [url_col]) after the loop. *)
Definition find_col (keywords headers : list str) : option nat :=
  find_col_from keywords 0 headers None.

End Columns.
End SheetColumns.


(** ** The subtitle file of [CompleteAutomationSystem] *)

Module Subtitles.
Import Pipeline.

(** [f"{n:02d}"] *)
Definition two_digits (n : Z) : str :=
  if (0 <=? n) && (n <? 10) then 48%N :: of_Z n else of_Z n.

(** [_format_time] *)
Definition _format_time (seconds : Z) : str :=
  let hours := seconds / 3600 in
  let minutes := (seconds mod 3600) / 60 in
  let secs := seconds mod 60 in
  two_digits hours ++ lit ":" ++ two_digits minutes ++ lit ":"
    ++ two_digits secs ++ lit ",000".

Definition full_stop : N := 46.

(** [s.split(sep)] for a separator of one character *)
Fixpoint split_on (sep : N) (s : str) : list str :=
  match s with
  | [] => [[]]
  | c :: s' =>
    if (c =? sep)%N then [] :: split_on sep s'
    else match split_on sep s' with
         | piece :: rest => (c :: piece) :: rest
         | [] => [[c]]
         end
  end.

(** [[s.strip() for s in script.split('.') if s.strip()]] *)
Definition sentences (script : str) : list str :=
  List.filter nonempty (List.map strip (split_on full_stop script)).

(** The three lines the loop appends for the sentence at index [i]. *)
Definition cue (i : nat) (sentence : str) : str :=
  of_Z (Z.of_nat i + 1) ++ nl
  ++ _format_time (Z.of_nat i * 10) ++ lit " --> "
  ++ _format_time ((Z.of_nat i + 1) * 10) ++ nl
  ++ sentence ++ nl ++ nl.

(** [subtitle_content] after the loop over [enumerate(sentences[:20])]. *)
Definition subtitle_content (script : str) : str :=
  concat (imap cue (take 20 (sentences script))).

Section WithWorld.
Context {W L : Type}.
(** [open(filename, 'w', encoding='utf-8')] followed by [f.write] *)
Variable write_text : str -> str -> W -> W * outcome unit.

(** [_create_subtitle_file] *)
Definition _create_subtitle_file (script filename : str)
  : M (L * env W) unit :=
  let subtitle_content := subtitle_content script in
  try_except (external (write_text filename subtitle_content))
             (fun _ => mret tt).

End WithWorld.
End Subtitles.

(** ** The sample data of [EnhancedMockAPIHandler] *)

Module EnhancedMockAPIHandler.
Import Pipeline.

(** [CheongsanBrandingManager.get_advertising_notice] *)
Definition get_advertising_notice : str :=
  lit "⚠️ 광고시 유의사항:" ++ nl
  ++ lit "본 영상은 정보 제공 목적으로 제작되었으며, 투자 권유가 아닙니다." ++ nl
  ++ lit "부동산 투자 시에는 시장 상황, 개인의 재정 상태, 투자 목적 등을 종합적으로 고려하여 신중하게 결정하시기 바랍니다." ++ nl
  ++ lit "모든 투자에는 리스크가 따르며, 투자 결과에 대한 책임은 투자자 본인에게 있습니다." ++ nl
  ++ lit "정확한 정보는 공인중개사 및 관련 전문가와 상담 후 확인하시기 바랍니다.".

Definition trends : list str := [lit "상승"; lit "보합"; lit "하락"].

Section WithRandom.
Context {W : Type}.
(** [random.randint(a, b)] *)
Variable randint : Z -> Z -> W -> W * Z.
(** [random.choice(seq)] *)
Variable choice : list str -> W -> W * str.

(** [mock_property_data]; the fields left out of the constructor call take
    the defaults of the dataclass. *)
Definition mock_property_data (address advertising_notice : str) (w : W)
  : W * PropertyData :=
  let '(w, price_base) := randint 30000 80000 w in
  let '(w, d1) := randint (-500) 500 w in
  let '(w, d2) := randint (-300) 300 w in
  let '(w, d3) := randint (-200) 200 w in
  let recent_prices :=
    [of_Z (price_base + d1) ++ lit "만원";
     of_Z (price_base + d2) ++ lit "만원";
     of_Z (price_base + d3) ++ lit "만원"] in
  let '(w, trend) := choice trends w in
  let advertising_notice :=
    if negb (nonempty advertising_notice) then get_advertising_notice
    else advertising_notice in
  (w,
   {| pd_address := address;
      pd_property_type := lit "아파트";
      average_price := of_Z price_base ++ lit "만원";
      recent_trades := recent_prices;
      price_trend := trend;
      market_analysis :=
        lit "최근 3개월간 거래량이 증가하고 있으며, " ++ trend
        ++ lit " 추세를 보이고 있습니다. "
        ++ lit "주변 재개발 계획과 교통 호재로 인해 중장기적으로 안정적인 투자처로 평가됩니다.";
      school_info := lit "초등학교 도보 5분, 중학교 도보 8분, 고등학교 도보 12분";
      transport_info :=
        lit "지하철 2호선 도보 10분, 버스정류장 3분, 고속도로 진입 15분";
      pd_advertising_notice := advertising_notice;
      contact_info := lit "청산부동산 02-1234-5678";
      brand_message :=
        lit "신뢰할 수 있는 부동산 전문가, 청산부동산과 함께하세요" |}).

End WithRandom.
End EnhancedMockAPIHandler.

(** ** Closing a deal: [update_all_listings_to_completed] *)

Module Listings.
Import Pipeline.

(** [a and b], where [a] is what [update_status] returned and [b] a
    [bool]; [None] stands for Python's [None]. *)
Definition py_and (a : option bool) (b : bool) : option bool :=
  match a with
  | None => None
  | Some false => Some false
  | Some true => Some b
  end.

(** [bool(x)] *)
Definition truth (x : option bool) : bool := default false x.

Section WithBackend.
Context {W : Type} {B : Backend W}.
(** [plyer.notification.notify]; the import itself may raise. *)
Variable notify : str -> W -> W * outcome unit.

(** [TENWebsiteManager.update_deal_status] *)
Definition update_deal_status (property_address status : str)
  : M (t * env W) bool :=
  try_except (mret true) (fun _ => mret false).

(** [CompleteAutomationSystem._send_completion_notification] *)
Definition _send_completion_notification (property_address : str)
  : M (t * env W) unit :=
  try_except (external (notify property_address)) (fun _ => mret tt).

(** [update_all_listings_to_completed]. [update_status] has no [return]
    with a value, so [sheets_result] is [None]. *)
Definition update_all_listings_to_completed (property_address : str)
  : M (t * env W) (option bool) :=
  try_except
    (sheets_result ← (update_status 1 (lit "거래완료") (Some []);;
                      mret (@None bool));
     ten_result ← update_deal_status property_address (lit "거래완료");
     _send_completion_notification property_address;;
     mret (py_and sheets_result ten_result))
    (fun _ => mret (Some false)).

End WithBackend.
End Listings.

(** ** [YouTubeUploader.setup_youtube_auth] *)

Module YouTubeAuth.
Import YouTubeUploader.

Definition set_youtube_service (b : bool) (self : t) : t :=
  {| youtube_service := b; api_available := api_available self;
     auto_upload_mode := auto_upload_mode self |}.

Section WithWorld.
Context {W : Type}.
(** [os.path.exists] *)
Variable path_exists : str -> W -> bool.
(** [InstalledAppFlow.from_client_secrets_file(...).run_local_server(port=0)] *)
Variable run_flow : str -> W -> W * outcome unit.
(** [build('youtube', 'v3', credentials=...)] *)
Variable build : W -> W * outcome unit.

(** [setup_youtube_auth]; of the two attributes it assigns, the model
    keeps [youtube_service]. *)
Definition setup_youtube_auth (client_secrets_file : str)
  : M (t * env W) bool :=
  try_except
    (available ← local api_available;
     if negb available then mret false
     else
       found ← external (fun w => (w, Ret (path_exists client_secrets_file w)));
       if negb found then mret false
       else
         external (run_flow client_secrets_file);;
         external build;;
         update_local (set_youtube_service true);;
         mret true)
    (fun _ => mret false).

End WithWorld.
End YouTubeAuth.
(** ** Predicates used in the statements *)

Module Props.
Import ProgressTracker.

(** A check over every stage of a ten-stage tracker and every
    [sub_progress] from 0 to 100. *)
Definition on_grid (P : Z -> Z -> bool) : bool :=
  forallb (fun stage => forallb (P stage) (seqZ 0 101)) (seqZ 0 10).

(** What [update] computes with ten stages: ten times the stage, plus one
    when [sub_progress] is 100 (except at stage 9, where the binary64
    product falls just below 91). *)
Definition code_percent (stage sub : Z) : Z :=
  10 * stage + (if (sub =? 100) && negb (stage =? 9) then 1 else 0).

Definition is_prompt (ev : event) : bool :=
  match ev with ConfirmPrompt _ _ _ => true | _ => false end.

Definition is_upload (ev : event) : bool :=
  match ev with UploadAttempt _ _ _ => true | _ => false end.

Definition is_progress (ev : event) : bool :=
  match ev with Progress _ _ => true | _ => false end.

Definition is_status_write (ev : event) : bool :=
  match ev with StatusWrite _ _ _ => true | _ => false end.

(** A connection strategy that never connects: it answers [False] or raises. *)
Definition fails {W} (s : FixedSheetsManager.strategy W) : Prop :=
  forall url m w, (s url m w).2 <> Ret true.

(** The address of a queue item carries no surrounding white space. *)
Definition stripped (it : FixedSheetsManager.item) : Prop :=
  strip (FixedSheetsManager.address it) = FixedSheetsManager.address it.

(** A tracker as the pipeline builds it: ten stages, positioned on one. *)
Definition tracker_ok (p : option ProgressTracker.t) : Prop :=
  match p with
  | None => True
  | Some tr => total_steps tr = 10 /\ 0 <= current_step tr < 10
  end.

(** Every value the computation can return satisfies [Q]. *)
Definition returns {S A} (m : M S A) (Q : A -> Prop) : Prop :=
  forall s s' a, m s = (s', Ret a) -> Q a.

(** Whatever the computation does, the events it appends to the trace
    satisfy [P]. *)
Definition emits_only {W L A} (P : event -> Prop) (m : M (L * env W) A)
  : Prop :=
  forall l e st' r, m (l, e) = (st', r) ->
    exists evs, trace st'.2 = trace e ++ evs /\ Forall P evs.

Definition not_status_write (ev : event) : Prop := is_status_write ev = false.

(** A blocking call during which nobody calls [stop_monitoring] or
    raises the shutdown flag (and nobody restarts the monitor either). *)
Definition keeps_flags {W A}
    (f : AutoMonitoringManager.outside W
         -> AutoMonitoringManager.outside W * outcome A) : Prop :=
  forall o,
    AutoMonitoringManager.o_is_running (f o).1
    = AutoMonitoringManager.o_is_running o
    /\ AutoMonitoringManager.o_shutdown (f o).1
       = AutoMonitoringManager.o_shutdown o.

(** No stop request arrives while the monitoring thread works. *)
Definition undisturbed {W} (B : AutoMonitoringManager.Backend W) : Prop :=
  (forall url, keeps_flags (AutoMonitoringManager.get_property_queue url))
  /\ (forall row status url,
        keeps_flags (AutoMonitoringManager.update_status row status url))
  /\ (forall a t n row,
        keeps_flags
          (AutoMonitoringManager.run_full_automation_with_notice a t n row))
  /\ (forall a r,
        keeps_flags (AutoMonitoringManager._send_completion_notification a r))
  /\ (forall s,
        keeps_flags (fun o => (AutoMonitoringManager.sleep s o, Ret tt))).

(** Every run of the computation relates the state before to the state
    after by [R], whether it returns or raises. *)
Definition respects {S A} (R : S -> S -> Prop) (m : M S A) : Prop :=
  forall s s' r, m s = (s', r) -> R s s'.

(** Between two states of the monitoring thread: no stop request has
    appeared or disappeared, and the sheet reference is the same. *)
Definition flags_kept {W}
    (st st' : AutoMonitoringManager.mstate * env W) : Prop :=
  AutoMonitoringManager.stop_requested st'.1
  = AutoMonitoringManager.stop_requested st.1
  /\ AutoMonitoringManager.sheet_url (AutoMonitoringManager.self st'.1)
     = AutoMonitoringManager.sheet_url (AutoMonitoringManager.self st.1).

(** The queue answers [pending] at every call. *)
Definition queue_answers {W} (B : AutoMonitoringManager.Backend W)
    (pending : list FixedSheetsManager.item) : Prop :=
  forall url o, (AutoMonitoringManager.get_property_queue url o).2 = Ret pending.

(** The state after [k] one-second naps of the interval wait. *)
Fixpoint after_naps {W} {B : AutoMonitoringManager.Backend W} (k : nat)
    (st : AutoMonitoringManager.mstate * env W)
  : AutoMonitoringManager.mstate * env W :=
  match k with
  | O => st
  | S k' => after_naps k' (AutoMonitoringManager.nap 1 st).1
  end.

End Props.

(** ** Concrete backends, for evaluating the model *)

Module Demo.

(** An operator who declines every upload; uploads, when made, succeed. *)
#[local] Instance declining_operator : YouTubeUploader.Backend unit := {|
  YouTubeUploader.callback := fun _ _ w => (w, Ret tt);
  YouTubeUploader._show_upload_confirmation := fun _ _ _ w => (w, Ret false);
  YouTubeUploader._upload_to_youtube :=
    fun _ _ _ _ _ w => (w, Ret (true, lit "https://www.youtube.com/watch?v=abc"));
  YouTubeUploader._mock_upload :=
    fun _ _ w => (w, Ret (true, lit "https://www.youtube.com/watch?v=mock_0"))
|}.

Definition empty_env : env unit := {| world := tt; trace := [] |}.

(** Case mapping restricted to ASCII letters, enough for the rows below. *)
Definition ascii_lower (s : str) : str :=
  List.map (fun c => if (65 <=? c)%N && (c <=? 90)%N then (c + 32)%N else c) s.

Definition no_strategy : FixedSheetsManager.strategy unit :=
  fun _ m w => ((m, w), Ret false).

(** A machine with the sheets library installed and no backend in reach:
    every connection strategy answers [False]. *)
#[local] Instance unreachable : FixedSheetsManager.Backend unit := {|
  FixedSheetsManager.GSPREAD_AVAILABLE := true;
  FixedSheetsManager._try_service_account_fixed := no_strategy;
  FixedSheetsManager._try_public_csv_improved := no_strategy;
  FixedSheetsManager._try_api_key_improved := no_strategy;
  FixedSheetsManager._try_oauth_flow := no_strategy;
  FixedSheetsManager.get_all_records := fun _ w => (w, Raise (lit "offline"));
  FixedSheetsManager.update_cells := fun _ _ _ _ w => (w, Raise (lit "offline"));
  FixedSheetsManager.today := fun _ => lit "2024-01-01";
  FixedSheetsManager.lower := ascii_lower
|}.

(** A pipeline whose data collection (stage 1) raises; the uploader's
    operator is the declining one, the sheet is out of reach. *)
#[local] Instance broken_stage_1 : Pipeline.Backend unit := {|
  Pipeline.sheets_backend := unreachable;
  Pipeline.upload_backend := declining_operator;
  Pipeline.mock_property_data := fun _ _ w => (w, Raise (lit "boom"));
  Pipeline._generate_branded_script_with_notice :=
    fun _ w => (w, Raise (lit "unused"));
  Pipeline._create_branded_ppt_with_notice :=
    fun _ _ w => (w, Raise (lit "unused"));
  Pipeline._create_thumbnail := fun _ _ w => (w, Raise (lit "unused"));
  Pipeline._generate_real_voice_and_subtitles :=
    fun _ w => (w, Raise (lit "unused"));
  Pipeline._create_real_video := fun _ _ _ _ w => (w, Raise (lit "unused"));
  Pipeline.create_branded_title := fun _ _ w => (w, Raise (lit "unused"))
|}.

(** A system that has just been constructed, before any run. *)
Definition idle_pipeline : Pipeline.t :=
  {| Pipeline.sheets_manager := FixedSheetsManager.init;
     Pipeline.youtube_uploader := YouTubeUploader.init false;
     Pipeline.progress_tracker := None |}.

(** A monitoring thread on a machine whose world is a clock in seconds:
    the queue always answers [pending], the pipeline raises when
    [pipeline_raises] and fails otherwise, and [stop_monitoring] is called
    from outside once the clock reaches [stop_at]. *)
#[local] Instance monitor_backend (pending : list FixedSheetsManager.item)
    (pipeline_raises : bool) (stop_at : option Z)
  : AutoMonitoringManager.Backend Z := {|
  AutoMonitoringManager.get_property_queue := fun _ o => (o, Ret pending);
  AutoMonitoringManager.update_status := fun _ _ _ o => (o, Ret tt);
  AutoMonitoringManager.run_full_automation_with_notice :=
    fun _ _ _ row o =>
      (o, if pipeline_raises then Raise (lit "renderer crashed")
          else Ret (Pipeline.failure_result (lit "boom") (Some row)));
  AutoMonitoringManager._send_completion_notification :=
    fun _ _ o => (o, Ret tt);
  AutoMonitoringManager.sleep := fun s o =>
    let now := AutoMonitoringManager.o_world o + s in
    {| AutoMonitoringManager.o_world := now;
       AutoMonitoringManager.o_is_running :=
         match stop_at with
         | Some t => if t <=? now then false
                     else AutoMonitoringManager.o_is_running o
         | None => AutoMonitoringManager.o_is_running o
         end;
       AutoMonitoringManager.o_shutdown := AutoMonitoringManager.o_shutdown o |};
  AutoMonitoringManager.is_alive := fun _ _ => true;
  AutoMonitoringManager.clock := fun w => w
|}.

(** A running monitor that has processed nothing yet. *)
Definition running_monitor : AutoMonitoringManager.mstate * env Z :=
  ({| AutoMonitoringManager.self :=
        AutoMonitoringManager.set_sheet_url AutoMonitoringManager.default_sheet_url
          (AutoMonitoringManager.set_is_running true
             (AutoMonitoringManager.fresh 0));
      AutoMonitoringManager.SHUTDOWN_FLAG := false |},
   {| world := 0; trace := [] |}).

(** Two rows of a sheet whose work is finished. *)
Definition finished_rows : list FixedSheetsManager.record :=
  [ {[ lit "address" := FixedSheetsManager.VStr (lit "서울시 강남구");
       lit "status" := FixedSheetsManager.VStr (lit "완료") ]};
    {[ lit "address" := FixedSheetsManager.VStr (lit "Seoul Gangnam Apt");
       lit "status" := FixedSheetsManager.VStr (lit "done") ]} ].

(** A manager that loaded [rows] through the public CSV strategy. *)
Definition cached (rows : list FixedSheetsManager.record)
  : FixedSheetsManager.t :=
  {| FixedSheetsManager.client := false;
     FixedSheetsManager.sheet := None;
     FixedSheetsManager.data_source := FixedSheetsManager.SrcPublicCsv;
     FixedSheetsManager.last_data := rows;
     FixedSheetsManager.is_connected := true |}.

End Demo.

(** ** More predicates used in the statements *)

Module Props2.

(** The attributes of [self] are the same before and after. *)
Definition same_self {W L} (st st' : L * env W) : Prop := st'.1 = st.1.

(** The upload worker step 2 of [upload_video_with_confirmation] calls:
    the real one when a service was set up, the mock one otherwise. *)
Definition worker {W} {B : YouTubeUploader.Backend W}
    (self : YouTubeUploader.t) (video title description : str)
    (tags : option (list str)) (thumbnail : option str) (w : W)
  : W * outcome (bool * str) :=
  if YouTubeUploader.youtube_service self
  then YouTubeUploader._upload_to_youtube video title description tags
         thumbnail w
  else YouTubeUploader._mock_upload video title w.

(** What the [except] clause of [upload_video_with_confirmation] makes of
    an outcome. *)
Definition caught (r : outcome (bool * str)) : outcome (bool * str) :=
  match r with Ret a => Ret a | Raise x => Ret (false, x) end.

(** No cell of the row under the header [g] is true. *)
Definition no_truthy (r : FixedSheetsManager.record) (g : str) : Prop :=
  forall u, r !! g = Some u -> FixedSheetsManager.truthy u = false.

(** The items listed for the rows of a sheet from position [k] on. *)
Definition items_from (lower : str -> str) (today : str) (k : nat)
    (records : list FixedSheetsManager.record)
  : list FixedSheetsManager.item :=
  omap (fun '(idx, r) => FixedSheetsManager.row_item lower today idx r)
       (imap (fun i r => ((k + i)%nat, r)) records).

(** A pipeline whose tracker is the ten-stage one. *)
Definition tracking (l : Pipeline.t) : Prop :=
  exists tr, Pipeline.progress_tracker l = Some tr
             /\ ProgressTracker.total_steps tr = 10.

(** Starting with [I] on the attributes, the computation returns, with [I]
    again and [Q] on the value. *)
Definition total_with {W A} (I : Pipeline.t -> Prop)
    (m : M (Pipeline.t * env W) A) (Q : A -> Prop) : Prop :=
  forall l e, I l ->
    exists l' e' a, m (l, e) = ((l', e'), Ret a) /\ I l' /\ Q a.

(** No stage worker raises. *)
Definition workers_never_raise {W} (B : Pipeline.Backend W) : Prop :=
  (forall a n w, exists w' p, Pipeline.mock_property_data a n w = (w', Ret p))
  /\ (forall p w, exists w' s,
        Pipeline._generate_branded_script_with_notice p w = (w', Ret s))
  /\ (forall s p w, exists w' f,
        Pipeline._create_branded_ppt_with_notice s p w = (w', Ret f))
  /\ (forall p s w, exists w' f, Pipeline._create_thumbnail p s w = (w', Ret f))
  /\ (forall s w, exists w' f,
        Pipeline._generate_real_voice_and_subtitles s w = (w', Ret f))
  /\ (forall a b c d w, exists w' f,
        Pipeline._create_real_video a b c d w = (w', Ret f)).

(** Between two states of the monitor: no key has left the processed
    set, and the sheet reference, the polling interval and the thread are
    the same. *)
Definition grows {W}
    (st st' : AutoMonitoringManager.mstate * env W) : Prop :=
  AutoMonitoringManager.processed_items (AutoMonitoringManager.self st.1)
  ⊆ AutoMonitoringManager.processed_items (AutoMonitoringManager.self st'.1)
  /\ AutoMonitoringManager.sheet_url (AutoMonitoringManager.self st'.1)
     = AutoMonitoringManager.sheet_url (AutoMonitoringManager.self st.1)
  /\ AutoMonitoringManager.check_interval (AutoMonitoringManager.self st'.1)
     = AutoMonitoringManager.check_interval (AutoMonitoringManager.self st.1)
  /\ AutoMonitoringManager.monitoring_thread (AutoMonitoringManager.self st'.1)
     = AutoMonitoringManager.monitoring_thread (AutoMonitoringManager.self st.1).

(** The 30-second pause of the [except] clause of [_monitoring_loop]. *)
Definition is_back_off (ev : event) : bool :=
  match ev with Sleep s => s =? 30 | _ => false end.

(** One turn of the [while] loop of [_monitoring_loop], without its
    [except] clause. *)
Definition turn {W} {B : AutoMonitoringManager.Backend W}
  : M (AutoMonitoringManager.mstate * env W) unit :=
  AutoMonitoringManager._check_and_process_new_items;;
  n ← local (fun s => AutoMonitoringManager.check_interval
                        (AutoMonitoringManager.self s));
  AutoMonitoringManager.interval_wait (Z.to_nat n).

(** Reading a time stamp [HH:MM:SS,000] back into seconds. *)
Definition digit (c : N) : option Z :=
  if ((48 <=? c) && (c <=? 57))%N then Some (Z.of_N c - 48) else None.

Definition read_time (s : str) : option Z :=
  match s with
  | [h1; h2; c1; m1; m2; c2; s1; s2; k; z1; z2; z3] =>
    if ((c1 =? 58) && (c2 =? 58) && (k =? 44)
        && (z1 =? 48) && (z2 =? 48) && (z3 =? 48))%N
    then
      a ← digit h1; b ← digit h2; c ← digit m1; d ← digit m2;
      e ← digit s1; f ← digit s2;
      Some (3600 * (10 * a + b) + 60 * (10 * c + d) + (10 * e + f))
    else None
  | _ => None
  end.

End Props2.

(** ** More concrete backends *)

Module Demo2.

(** An observer that always raises. *)
Definition failing_observer : str -> Z -> unit -> unit * outcome unit :=
  fun _ _ w => (w, Raise (lit "observer failed")).

(** An operator who accepts every upload, on a machine whose upload
    workers raise. *)
#[local] Instance crashing_uploader : YouTubeUploader.Backend unit := {|
  YouTubeUploader.callback := fun _ _ w => (w, Ret tt);
  YouTubeUploader._show_upload_confirmation := fun _ _ _ w => (w, Ret true);
  YouTubeUploader._upload_to_youtube :=
    fun _ _ _ _ _ w => (w, Raise (lit "network down"));
  YouTubeUploader._mock_upload := fun _ _ w => (w, Raise (lit "network down"))
|}.

(** A strategy that connects: it loads two rows as the public CSV
    strategy does. *)
Definition csv_connects : FixedSheetsManager.strategy unit :=
  fun _ m w =>
    (({| FixedSheetsManager.client := FixedSheetsManager.client m;
         FixedSheetsManager.sheet := FixedSheetsManager.sheet m;
         FixedSheetsManager.data_source := FixedSheetsManager.SrcPublicCsv;
         FixedSheetsManager.last_data := Demo.finished_rows;
         FixedSheetsManager.is_connected :=
           FixedSheetsManager.is_connected m |}, w), Ret true).

Definition sample_property : Pipeline.PropertyData :=
  {| Pipeline.pd_address := lit "Seoul Gangnam Apt";
     Pipeline.pd_property_type := lit "아파트";
     Pipeline.average_price := lit "50000만원";
     Pipeline.recent_trades := [lit "50100만원"];
     Pipeline.price_trend := lit "상승";
     Pipeline.market_analysis := lit "analysis";
     Pipeline.school_info := lit "school";
     Pipeline.transport_info := lit "transport";
     Pipeline.pd_advertising_notice := lit "notice";
     Pipeline.contact_info := lit "청산부동산 02-1234-5678";
     Pipeline.brand_message := lit "brand" |}.

(** A pipeline whose workers all succeed, with the declining operator at
    the confirmation gate. *)
#[local] Instance working_pipeline : Pipeline.Backend unit := {|
  Pipeline.sheets_backend := Demo.unreachable;
  Pipeline.upload_backend := Demo.declining_operator;
  Pipeline.mock_property_data := fun _ _ w => (w, Ret sample_property);
  Pipeline._generate_branded_script_with_notice :=
    fun _ w => (w, Ret {| Pipeline.full_script := lit "Hello. World.";
                          Pipeline.duration := lit "6분";
                          Pipeline.word_count := 2;
                          Pipeline.sd_advertising_notice := lit "notice" |});
  Pipeline._create_branded_ppt_with_notice :=
    fun _ _ w => (w, Ret (lit "deck.pptx"));
  Pipeline._create_thumbnail := fun _ _ w => (w, Ret (lit "thumbnail.png"));
  Pipeline._generate_real_voice_and_subtitles :=
    fun _ w => (w, Ret (lit "narration.wav", lit "subtitles.srt"));
  Pipeline._create_real_video := fun _ _ _ _ w => (w, Ret (lit "video.mp4"));
  Pipeline.create_branded_title := fun _ _ w => (w, Ret (lit "title"))
|}.

(** A monitoring thread whose pipeline succeeds and publishes a link;
    nobody stops it. *)
#[local] Instance productive_monitor : AutoMonitoringManager.Backend Z := {|
  AutoMonitoringManager.get_property_queue := fun _ o => (o, Ret []);
  AutoMonitoringManager.update_status := fun _ _ _ o => (o, Ret tt);
  AutoMonitoringManager.run_full_automation_with_notice :=
    fun _ _ _ row o =>
      (o, Ret {| Pipeline.video_file := lit "video.mp4";
                 Pipeline.script := lit "Hello. World.";
                 Pipeline.ppt_file := lit "deck.pptx";
                 Pipeline.voice_file := lit "narration.wav";
                 Pipeline.subtitle_file := lit "subtitles.srt";
                 Pipeline.thumbnail_file := lit "thumbnail.png";
                 Pipeline.youtube_url :=
                   Some (lit "https://www.youtube.com/watch?v=mock_0");
                 Pipeline.success := true;
                 Pipeline.error_message := None;
                 Pipeline.sheets_row_id := Some row |});
  AutoMonitoringManager._send_completion_notification :=
    fun _ _ o => (o, Ret tt);
  AutoMonitoringManager.sleep := fun s o =>
    {| AutoMonitoringManager.o_world := AutoMonitoringManager.o_world o + s;
       AutoMonitoringManager.o_is_running :=
         AutoMonitoringManager.o_is_running o;
       AutoMonitoringManager.o_shutdown := AutoMonitoringManager.o_shutdown o |};
  AutoMonitoringManager.is_alive := fun _ _ => true;
  AutoMonitoringManager.clock := fun w => w
|}.

(** A row of the queue. *)
Definition sample_item : FixedSheetsManager.item :=
  {| FixedSheetsManager.row_id := 2;
     FixedSheetsManager.address := lit "Seoul Gangnam Apt";
     FixedSheetsManager.property_type := lit "아파트";
     FixedSheetsManager.status := FixedSheetsManager.VStr [];
     FixedSheetsManager.priority := FixedSheetsManager.VStr (lit "medium");
     FixedSheetsManager.created_date :=
       FixedSheetsManager.VStr (lit "2024-01-01");
     FixedSheetsManager.advertising_notice :=
       FixedSheetsManager.default_notice |}.

(** A random source that always draws the lower bound and the first
    element. *)
Definition lowest : Z -> Z -> unit -> unit * Z := fun a _ w => (w, a).
Definition first_choice : list str -> unit -> unit * str :=
  fun seq w => (w, default [] (head seq)).

End Demo2.

(** * Properties *)

Ltac unfold_eff :=
  unfold mbind, M_bind, mret, M_ret, bind, ret, raise, try_except, when,
    emit, external, local, update_local, method, zoom, gets, modify, get in *.

(** ** The progress tracker *)

Module ProgressTrackerFacts.
Import ProgressTracker Props.

Lemma on_grid_sound (P : Z -> Z -> bool) :
  on_grid P = true ->
  forall stage sub, 0 <= stage < 10 -> 0 <= sub <= 100 -> P stage sub = true.
Proof.
  unfold on_grid. rewrite forallb_forall. intros H stage sub Hs Hp.
  assert (Hin : In stage (seqZ 0 10)) by (apply list_elem_of_In, elem_of_seqZ; lia).
  specialize (H _ Hin). rewrite forallb_forall in H.
  apply H, list_elem_of_In, elem_of_seqZ. lia.
Qed.

Lemma overall_progress_ten (stage sub : Z) :
  0 <= stage < 10 -> 0 <= sub <= 100 ->
  overall_progress 10 stage sub = Some (code_percent stage sub).
Proof.
  intros Hs Hp.
  pose proof (on_grid_sound
    (fun s p => bool_decide (overall_progress 10 s p = Some (code_percent s p))))
    as H.
  assert (Hgrid : on_grid
    (fun s p => bool_decide (overall_progress 10 s p = Some (code_percent s p)))
    = true) by (vm_compute; reflexivity).
  specialize (H Hgrid stage sub Hs Hp). simpl in H.
  exact (bool_decide_eq_true_1 _ H).
Qed.

(** With [sub_progress = 0] the tracker reports the stage's baseline
    percent of the specification. *)
Lemma overall_progress_baseline (stage : Z) :
  0 <= stage < 10 ->
  overall_progress 10 stage 0 = Some (Spec.percent 10 stage 0).
Proof.
  intros Hs. rewrite overall_progress_ten by lia.
  unfold code_percent, Spec.percent. simpl. f_equal.
  replace (100 * stage + 0) with (10 * stage * 10) by lia.
  rewrite Z.div_mul by lia. lia.
Qed.

(** The percent stays within [0, 100] on valid inputs. *)
Lemma overall_progress_bounds (stage sub : Z) :
  0 <= stage < 10 -> 0 <= sub <= 100 ->
  exists p, overall_progress 10 stage sub = Some p /\ 0 <= p <= 100.
Proof.
  intros Hs Hp. exists (code_percent stage sub). split.
  - now apply overall_progress_ten.
  - unfold code_percent.
    destruct ((sub =? 100) && negb (stage =? 9)); lia.
Qed.

(** C3: at stage 0 with [sub_progress = 50] the tracker reports 0 percent,
    where the formula of the specification gives 5: [update] divides by
    [total_steps] twice, so a sub-progress below 100 never shows. *)
Theorem update_ignores_sub_progress :
  overall_progress (total_steps (init true)) 0 50 = Some 0
  /\ Spec.percent (total_steps (init true)) 0 50 = 5.
Proof. split; vm_compute; reflexivity. Qed.

(** C4: the final update of the pipeline, stage 9 with [sub_progress = 100],
    reports 90 percent and not 100. *)
Theorem update_final_stage_is_90 :
  overall_progress (total_steps (init true)) 9 100 = Some 90.
Proof. vm_compute. reflexivity. Qed.

End ProgressTrackerFacts.

(** ** Python strings *)

Module PyStrFacts.

Lemma contains_empty (s : str) : contains [] s = true.
Proof. destruct s; reflexivity. Qed.

Lemma lstrip_idem (s : str) : lstrip (lstrip s) = lstrip s.
Proof.
  induction s as [| c s IH]; simpl; [reflexivity |].
  destruct (isspace c) eqn:Hc; [exact IH |]. simpl. now rewrite Hc.
Qed.

Lemma lstrip_head (c : N) (s : str) :
  isspace c = false -> lstrip (c :: s) = c :: s.
Proof. intros H. simpl. now rewrite H. Qed.

(** Stripping on the left keeps a last character that is not a space. *)
Lemma lstrip_snoc (s : str) (c : N) :
  isspace c = false -> exists u, lstrip (s ++ [c]) = u ++ [c].
Proof.
  intros Hc. induction s as [| d s IH]; simpl.
  - rewrite Hc. now exists [].
  - destruct (isspace d); [exact IH |]. now exists (d :: s).
Qed.

(** The left-stripped string is empty or starts with a non-space. *)
Lemma lstrip_cases (s : str) :
  lstrip s = [] \/ exists c t, lstrip s = c :: t /\ isspace c = false.
Proof.
  induction s as [| d s IH]; simpl; [now left |].
  destruct (isspace d) eqn:Hd; [exact IH |]. right. now exists d, s.
Qed.

Lemma lstrip_strip (s : str) : lstrip (strip s) = strip s.
Proof.
  unfold strip, rstrip.
  destruct (lstrip_cases s) as [-> | (c & t & -> & Hc)]; [reflexivity |].
  simpl rev.
  destruct (lstrip_snoc (rev t) c Hc) as [u ->].
  rewrite rev_app_distr. simpl. now rewrite Hc.
Qed.

Lemma strip_idem (s : str) : strip (strip s) = strip s.
Proof.
  unfold strip at 1. rewrite lstrip_strip.
  unfold strip, rstrip. rewrite rev_involutive, lstrip_idem. reflexivity.
Qed.

End PyStrFacts.

(** ** The publish gate *)

Module UploaderFacts.
Import ProgressTracker YouTubeUploader Props.

Section WithBackend.
Context {W : Type} {B : Backend W}.

Lemma progress_runs (p : option ProgressTracker.t) (message : str) (sub : Z)
    (self : t) (e : env W) :
  tracker_ok p -> 0 <= sub <= 100 ->
  exists w' evs,
    progress p message sub (self, e)
    = ((self, {| world := w'; trace := trace e ++ evs |}), Ret tt)
    /\ Forall (fun ev => is_progress ev = true) evs.
Proof.
  intros Hp Hsub. destruct p as [tr |]; simpl in Hp.
  - destruct Hp as [Htot Hcur].
    unfold progress, TrackerOps.substep, TrackerOps.update.
    rewrite Htot, ProgressTrackerFacts.overall_progress_ten by lia.
    unfold_eff. simpl.
    destruct (has_callback tr); simpl.
    + destruct (callback _ _ (world e)) as [w' [[] | err]];
        exists w', [Progress (message_of tr (current_step tr) message)
                             (code_percent (current_step tr) sub)];
        (split; [reflexivity | repeat constructor]).
    + exists (world e), [Progress (message_of tr (current_step tr) message)
                             (code_percent (current_step tr) sub)].
      split; [reflexivity | repeat constructor].
  - exists (world e), []. unfold progress. unfold_eff. simpl.
    rewrite app_nil_r. destruct e; split; [reflexivity | constructor].
Qed.

Lemma do_upload_runs (video title description : str)
    (tags : option (list str)) (thumbnail : option str)
    (self : t) (e : env W) :
  exists w' r real,
    do_upload video title description tags thumbnail (self, e)
    = ((self, {| world := w';
                 trace := trace e ++ [UploadAttempt real video title] |}), r).
Proof.
  unfold do_upload. unfold_eff. simpl.
  destruct (youtube_service self); simpl.
  - destruct (_upload_to_youtube _ _ _ _ _ (world e)) as [w' r].
    exists w', r, true. reflexivity.
  - destruct (_mock_upload _ _ (world e)) as [w' r].
    exists w', r, false. reflexivity.
Qed.

Lemma progress_not_prompt (evs : list event) :
  Forall (fun ev => is_progress ev = true) evs ->
  Forall (fun ev => is_prompt ev = false) evs
  /\ Forall (fun ev => is_upload ev = false) evs.
Proof.
  intros H. split; eapply Forall_impl; try exact H;
    intros [] Hev; simpl in *; congruence.
Qed.

(** C8: with the auto-upload flag set, the call makes no confirmation
    prompt and goes on to the upload; with the flag clear and an operator
    who answers no, it returns the failure whose text is the cancellation
    message, and no upload is attempted. *)
Theorem upload_gate (self : t) (e : env W)
    (video title description : str) (tags : option (list str))
    (thumbnail : option str) (p : option ProgressTracker.t)
    (self' : t) (e' : env W) (r : outcome (bool * str)) :
  tracker_ok p ->
  upload_video_with_confirmation video title description tags thumbnail p
    (self, e) = ((self', e'), r) ->
  exists evs, trace e' = trace e ++ evs /\
    (auto_upload_mode self = true ->
       Forall (fun ev => is_prompt ev = false) evs
       /\ exists real, UploadAttempt real video title ∈ evs) /\
    (auto_upload_mode self = false ->
       (forall w, (_show_upload_confirmation video title description w).2
                  = Ret false) ->
       r = Ret (false, cancelled_by_user)
       /\ Forall (fun ev => is_upload ev = false) evs).
Proof.
  intros Hp Hrun.
  destruct (progress_runs p (lit "📺 YouTube 업로드 준비 중") 10 self e Hp ltac:(lia))
    as (w1 & evs1 & E1 & F1).
  destruct (progress_not_prompt _ F1) as [N1 U1].
  unfold upload_video_with_confirmation in Hrun.
  unfold mbind, M_bind, bind, try_except in Hrun.
  rewrite E1 in Hrun.
  unfold local, gets in Hrun. simpl in Hrun.
  destruct (auto_upload_mode self) eqn:Hauto; simpl in Hrun.
  - set (e1 := {| world := w1; trace := trace e ++ evs1 |}) in *.
    destruct (progress_runs p (lit "🚀 100% 자동화 모드 - 바로 업로드") 30 self e1 Hp
                ltac:(lia)) as (w2 & evs2 & E2 & F2).
    destruct (progress_not_prompt _ F2) as [N2 U2].
    rewrite E2 in Hrun.
    set (e2 := {| world := w2; trace := trace e1 ++ evs2 |}) in *.
    destruct (do_upload_runs video title description tags thumbnail self e2)
      as (w3 & r3 & real & E3).
    rewrite E3 in Hrun.
    exists (evs1 ++ evs2 ++ [UploadAttempt real video title]).
    assert (He' : trace e' = trace e ++ evs1 ++ evs2 ++ [UploadAttempt real video title]).
    { destruct r3; inversion Hrun; subst; simpl; now rewrite <- !app_assoc. }
    split; [exact He' |]. split; [| congruence].
    intros _. split.
    + rewrite !Forall_app. repeat split; auto.
    + exists real. rewrite !elem_of_app. right. right. apply list_elem_of_singleton.
      reflexivity.
  - unfold emit, modify, external in Hrun. simpl in Hrun.
    destruct (_show_upload_confirmation video title description w1)
      as [w2 ans] eqn:Egate.
    destruct ans as [[|] | err]; simpl in Hrun.
    + set (e2 := {| world := w2;
                    trace := (trace e ++ evs1) ++ [ConfirmPrompt video title description] |}) in *.
      destruct (do_upload_runs video title description tags thumbnail self e2)
        as (w3 & r3 & real & E3).
      rewrite E3 in Hrun.
      exists (evs1 ++ [ConfirmPrompt video title description; UploadAttempt real video title]).
      split.
      * destruct r3; inversion Hrun; subst; simpl; rewrite <- !app_assoc; reflexivity.
      * split; [congruence |]. intros _ Hno. specialize (Hno w1).
        rewrite Egate in Hno. discriminate.
    + exists (evs1 ++ [ConfirmPrompt video title description]).
      inversion Hrun; subst; simpl. split; [now rewrite <- app_assoc |].
      split; [congruence |]. intros _ _. split; [reflexivity |].
      rewrite Forall_app. split; auto.
    + exists (evs1 ++ [ConfirmPrompt video title description]).
      unfold mret, M_ret, ret in Hrun.
      inversion Hrun; subst; simpl. split; [now rewrite <- app_assoc |].
      split; [congruence |]. intros _ Hno. specialize (Hno w1).
      rewrite Egate in Hno. discriminate.
Qed.
End WithBackend.

Lemma upload_gate_witness :
  let start := (set_auto_upload_mode false (init false), Demo.empty_env) in
  let res :=
    upload_video_with_confirmation (B := Demo.declining_operator)
      (lit "video.mp4") (lit "title") (lit "description") None None
      (Some (ProgressTracker.init true)) start in
  tracker_ok (Some (ProgressTracker.init true))
  /\ res.2 = Ret (false, cancelled_by_user)
  /\ Forall (fun ev => is_upload ev = false) (trace res.1.2).
Proof.
  intros start res.
  assert (Hok : tracker_ok (Some (ProgressTracker.init true)))
    by (simpl; lia).
  split; [exact Hok |].
  destruct (upload_gate (B := Demo.declining_operator)
              start.1 start.2 (lit "video.mp4") (lit "title")
              (lit "description") None None
              (Some (ProgressTracker.init true)) res.1.1 res.1.2 res.2 Hok)
    as (evs & Htrace & _ & Hno); [vm_compute; reflexivity |].
  destruct (Hno eq_refl (fun _ => eq_refl)) as [Hr Hup].
  split; [exact Hr |].
  rewrite Htrace. exact Hup.
Defined.

End UploaderFacts.

(** ** Results of computations *)

Module EffFacts.
Import Props.

Lemma returns_ret {S A} (a : A) (Q : A -> Prop) :
  Q a -> returns (S := S) (mret a) Q.
Proof. intros H s s' b E. inversion E. now subst. Qed.

Lemma returns_bind {S A B} (m : M S A) (k : A -> M S B) (Q : B -> Prop) :
  (forall a, returns (k a) Q) -> returns (m ≫= k) Q.
Proof.
  intros H s s' b E. unfold mbind, M_bind, bind in E.
  destruct (m s) as [s1 [a | e]]; [| discriminate].
  exact (H a s1 s' b E).
Qed.

Lemma returns_try {S A} (body : M S A) (handler : exn -> M S A)
    (Q : A -> Prop) :
  returns body Q -> (forall e, returns (handler e) Q) ->
  returns (try_except body handler) Q.
Proof.
  intros Hb Hh s s' a E. unfold try_except in E.
  destruct (body s) as [s1 [b | e]] eqn:Eb.
  - inversion E; subst. exact (Hb s s' a Eb).
  - exact (Hh e s1 s' a E).
Qed.

End EffFacts.

(** ** The work queue *)

Module SheetsFacts.
Import FixedSheetsManager Props PyStrFacts EffFacts.

(** The keyword list ends with the empty string, which every status
    contains: the test accepts every row. *)
Lemma is_pending_always (status : str) : is_pending status = true.
Proof.
  unfold is_pending. apply orb_true_iff. left.
  apply existsb_exists. exists []. split.
  - unfold waiting_keywords. repeat (try (left; reflexivity); right).
  - apply contains_empty.
Qed.

(** A row is listed as soon as it has an address, whatever its status. *)
Lemma row_item_ignores_status (lower : str -> str) (today : str) (idx : nat)
    (r : record) :
  nonempty (address_of r) = true ->
  exists it, row_item lower today idx r = Some it
             /\ row_id it = Z.of_nat idx + 2 /\ address it = address_of r.
Proof.
  intros Ha. unfold row_item. rewrite is_pending_always, Ha. simpl.
  eexists. repeat split.
Qed.

Lemma mock_data_length (today : str) : length (_get_mock_data today) = 2%nat.
Proof. reflexivity. Qed.

Lemma row_item_address (lower : str -> str) (today : str) (idx : nat)
    (r : record) (it : item) :
  row_item lower today idx r = Some it -> address it = address_of r.
Proof.
  unfold row_item. destruct (_ && _); [| discriminate].
  intros E. inversion E. reflexivity.
Qed.

Lemma address_of_stripped (r : record) : strip (address_of r) = address_of r.
Proof.
  unfold address_of. destruct (first_field address_fields r);
    [apply strip_idem | reflexivity].
Qed.

Lemma pending_items_stripped (lower : str -> str) (today : str)
    (records : list record) :
  Forall stripped (pending_items lower today records).
Proof.
  apply Forall_forall. intros it Hin. unfold pending_items in Hin.
  apply list_elem_of_omap in Hin. destruct Hin as ([idx r] & _ & Hrow).
  unfold stripped. rewrite (row_item_address _ _ _ _ _ Hrow).
  apply address_of_stripped.
Qed.

Lemma mock_data_stripped (today : str) : Forall stripped (_get_mock_data today).
Proof. repeat constructor. Qed.

Section WithBackend.
Context {W : Type} {B : Backend W}.

(** Whatever [get_property_queue] returns, the addresses are stripped. *)
Lemma get_property_queue_stripped (url : str) :
  returns (get_property_queue url) (Forall stripped).
Proof.
  unfold get_property_queue. apply returns_try.
  - repeat (apply returns_bind; intros).
    apply returns_ret, pending_items_stripped.
  - intros e. apply returns_bind. intros now.
    apply returns_ret, mock_data_stripped.
Qed.

Lemma try_methods_returns (methods : list (strategy W)) (url : str)
    (st : t * env W) :
  exists st' b, try_methods methods url st = (st', Ret b).
Proof.
  revert st. induction methods as [| s methods IH]; intros [m e].
  - eexists _, _. reflexivity.
  - simpl. unfold_eff. simpl.
    destruct (s url m (world e)) as [[m1 w1] [[|] | err]]; simpl.
    + eexists _, _. reflexivity.
    + apply IH.
    + apply IH.
Qed.

Lemma setup_sheets_connection_returns (url : str) (st : t * env W) :
  exists st' b, setup_sheets_connection url st = (st', Ret b).
Proof.
  unfold setup_sheets_connection. destruct GSPREAD_AVAILABLE; cbn [negb].
  - apply try_methods_returns.
  - destruct st as [m e]. eexists _, _. reflexivity.
Qed.

(** The [try] block of [get_property_queue] never raises: the list it
    returns is always the filtered rows, never the built-in sample. *)
Lemma get_property_queue_never_falls_back (url : str) (st : t * env W) :
  exists st' now records,
    get_property_queue url st = (st', Ret (pending_items lower now records)).
Proof.
  destruct st as [m e]. unfold get_property_queue.
  unfold try_except at 1.
  unfold mbind at 1, M_bind at 1, bind at 1, local at 1, gets. simpl.
  unfold mbind at 1, M_bind at 1, bind at 1.
  assert (Hwhen : exists m1 e1,
    when (bool_decide (data_source m = SrcNone))
      (setup_sheets_connection url ≫= λ _ : bool, mret ()) (m, e)
    = ((m1, e1), Ret tt)).
  { destruct (bool_decide (data_source m = SrcNone)); simpl.
    - destruct (setup_sheets_connection_returns url (m, e)) as ([m1 e1] & b & E).
      unfold mbind, M_bind, bind. rewrite E. now exists m1, e1.
    - now exists m, e. }
  destruct Hwhen as (m1 & e1 & ->).
  unfold_eff. simpl.
  destruct (sheet m1) as [ws |]; simpl.
  - destruct (reads_sheet (data_source m1)); simpl.
    + destruct (get_all_records ws (world e1)) as [w2 [recs | err]]; simpl;
        eexists _, _, _; reflexivity.
    + destruct (reads_cache (data_source m1)); simpl;
        eexists _, _, _; reflexivity.
  - destruct (reads_cache (data_source m1)); simpl;
      eexists _, _, _; reflexivity.
Qed.
Lemma try_methods_all_fail (methods : list (strategy W)) (url : str)
    (m : t) (e : env W) :
  Forall fails methods ->
  exists m' w',
    try_methods methods url (m, e)
    = ((m', {| world := w'; trace := trace e |}), Ret false)
    /\ data_source m' = SrcMock.
Proof.
  intros Hall. revert m e. induction Hall as [| s methods Hs _ IH]; intros m e.
  - exists (set_is_connected false (set_data_source SrcMock m)), (world e).
    destruct e. split; reflexivity.
  - simpl. unfold_eff. simpl.
    specialize (Hs url m (world e)).
    destruct (s url m (world e)) as [[m1 w1] [[|] | err]]; simpl in *.
    + congruence.
    + destruct (IH m1 {| world := w1; trace := trace e |}) as (m' & w' & E & D).
      unfold_eff. rewrite E. now exists m', w'.
    + destruct (IH m1 {| world := w1; trace := trace e |}) as (m' & w' & E & D).
      unfold_eff. rewrite E. now exists m', w'.
Qed.

(** C2: on a manager that has not connected yet, when every connection
    strategy fails (or the sheets library is missing) [get_property_queue]
    returns the empty list, not the two built-in rows, and leaves the
    manager in mock mode. *)
Theorem queue_is_empty_when_all_strategies_fail (url : str) (m : t)
    (e : env W) :
  data_source m = SrcNone ->
  GSPREAD_AVAILABLE = false \/ Forall fails connection_methods ->
  exists m' e',
    get_property_queue url (m, e) = ((m', e'), Ret [])
    /\ data_source m' = SrcMock
    /\ forall now, @nil item <> _get_mock_data now.
Proof.
  intros Hnone Hfail.
  assert (Hsetup : exists m' w' b,
    setup_sheets_connection url (m, e)
    = ((m', {| world := w'; trace := trace e |}), Ret b)
    /\ data_source m' = SrcMock).
  { unfold setup_sheets_connection.
    destruct Hfail as [Hlib | Hall].
    - rewrite Hlib. simpl. exists (set_data_source SrcMock m), (world e), false.
      destruct e. split; reflexivity.
    - destruct GSPREAD_AVAILABLE; simpl.
      + destruct (try_methods_all_fail _ url m e Hall) as (m' & w' & E & D).
        exists m', w', false. now split.
      + exists (set_data_source SrcMock m), (world e), false.
        destruct e. split; reflexivity. }
  destruct Hsetup as (m' & w' & b & Esetup & Hmock).
  exists m', {| world := w'; trace := trace e |}.
  split; [| split; [exact Hmock | discriminate]].
  unfold get_property_queue.
  unfold mbind, M_bind, bind, try_except, local, gets, when.
  rewrite Hnone. simpl. unfold mbind, M_bind, bind. rewrite Esetup. simpl.
  rewrite Hmock. simpl.
  destruct (sheet m'); reflexivity.
Qed.

(** C1: two rows whose status is [완료] and [done], loaded from the sheet,
    are both in the list [get_property_queue] returns. *)
Theorem finished_rows_are_listed (url : str) (e : env W) :
  exists items,
    get_property_queue url (Demo.cached Demo.finished_rows, e)
    = ((Demo.cached Demo.finished_rows, e), Ret items)
    /\ List.map (fun it => (row_id it, address it, status it)) items
       = [ (2, lit "서울시 강남구", VStr (lit "완료"));
           (3, lit "Seoul Gangnam Apt", VStr (lit "done")) ].
Proof.
  eexists. split.
  - unfold get_property_queue. unfold_eff. simpl. destruct e. reflexivity.
  - unfold pending_items. simpl. unfold row_item.
    rewrite !is_pending_always. vm_compute. reflexivity.
Qed.

End WithBackend.

Lemma queue_is_empty_witness :
  data_source init = SrcNone
  /\ Forall fails (connection_methods (B := Demo.unreachable))
  /\ exists m' e',
       get_property_queue (B := Demo.unreachable) [] (init, Demo.empty_env)
       = ((m', e'), Ret [])
       /\ data_source m' = SrcMock
       /\ forall now, @nil item <> _get_mock_data now.
Proof.
  assert (H1 : data_source init = SrcNone) by reflexivity.
  assert (H2 : Forall fails (connection_methods (B := Demo.unreachable)))
    by (repeat constructor; intros url m w; simpl; discriminate).
  split; [exact H1 |]. split; [exact H2 |].
  exact (queue_is_empty_when_all_strategies_fail
           (B := Demo.unreachable) [] init Demo.empty_env H1 (or_intror H2)).
Defined.

End SheetsFacts.


(** ** Events appended to the trace *)

Module TraceFacts.
Import Props.

Section Rules.
Context {W L : Type}.
Variable P : event -> Prop.

Lemma emits_ret {A} (a : A) : emits_only (W := W) (L := L) P (mret a).
Proof.
  intros l e st' r E. inversion E; subst. exists []. simpl.
  now rewrite app_nil_r.
Qed.

Lemma emits_raise {A} (x : exn) : emits_only (W := W) (L := L) (A := A) P (raise x).
Proof.
  intros l e st' r E. inversion E; subst. exists []. simpl.
  now rewrite app_nil_r.
Qed.

Lemma emits_local {A} (f : L -> A) : emits_only (W := W) P (local f).
Proof.
  intros l e st' r E. inversion E; subst. exists []. simpl.
  now rewrite app_nil_r.
Qed.

Lemma emits_update_local (f : L -> L) : emits_only (W := W) P (update_local f).
Proof.
  intros l e st' r E. inversion E; subst. exists []. simpl.
  now rewrite app_nil_r.
Qed.

Lemma emits_external {A} (f : W -> W * outcome A) :
  emits_only (L := L) P (external f).
Proof.
  intros l e st' r E. unfold external in E.
  destruct (f (world e)) as [w' r']. inversion E; subst. exists []. simpl.
  now rewrite app_nil_r.
Qed.

Lemma emits_emit (ev : event) : P ev -> emits_only (W := W) (L := L) P (emit ev).
Proof.
  intros H l e st' r E. inversion E; subst. exists [ev]. simpl.
  split; [reflexivity | now constructor].
Qed.

Lemma emits_bind {A B} (m : M (L * env W) A) (k : A -> M (L * env W) B) :
  emits_only P m -> (forall a, emits_only P (k a)) -> emits_only P (m ≫= k).
Proof.
  intros Hm Hk l e st' r E. unfold mbind, M_bind, bind in E.
  destruct (m (l, e)) as [[l1 e1] [a | x]] eqn:Em.
  - destruct (Hm _ _ _ _ Em) as (evs1 & T1 & F1). simpl in T1.
    destruct (Hk a _ _ _ _ E) as (evs2 & T2 & F2).
    exists (evs1 ++ evs2). rewrite T2, T1, app_assoc. split; [reflexivity |].
    now apply Forall_app.
  - inversion E; subst. exact (Hm _ _ _ _ Em).
Qed.

Lemma emits_try {A} (body : M (L * env W) A) (handler : exn -> M (L * env W) A) :
  emits_only P body -> (forall x, emits_only P (handler x)) ->
  emits_only P (try_except body handler).
Proof.
  intros Hb Hh l e st' r E. unfold try_except in E.
  destruct (body (l, e)) as [[l1 e1] [a | x]] eqn:Eb.
  - inversion E; subst. exact (Hb _ _ _ _ Eb).
  - destruct (Hb _ _ _ _ Eb) as (evs1 & T1 & F1). simpl in T1.
    destruct (Hh x _ _ _ _ E) as (evs2 & T2 & F2).
    exists (evs1 ++ evs2). rewrite T2, T1, app_assoc. split; [reflexivity |].
    now apply Forall_app.
Qed.

Lemma emits_when (c : bool) (m : M (L * env W) unit) :
  emits_only P m -> emits_only P (when c m).
Proof. intros H. destruct c; [exact H | apply emits_ret]. Qed.

End Rules.

Lemma emits_zoom {W L1 L2 A} (P : event -> Prop) (proj : L2 -> L1)
    (inj : L1 -> L2 -> L2) (m : M (L1 * env W) A) :
  emits_only P m -> emits_only P (zoom proj inj m).
Proof.
  intros H l e st' r E. unfold zoom in E.
  destruct (m (proj l, e)) as [[l1 e1] r1] eqn:Em.
  inversion E; subst. exact (H _ _ _ _ Em).
Qed.

End TraceFacts.

Ltac quiet :=
  repeat first
    [ apply TraceFacts.emits_ret
    | apply TraceFacts.emits_raise
    | apply TraceFacts.emits_local
    | apply TraceFacts.emits_update_local
    | apply TraceFacts.emits_external
    | apply TraceFacts.emits_emit; reflexivity
    | apply TraceFacts.emits_when
    | apply TraceFacts.emits_zoom
    | apply TraceFacts.emits_bind; [| intros ?]
    | apply TraceFacts.emits_try; [| intros ?]
    | progress cbv beta
    | match goal with
      | |- Props.emits_only _ (match ?x with _ => _ end) => destruct x
      | |- Props.emits_only _ (match ?x with _ => _ end _) => destruct x
      end ].

(** ** The content pipeline *)

Module PipelineFacts.
Import Props Pipeline TraceFacts.

Lemma tracker_update_quiet {W L} (cb : str -> Z -> W -> W * outcome unit)
    (tr : ProgressTracker.t) (step : Z) (message : str) (sub : Z) :
  emits_only (L := L) not_status_write (TrackerOps.update cb tr step message sub).
Proof. unfold TrackerOps.update. quiet. Qed.

Lemma no_status_write_filter (evs : list event) :
  Forall not_status_write evs -> List.filter is_status_write evs = [].
Proof.
  induction 1 as [| ev evs Hev _ IH]; simpl; [reflexivity |].
  unfold not_status_write in Hev. now rewrite Hev.
Qed.

Section WithBackend.
Context {W : Type} {B : Backend W}.

Lemma track_quiet (step : Z) (message : str) (sub : Z) :
  emits_only not_status_write (track step message sub).
Proof. unfold track. quiet. apply tracker_update_quiet. Qed.

Lemma progress_quiet (p : option ProgressTracker.t) (message : str) (sub : Z) :
  emits_only not_status_write (YouTubeUploader.progress p message sub).
Proof.
  unfold YouTubeUploader.progress, TrackerOps.substep.
  quiet. apply tracker_update_quiet.
Qed.

Lemma upload_quiet (video title description : str)
    (tags : option (list str)) (thumbnail : option str)
    (p : option ProgressTracker.t) :
  emits_only not_status_write
    (YouTubeUploader.upload_video_with_confirmation
       video title description tags thumbnail p).
Proof.
  unfold YouTubeUploader.upload_video_with_confirmation,
    YouTubeUploader.progress, YouTubeUploader.do_upload, TrackerOps.substep.
  quiet; apply tracker_update_quiet.
Qed.

(** Stages 1 to 8 never write to the queue. *)
Lemma stages_quiet (property_address advertising_notice : str) :
  emits_only not_status_write (stages property_address advertising_notice).
Proof.
  unfold stages, _upload_to_youtube_with_confirmation.
  quiet; first [apply tracker_update_quiet | apply progress_quiet].
Qed.

(** [update_status] never raises; it records the call and leaves the
    manager as it was. *)
Lemma sheet_update_status_runs (row : Z) (status : str) (url : option str)
    (m : FixedSheetsManager.t) (e : env W) :
  exists w',
    FixedSheetsManager.update_status row status url (m, e)
    = ((m, {| world := w';
              trace := trace e ++ [StatusWrite row status (default [] url)] |}),
       Ret tt).
Proof.
  unfold FixedSheetsManager.update_status. unfold_eff. simpl.
  destruct (FixedSheetsManager.is_connected m); simpl; [| now exists (world e)].
  destruct (FixedSheetsManager.sheet m) as [ws |]; simpl;
    [| now exists (world e)].
  destruct (FixedSheetsManager.reads_sheet _); simpl; [| now exists (world e)].
  destruct (FixedSheetsManager.update_cells ws row status url (world e))
    as [w' [[] | x]]; now exists w'.
Qed.

Lemma update_status_runs (row : Z) (status : str) (url : option str)
    (l : t) (e : env W) :
  exists w',
    update_status row status url (l, e)
    = ((l, {| world := w';
              trace := trace e ++ [StatusWrite row status (default [] url)] |}),
       Ret tt).
Proof.
  unfold update_status, zoom.
  destruct (sheet_update_status_runs row status url (sheets_manager l) e)
    as [w' ->].
  exists w'. destruct l; reflexivity.
Qed.

(** C5, as the code has it: an exception raised in stages 1 to 8 is caught;
    the call returns the failure result carrying the exception text, with
    empty artifact paths and the row id it was given; the queue is written
    exactly once, with status [오류], when the row id is given and is not 0,
    and not at all otherwise. *)
Theorem pipeline_failure_is_contained (property_address property_type
    advertising_notice : str) (sheets_row_id : option Z)
    (l : t) (e : env W) (st1 : t * env W) (err : exn) :
  stages property_address advertising_notice (l, e) = (st1, Raise err) ->
  exists st' evs,
    run_full_automation_with_notice property_address property_type
      advertising_notice sheets_row_id (l, e)
    = (st', Ret (failure_result err sheets_row_id))
    /\ trace st'.2 = trace e ++ evs
    /\ List.filter is_status_write evs
       = match sheets_row_id with
         | Some row => if row =? 0 then []
                       else [StatusWrite row (lit "오류") []]
         | None => []
         end.
Proof.
  intros Hstages.
  destruct (stages_quiet _ _ _ _ _ _ Hstages) as (evs1 & T1 & F1).
  destruct st1 as [l1 e1]. simpl in T1.
  unfold run_full_automation_with_notice, try_except.
  unfold mbind at 1, M_bind at 1, bind at 1. rewrite Hstages.
  unfold row_given.
  destruct sheets_row_id as [row |]; [destruct (row =? 0) eqn:Hrow |].
  - exists (l1, e1), evs1. split; [reflexivity |].
    split; [exact T1 | now apply no_status_write_filter].
  - destruct (update_status_runs row (lit "오류") (Some []) l1 e1) as [w' E].
    unfold mbind, M_bind, bind. rewrite E.
    eexists _, (evs1 ++ [StatusWrite row (lit "오류") []]).
    split; [reflexivity |]. simpl. rewrite T1, <- app_assoc.
    split; [reflexivity |].
    rewrite List.filter_app, no_status_write_filter by assumption. reflexivity.
  - exists (l1, e1), evs1. split; [reflexivity |].
    split; [exact T1 | now apply no_status_write_filter].
Qed.

End WithBackend.

(** C5, as stated, fails for the row id 0: the data collection raises, the
    call is given the row id 0, and nothing is written to the queue. *)
Lemma row_zero_is_not_reported :
  let res :=
    run_full_automation_with_notice (B := Demo.broken_stage_1)
      (lit "Seoul Gangnam Apt") (lit "아파트") [] (Some 0)
      (Demo.idle_pipeline, Demo.empty_env) in
  res.2 = Ret (failure_result (lit "boom") (Some 0))
  /\ sheets_row_id (failure_result (lit "boom") (Some 0)) = Some 0
  /\ ~ exists row status url, StatusWrite row status url ∈ trace res.1.2.
Proof.
  vm_compute. split; [reflexivity |]. split; [reflexivity |].
  intros (row & status & url & Hin).
  repeat (apply elem_of_cons in Hin; destruct Hin as [Hin | Hin];
          [discriminate |]).
  now apply elem_of_nil in Hin.
Qed.

Lemma pipeline_failure_witness :
  let start := (Demo.idle_pipeline, Demo.empty_env) in
  let st1 := (stages (B := Demo.broken_stage_1) (lit "Seoul Gangnam Apt") [] start).1 in
  stages (B := Demo.broken_stage_1) (lit "Seoul Gangnam Apt") [] start
  = (st1, Raise (lit "boom"))
  /\ exists st' evs,
       run_full_automation_with_notice (B := Demo.broken_stage_1)
         (lit "Seoul Gangnam Apt") (lit "아파트") [] (Some 2) start
       = (st', Ret (failure_result (lit "boom") (Some 2)))
       /\ trace st'.2 = [] ++ evs
       /\ List.filter is_status_write evs = [StatusWrite 2 (lit "오류") []].
Proof.
  intros start st1.
  assert (H : stages (B := Demo.broken_stage_1) (lit "Seoul Gangnam Apt") [] start
              = (st1, Raise (lit "boom"))) by (vm_compute; reflexivity).
  split; [exact H |].
  exact (pipeline_failure_is_contained (B := Demo.broken_stage_1)
           (lit "Seoul Gangnam Apt") (lit "아파트") [] (Some 2)
           Demo.idle_pipeline Demo.empty_env st1 (lit "boom") H).
Defined.

End PipelineFacts.

(** ** The monitoring loop *)

Module MonitorFacts.
Import Props FixedSheetsManager Pipeline AutoMonitoringManager.

Ltac call_cases :=
  repeat match goal with
  | |- context [update_status ?a ?b ?c ?o] =>
    destruct (update_status a b c o) as [? [[] | ?]]; simpl
  | |- context [run_full_automation_with_notice ?a ?b ?c ?d ?o] =>
    let res := fresh "res" in
    destruct (run_full_automation_with_notice a b c d o) as [? [res | ?]];
    simpl; [destruct (success res); simpl |]
  | |- context [_send_completion_notification ?a ?b ?o] =>
    destruct (_send_completion_notification a b o) as [? [[] | ?]]; simpl
  end.

Section Respects.
Context {S : Type} (R : S -> S -> Prop).
Hypothesis R_refl : forall s, R s s.
Hypothesis R_trans : forall s1 s2 s3, R s1 s2 -> R s2 s3 -> R s1 s3.

Lemma respects_ret {A} (a : A) : respects R (mret a).
Proof. intros s s' r E. inversion E. apply R_refl. Qed.

Lemma respects_raise {A} (x : exn) : respects (A := A) R (raise x).
Proof. intros s s' r E. inversion E. apply R_refl. Qed.

Lemma respects_gets {A} (f : S -> A) : respects R (gets f).
Proof. intros s s' r E. inversion E. apply R_refl. Qed.

Lemma respects_modify (f : S -> S) :
  (forall s, R s (f s)) -> respects R (modify f).
Proof. intros H s s' r E. inversion E. apply H. Qed.

Lemma respects_bind {A B} (m : M S A) (k : A -> M S B) :
  respects R m -> (forall a, respects R (k a)) -> respects R (m ≫= k).
Proof.
  intros Hm Hk s s' r E. unfold mbind, M_bind, bind in E.
  destruct (m s) as [s1 [a | x]] eqn:Em.
  - exact (R_trans _ _ _ (Hm _ _ _ Em) (Hk a _ _ _ E)).
  - inversion E; subst. exact (Hm _ _ _ Em).
Qed.

Lemma respects_try {A} (body : M S A) (handler : exn -> M S A) :
  respects R body -> (forall x, respects R (handler x)) ->
  respects R (try_except body handler).
Proof.
  intros Hb Hh s s' r E. unfold try_except in E.
  destruct (body s) as [s1 [a | x]] eqn:Eb.
  - inversion E; subst. exact (Hb _ _ _ Eb).
  - exact (R_trans _ _ _ (Hb _ _ _ Eb) (Hh x _ _ _ E)).
Qed.

End Respects.

Section WithBackend.
Context {W : Type} {B : Backend W}.

Lemma flags_kept_refl (st : mstate * env W) : flags_kept st st.
Proof. split; reflexivity. Qed.

Lemma flags_kept_trans (s1 s2 s3 : mstate * env W) :
  flags_kept s1 s2 -> flags_kept s2 s3 -> flags_kept s1 s3.
Proof. intros [A1 A2] [B1 B2]. split; congruence. Qed.

Lemma blocking_steady {A} (f : outside W -> outside W * outcome A) :
  keeps_flags f -> respects flags_kept (blocking f).
Proof.
  intros Hf [[m sd] e] st' r E. unfold blocking in E.
  specialize (Hf (view ({| self := m; SHUTDOWN_FLAG := sd |}, e))).
  destruct (f _) as [o r']. inversion E; subst. simpl in *.
  destruct Hf as [H1 H2]. unfold flags_kept, stop_requested. simpl.
  rewrite H1, H2. split; reflexivity.
Qed.

Lemma emit_steady (ev : event) :
  respects (S := mstate * env W) flags_kept (emit ev).
Proof. intros [l e] st' r E. inversion E. split; reflexivity. Qed.

Lemma add_processed_steady (k : str) :
  respects (S := mstate * env W) flags_kept
    (update_local (on_self (add_processed k))).
Proof. intros [l e] st' r E. inversion E. split; reflexivity. Qed.

Lemma local_steady {A} (f : mstate -> A) :
  respects (S := mstate * env W) flags_kept (local f).
Proof. intros [l e] st' r E. inversion E. split; reflexivity. Qed.

Ltac steady :=
  repeat first
    [ apply respects_ret; apply flags_kept_refl
    | apply respects_raise; apply flags_kept_refl
    | apply emit_steady
    | apply add_processed_steady
    | apply local_steady
    | apply blocking_steady; solve [auto]
    | apply respects_bind; [apply flags_kept_trans | | intros ?]
    | apply respects_try; [apply flags_kept_trans | | intros ?]
    | progress cbv beta
    | match goal with
      | |- respects _ (match ?x with _ => _ end) => destruct x
      | |- respects _ (if ?c then _ else _) => destruct c
      end ].

Lemma process_single_item_runs (it : item) (st : mstate * env W) :
  exists st',
    _process_single_item it st = (st', Ret tt)
    /\ processed_items (self st'.1)
       = {[ processed_key it ]} ∪ processed_items (self st.1).
Proof.
  destruct st as [[m sd] [w tr]].
  unfold _process_single_item, write_status, nap, blocking, processed_key.
  unfold_eff. simpl.
  destruct (nonempty (strip (address it))); simpl.
  - call_cases; (eexists; split; [reflexivity | simpl; set_solver]).
  - eexists; split; [reflexivity | reflexivity].
Qed.

Lemma process_single_item_steady (it : item) :
  undisturbed B -> respects flags_kept (_process_single_item it).
Proof.
  intros (Hq & Hu & Hr & Hn & Hs).
  unfold _process_single_item, write_status, nap.
  steady.
Qed.

Lemma stripped_key (it : item) : stripped it -> processed_key it = item_key it.
Proof. unfold stripped, processed_key, item_key. now intros ->. Qed.

Lemma new_items_nil (pending : list item) (processed : gset str) :
  (forall it, it ∈ pending -> item_key it ∈ processed) ->
  new_items pending processed = [].
Proof.
  intros H. unfold new_items. induction pending as [| it rest IH]; simpl;
    [reflexivity |].
  rewrite bool_decide_eq_false_2.
  - apply IH. intros it' Hin. apply H. now right.
  - intros Hn. apply Hn, H. now left.
Qed.

Lemma new_items_elem (pending : list item) (processed : gset str) (it : item) :
  it ∈ pending -> item_key it ∉ processed -> it ∈ new_items pending processed.
Proof.
  intros Hin Hn. unfold new_items. apply list_elem_of_In, filter_In.
  split; [now apply list_elem_of_In | now apply bool_decide_eq_true_2].
Qed.

(** The same row id with two different addresses gives two different keys. *)
Lemma item_key_address (a b : item) :
  row_id a = row_id b -> item_key a = item_key b -> address a = address b.
Proof.
  unfold item_key. intros -> H.
  apply app_inv_head in H. now apply app_inv_head in H.
Qed.

(** C6: whatever the collaborators do, raising included, processing one
    item ends normally with the item's key in the processed set; the key is
    the one the filter of the next poll looks up, so the item is not picked
    again. *)
Theorem failed_item_is_recorded (it : item) (st : mstate * env W) :
  exists st',
    _process_single_item it st = (st', Ret tt)
    /\ processed_key it ∈ processed_items (self st'.1)
    /\ (stripped it ->
        item_key it ∈ processed_items (self st'.1)
        /\ new_items [it] (processed_items (self st'.1)) = []).
Proof.
  destruct (process_single_item_runs it st) as (st' & E & Hp).
  exists st'. split; [exact E |].
  assert (Hin : processed_key it ∈ processed_items (self st'.1))
    by (rewrite Hp; set_solver).
  split; [exact Hin |]. intros Hs. rewrite <- (stripped_key it Hs).
  split; [exact Hin |].
  apply new_items_nil. intros it' Hit. apply list_elem_of_singleton in Hit.
  subst it'. now rewrite <- (stripped_key it Hs).
Qed.

Lemma process_new_items_all (items : list item) (st : mstate * env W) :
  undisturbed B -> stop_requested st.1 = false ->
  exists st',
    process_new_items items st = (st', Ret tt)
    /\ processed_items (self st'.1)
       = list_to_set (processed_key <$> items) ∪ processed_items (self st.1)
    /\ flags_kept st st'.
Proof.
  intros Hu. revert st. induction items as [| it rest IH]; intros st Hrun.
  - exists st. split; [reflexivity |]. split; [set_solver | apply flags_kept_refl].
  - destruct (process_single_item_runs it st) as (st1 & E1 & P1).
    pose proof (process_single_item_steady it Hu _ _ _ E1) as K1.
    destruct (IH st1) as (st' & E' & P' & K'); [destruct K1; congruence |].
    exists st'. split.
    + simpl. unfold mbind, M_bind, bind, local, gets.
      destruct st as [l e]. simpl in Hrun. rewrite Hrun.
      rewrite E1. exact E'.
    + split; [| exact (flags_kept_trans _ _ _ K1 K')].
      rewrite P', P1. simpl. set_solver.
Qed.

(** One poll of a running monitor: every new item is processed. *)
Lemma poll_runs (pending : list item) (url : str) (st : mstate * env W) :
  undisturbed B -> queue_answers B pending ->
  sheet_url (self st.1) = Some url -> stop_requested st.1 = false ->
  exists st',
    _check_and_process_new_items st = (st', Ret tt)
    /\ processed_items (self st'.1)
       = list_to_set
           (processed_key <$> new_items pending (processed_items (self st.1)))
         ∪ processed_items (self st.1)
    /\ flags_kept st st'.
Proof.
  intros Hu Hq Hurl Hrun. destruct st as [[m sd] [w tr]]. simpl in *.
  pose proof Hu as (Hkq & _).
  unfold _check_and_process_new_items, blocking. unfold_eff. simpl.
  rewrite Hurl. simpl.
  match goal with |- context [get_property_queue url ?o] =>
    specialize (Hq url o); destruct (Hkq url o) as [F1 F2];
    destruct (get_property_queue url o) as [o' r] end.
  simpl in Hq, F1, F2. subst r. simpl.
  match goal with |- context [process_new_items ?items ?s] =>
    destruct (process_new_items_all items s Hu) as (st' & E' & P' & K') end.
  { unfold stop_requested in *. simpl in *. now rewrite F1, F2. }
  exists st'. rewrite E'. split; [reflexivity |]. split; [exact P' |].
  eapply flags_kept_trans; [| exact K'].
  unfold flags_kept, stop_requested. simpl. rewrite F1, F2. now split.
Qed.

(** A poll that finds nothing new only reads the queue. *)
Lemma poll_idle (pending : list item) (url : str) (st : mstate * env W) :
  queue_answers B pending ->
  sheet_url (self st.1) = Some url ->
  new_items pending (processed_items (self st.1)) = [] ->
  exists st',
    _check_and_process_new_items st = (st', Ret tt)
    /\ processed_items (self st'.1) = processed_items (self st.1)
    /\ trace st'.2 = trace st.2 ++ [QueueRead url].
Proof.
  intros Hq Hurl Hnew. destruct st as [[m sd] [w tr]]. simpl in *.
  unfold _check_and_process_new_items, blocking. unfold_eff. simpl.
  rewrite Hurl. simpl.
  match goal with |- context [get_property_queue url ?o] =>
    specialize (Hq url o); destruct (get_property_queue url o) as [o' r] end.
  simpl in Hq. subst r. simpl. rewrite Hnew. simpl.
  eexists. split; [reflexivity |]. split; reflexivity.
Qed.

(** C7: when nobody stops the monitor and the queue returns the same list
    of items twice, the first poll leaves the key of every item in the
    processed set and the second poll finds no new item: it reads the queue
    and does nothing else. The key joins the row id and the address, so two
    rows with one id and different addresses have different keys. *)
Theorem second_poll_finds_nothing (pending : list item) (url : str)
    (st : mstate * env W) :
  undisturbed B -> queue_answers B pending -> Forall stripped pending ->
  sheet_url (self st.1) = Some url -> stop_requested st.1 = false ->
  exists st1 st2,
    _check_and_process_new_items st = (st1, Ret tt)
    /\ _check_and_process_new_items st1 = (st2, Ret tt)
    /\ (forall it, it ∈ pending -> item_key it ∈ processed_items (self st1.1))
    /\ new_items pending (processed_items (self st1.1)) = []
    /\ processed_items (self st2.1) = processed_items (self st1.1)
    /\ trace st2.2 = trace st1.2 ++ [QueueRead url]
    /\ (forall a b : item,
          row_id a = row_id b -> address a <> address b ->
          item_key a <> item_key b).
Proof.
  intros Hu Hq Hs Hurl Hrun.
  destruct (poll_runs pending url st Hu Hq Hurl Hrun) as (st1 & E1 & P1 & K1).
  assert (Hall : forall it, it ∈ pending ->
                   item_key it ∈ processed_items (self st1.1)).
  { intros it Hin. rewrite P1.
    destruct (decide (item_key it ∈ processed_items (self st.1))) as [Hold | Hnew];
      [set_solver |].
    apply elem_of_union_l, elem_of_list_to_set, list_elem_of_fmap.
    exists it. split; [| now apply new_items_elem].
    symmetry. apply stripped_key.
    rewrite Forall_forall in Hs. now apply Hs. }
  pose proof (new_items_nil _ _ Hall) as Hnil.
  destruct (poll_idle pending url st1 Hq) as (st2 & E2 & P2 & T2); auto.
  { destruct K1 as [_ K1]. now rewrite K1. }
  exists st1, st2. repeat split; auto.
  intros a b Hid Hne Hkey. apply Hne. now apply item_key_address.
Qed.

Lemma interval_wait_S (n : nat) (st : mstate * env W) :
  interval_wait (S n) st
  = if stop_requested st.1 then (st, Ret tt)
    else interval_wait n (nap 1 st).1.
Proof.
  destruct st as [l e]. simpl.
  unfold mbind at 1, M_bind at 1, bind at 1, local, gets. simpl.
  destruct (stop_requested l); reflexivity.
Qed.

(** How the interval wait goes: it stops at the first check that sees a
    stop request, after as many naps as checks saw none. *)
Lemma interval_wait_run (n k : nat) (st : mstate * env W) :
  (k <= n)%nat ->
  (forall i, (i < k)%nat -> stop_requested (after_naps i st).1 = false) ->
  k = n \/ stop_requested (after_naps k st).1 = true ->
  interval_wait n st = (after_naps k st, Ret tt).
Proof.
  revert n st. induction k as [| k IH]; intros n st Hle Hbefore Hend.
  - destruct n as [| n]; [reflexivity |].
    destruct Hend as [Hend | Hstop]; [discriminate |].
    rewrite interval_wait_S. simpl in *. now rewrite Hstop.
  - destruct n as [| n]; [lia |].
    pose proof (Hbefore 0%nat ltac:(lia)) as H0.
    assert (Hnext : forall i, (i < k)%nat ->
              stop_requested (after_naps i (nap 1 st).1).1 = false)
      by (intros i Hi; exact (Hbefore (S i) ltac:(lia))).
    assert (Hend' : k = n \/ stop_requested (after_naps k (nap 1 st).1).1 = true)
      by (destruct Hend as [Hend | Hstop]; [left; lia | right; exact Hstop]).
    change (after_naps (S k) st) with (after_naps k (nap 1 st).1).
    rewrite <- (IH n (nap 1 st).1 ltac:(lia) Hnext Hend').
    rewrite interval_wait_S. simpl in H0. now rewrite H0.
Qed.

Lemma after_naps_trace (k : nat) (st : mstate * env W) :
  trace (after_naps k st).2 = trace st.2 ++ replicate k (Sleep 1).
Proof.
  revert st. induction k as [| k IH]; intros [l e]; simpl.
  - now rewrite app_nil_r.
  - rewrite IH. unfold nap, blocking. unfold_eff. simpl.
    now rewrite <- app_assoc.
Qed.

(** A stop request seen at the head of the loop ends the loop. *)
Lemma monitoring_loop_exits (fuel : nat) (st : mstate * env W) :
  stop_requested st.1 = true -> _monitoring_loop fuel st = (st, Ret tt).
Proof.
  intros Hstop. destruct fuel as [| fuel]; [reflexivity |].
  destruct st as [l e]. simpl in *.
  unfold mbind at 1, M_bind at 1, bind at 1, local, gets. simpl.
  now rewrite Hstop.
Qed.

(** C9: the wait checks both flags before every one-second nap. When the
    stop request first shows at the check that follows [k] naps (it was made
    during the [k]-th nap, or before the wait when [k] is 0), the wait ends
    at that check: it has slept [k] times one second, the nap that was under
    way being the last, and the loop then exits. *)
Theorem stop_ends_interval_wait (n k : nat) (st : mstate * env W) :
  (k <= n)%nat ->
  (forall i, (i < k)%nat -> stop_requested (after_naps i st).1 = false) ->
  stop_requested (after_naps k st).1 = true ->
  interval_wait n st = (after_naps k st, Ret tt)
  /\ trace (after_naps k st).2 = trace st.2 ++ replicate k (Sleep 1)
  /\ forall fuel,
       _monitoring_loop fuel (after_naps k st) = (after_naps k st, Ret tt).
Proof.
  intros Hle Hbefore Hstop. split; [| split].
  - apply interval_wait_run; auto.
  - apply after_naps_trace.
  - intros fuel. now apply monitoring_loop_exits.
Qed.

(** The monitor right after its constructor. *)
Lemma new_monitor_state (shutdown : bool) (e : env W) :
  exists st,
    System.new_monitor shutdown e = (st, Ret tt)
    /\ is_running (self st.1) = true
    /\ SHUTDOWN_FLAG st.1 = shutdown
    /\ check_interval (self st.1) = 300
    /\ sheet_url (self st.1) = Some default_sheet_url
    /\ monitoring_thread (self st.1)
       = Some {| thread_name := thread_label; daemon := true; started := true |}
    /\ trace st.2 = trace e ++ [ThreadStart thread_label].
Proof.
  destruct e as [w tr]. eexists. split; [reflexivity |].
  repeat split; reflexivity.
Qed.

(** [start_monitoring] on a running monitor changes nothing. *)
Lemma start_monitoring_running (url : str) (st : mstate * env W) :
  is_running (self st.1) = true -> start_monitoring url st = (st, Ret tt).
Proof.
  intros Hrun. destruct st as [l e]. simpl in Hrun.
  unfold start_monitoring, mbind, M_bind, bind, local, gets. simpl.
  now rewrite Hrun.
Qed.

(** C10: constructing the system constructs the monitor, whose constructor
    starts monitoring the built-in sheet: afterwards the monitor is running
    on that sheet and its thread has been started; a later request to start
    monitoring another sheet is answered with [True] and changes nothing. *)
Theorem construction_starts_monitoring (youtube_api : bool) (shutdown : bool)
    (e : env W) (url : str) :
  exists s e',
    System.new_system youtube_api shutdown e = ((s, e'), Ret tt)
    /\ is_running (self (System.auto_monitor s)) = true
    /\ sheet_url (self (System.auto_monitor s)) = Some default_sheet_url
    /\ monitoring_thread (self (System.auto_monitor s))
       = Some {| thread_name := thread_label; daemon := true; started := true |}
    /\ trace e' = trace e ++ [ThreadStart thread_label]
    /\ System.start_auto_monitoring url (s, e') = ((s, e'), Ret true).
Proof.
  destruct (new_monitor_state shutdown e)
    as ([m e1] & E & Hrun & _ & _ & Hurl & Hth & Htr).
  unfold System.new_system. rewrite E. simpl in *.
  eexists _, e1. split; [reflexivity |]. simpl.
  repeat (split; [assumption |]).
  unfold System.start_auto_monitoring, try_except, zoom.
  unfold mbind, M_bind, bind. simpl.
  rewrite (start_monitoring_running url (m, e1) Hrun). reflexivity.
Qed.

End WithBackend.

Lemma failed_item_witness :
  let it :=
    {| row_id := 2; address := lit "Seoul Gangnam Apt";
       property_type := lit "아파트"; status := VStr [];
       priority := VStr (lit "medium"); created_date := VStr (lit "2024-01-01");
       advertising_notice := default_notice |} in
  stripped it
  /\ exists st',
       _process_single_item (B := Demo.monitor_backend [] true None) it
         Demo.running_monitor = (st', Ret tt)
       /\ item_key it ∈ processed_items (self st'.1)
       /\ new_items [it] (processed_items (self st'.1)) = [].
Proof.
  intros it.
  assert (Hs : stripped it) by reflexivity.
  split; [exact Hs |].
  destruct (failed_item_is_recorded (B := Demo.monitor_backend [] true None)
              it Demo.running_monitor) as (st' & E & _ & H).
  exists st'. split; [exact E |]. exact (H Hs).
Defined.

Lemma undisturbed_demo (pending : list item) (raises : bool) :
  undisturbed (Demo.monitor_backend pending raises None).
Proof. repeat split. Qed.

Lemma second_poll_witness :
  let pending := _get_mock_data (lit "2024-01-01") in
  let B := Demo.monitor_backend pending false None in
  undisturbed B /\ queue_answers B pending /\ Forall stripped pending
  /\ exists st1 st2,
       _check_and_process_new_items (B := B) Demo.running_monitor = (st1, Ret tt)
       /\ _check_and_process_new_items (B := B) st1 = (st2, Ret tt)
       /\ new_items pending (processed_items (self st1.1)) = []
       /\ processed_items (self st2.1) = processed_items (self st1.1)
       /\ trace st2.2 = trace st1.2 ++ [QueueRead default_sheet_url].
Proof.
  intros pending B.
  assert (H1 : undisturbed B) by apply undisturbed_demo.
  assert (H2 : queue_answers B pending) by (intros url o; reflexivity).
  assert (H3 : Forall stripped pending) by (repeat constructor).
  split; [exact H1 |]. split; [exact H2 |]. split; [exact H3 |].
  destruct (second_poll_finds_nothing (B := B) pending default_sheet_url
              Demo.running_monitor H1 H2 H3 eq_refl eq_refl)
    as (st1 & st2 & E1 & E2 & _ & Hnil & Hp & Ht & _).
  exists st1, st2. repeat split; assumption.
Defined.

Lemma stop_ends_interval_wait_witness :
  let B := Demo.monitor_backend [] false (Some 3) in
  (3 <= 300)%nat
  /\ stop_requested (after_naps (B := B) 3 Demo.running_monitor).1 = true
  /\ interval_wait (B := B) 300 Demo.running_monitor
     = (after_naps (B := B) 3 Demo.running_monitor, Ret tt)
  /\ trace (after_naps (B := B) 3 Demo.running_monitor).2
     = [Sleep 1; Sleep 1; Sleep 1].
Proof.
  intros B.
  assert (H1 : (3 <= 300)%nat) by lia.
  assert (H2 : forall i, (i < 3)%nat ->
            stop_requested (after_naps (B := B) i Demo.running_monitor).1 = false).
  { intros i Hi. destruct i as [| [| [| i]]]; [reflexivity .. | lia]. }
  assert (H3 : stop_requested (after_naps (B := B) 3 Demo.running_monitor).1 = true)
    by reflexivity.
  split; [exact H1 |]. split; [exact H3 |].
  destruct (stop_ends_interval_wait (B := B) 300 3 Demo.running_monitor H1 H2 H3)
    as (Hw & Ht & _).
  split; [exact Hw | exact Ht].
Defined.

End MonitorFacts.

(** * Further properties *)

(** ** The progress tracker *)

Module TrackerMore.
Import ProgressTracker Props ProgressTrackerFacts.

(** X1: on a ten-stage tracker the reported percent never goes down when
    the stage goes up, nor, within a stage, when the sub-progress goes up. *)
Theorem progress_never_decreases (s1 p1 s2 p2 : Z) :
  0 <= s1 -> s2 < 10 -> 0 <= p1 <= 100 -> 0 <= p2 <= 100 ->
  s1 < s2 \/ (s1 = s2 /\ p1 <= p2) ->
  exists a b,
    overall_progress 10 s1 p1 = Some a
    /\ overall_progress 10 s2 p2 = Some b
    /\ a <= b.
Proof.
  intros H1 H2 Hp1 Hp2 Hord.
  exists (code_percent s1 p1), (code_percent s2 p2).
  rewrite !overall_progress_ten by lia.
  split; [reflexivity |]. split; [reflexivity |].
  unfold code_percent.
  destruct (Z.eqb_spec p1 100), (Z.eqb_spec p2 100),
    (Z.eqb_spec s1 9), (Z.eqb_spec s2 9); simpl; lia.
Qed.

Lemma default_details_outside (step : Z) :
  ~ 0 <= step <= 9 -> default_details !! step = None.
Proof.
  intros H. unfold default_details. apply not_elem_of_list_to_map_1.
  simpl. intros Hin.
  repeat (apply elem_of_cons in Hin; destruct Hin as [-> | Hin]; [lia |]).
  now apply elem_of_nil in Hin.
Qed.

Lemma default_details_inside (step : Z) :
  0 <= step <= 9 ->
  exists label, default_details !! step = Some label /\ nonempty label = true.
Proof.
  intros H.
  assert (Hall : forallb
            (fun k => match default_details !! k with
                      | Some label => nonempty label
                      | None => false
                      end) (seqZ 0 10) = true) by (vm_compute; reflexivity).
  rewrite forallb_forall in Hall.
  specialize (Hall step). 
  assert (Hin : In step (seqZ 0 10))
    by (apply list_elem_of_In, elem_of_seqZ; lia).
  specialize (Hall Hin).
  destruct (default_details !! step) as [label |]; [| discriminate].
  exists label. split; [reflexivity | exact Hall].
Qed.

(** X2: [update] logs the message it is given; with an empty message it
    logs the label of the stage, and for a stage outside the table the
    fallback text built from the stage number, so no stage raises a
    [KeyError]. *)
Theorem label_of_unknown_stage (has_cb : bool) (step : Z) (message : str) :
  (nonempty message = true -> message_of (init has_cb) step message = message)
  /\ (~ 0 <= step <= 9 ->
      message_of (init has_cb) step []
      = lit "단계 " ++ of_Z (step + 1) ++ lit " 처리 중")
  /\ (0 <= step <= 9 ->
      exists label, default_details !! step = Some label
                    /\ nonempty label = true
                    /\ message_of (init has_cb) step [] = label).
Proof.
  split; [| split].
  - intros H. unfold message_of. rewrite H. reflexivity.
  - intros H. unfold message_of, init. cbn [nonempty step_details].
    pose proof (default_details_outside step H) as E.
    transitivity (default (lit "단계 " ++ of_Z (step + 1) ++ lit " 처리 중")
                          (@None str)); [| reflexivity].
    f_equal. exact E.
  - intros H. destruct (default_details_inside step H) as (label & E & Hne).
    exists label. repeat split; try assumption.
    unfold message_of, init. cbn [nonempty step_details].
    transitivity (default (lit "단계 " ++ of_Z (step + 1) ++ lit " 처리 중")
                          (Some label)); [| reflexivity].
    f_equal. exact E.
Qed.

Section WithWorld.
Context {W L : Type}.
Variable callback : str -> Z -> W -> W * outcome unit.

(** [update] on a ten-stage tracker, step by step. *)
Lemma update_runs (tr : t) (step : Z) (message : str)
    (sub : Z) (l : L) (e : env W) :
  total_steps tr = 10 -> 0 <= step < 10 -> 0 <= sub <= 100 ->
  exists w' percent,
    TrackerOps.update callback tr step message sub (l, e)
    = ((l, {| world := w';
              trace := trace e ++ [Progress (message_of tr step message)
                                            percent] |}),
       Ret {| has_callback := has_callback tr; current_step := step;
              total_steps := 10; step_details := step_details tr |})
    /\ overall_progress 10 step sub = Some percent.
Proof.
  intros Htot Hstep Hsub. unfold TrackerOps.update.
  rewrite Htot, overall_progress_ten by lia.
  unfold_eff. simpl.
  destruct (has_callback tr); simpl.
  - destruct (callback _ _ (world e)) as [w' [[] | err]];
      exists w', (code_percent step sub); split; reflexivity.
  - exists (world e), (code_percent step sub); split; reflexivity.
Qed.

(** X3: on a ten-stage tracker [update] returns normally whatever the
    observer does, raising included: it sets [current_step], keeps the other
    attributes and logs exactly one progress line. *)
Theorem failing_observer_is_contained (tr : t) (step : Z) (message : str)
    (sub : Z) (l : L) (e : env W) :
  total_steps tr = 10 -> 0 <= step < 10 -> 0 <= sub <= 100 ->
  exists w' percent,
    TrackerOps.update callback tr step message sub (l, e)
    = ((l, {| world := w';
              trace := trace e ++ [Progress (message_of tr step message)
                                            percent] |}),
       Ret {| has_callback := has_callback tr; current_step := step;
              total_steps := 10; step_details := step_details tr |})
    /\ overall_progress 10 step sub = Some percent.
Proof.
  apply update_runs.
Qed.

(** X4: [substep] reports at the stage of the last [update] and leaves the
    tracker and the caller's attributes as they were. *)
Theorem substep_keeps_the_stage (tr : t) (message : str) (sub : Z)
    (st st' : L * env W) (tr' : t) :
  TrackerOps.substep callback tr message sub st = (st', Ret tr') ->
  tr' = tr /\ st'.1 = st.1
  /\ exists percent,
       trace st'.2
       = trace st.2 ++ [Progress (message_of tr (current_step tr) message)
                                 percent].
Proof.
  unfold TrackerOps.substep, TrackerOps.update. destruct st as [l e].
  destruct (overall_progress _ _ _) as [percent |]; [| discriminate].
  unfold_eff. simpl. intros E.
  destruct (has_callback tr) eqn:Hcb; simpl in E.
  - destruct (callback _ _ (world e)) as [w' [[] | err]]; inversion E; subst;
      simpl; (split; [destruct tr; simpl in *; congruence |]);
      (split; [reflexivity | now exists percent]).
  - inversion E; subst. simpl.
    split; [destruct tr; simpl in *; congruence |].
    split; [reflexivity | now exists percent].
Qed.

End WithWorld.

Lemma progress_never_decreases_witness :
  (0 <= 3 /\ 4 < 10 /\ 0 <= 100 <= 100 /\ 0 <= 0 <= 100)
  /\ exists a b,
       overall_progress 10 3 100 = Some a
       /\ overall_progress 10 4 0 = Some b /\ a <= b.
Proof.
  split; [lia |].
  apply (progress_never_decreases 3 100 4 0); lia.
Defined.

Lemma label_of_unknown_stage_witness :
  ~ 0 <= 11 <= 9
  /\ message_of (init true) 11 [] = lit "단계 12 처리 중".
Proof.
  assert (H : ~ 0 <= 11 <= 9) by lia.
  split; [exact H |].
  destruct (label_of_unknown_stage true 11 []) as (_ & Hout & _).
  exact (Hout H).
Defined.

Lemma failing_observer_witness :
  total_steps (init true) = 10
  /\ exists w' percent,
       TrackerOps.update (L := unit) Demo2.failing_observer (init true) 5 []
         50 (tt, Demo.empty_env)
       = ((tt, {| world := w';
                  trace := [] ++ [Progress (message_of (init true) 5 [])
                                           percent] |}),
          Ret {| has_callback := true; current_step := 5;
                 total_steps := 10; step_details := default_details |})
       /\ overall_progress 10 5 50 = Some percent.
Proof.
  split; [reflexivity |].
  apply (failing_observer_is_contained (L := unit) Demo2.failing_observer
           (init true) 5 [] 50 tt Demo.empty_env); [reflexivity | lia | lia].
Defined.

Lemma substep_keeps_the_stage_witness :
  let res := TrackerOps.substep (L := unit) Demo2.failing_observer
               (init true) (lit "half way") 50 (tt, Demo.empty_env) in
  res.2 = Ret (init true)
  /\ exists percent,
       trace res.1.2 = [Progress (lit "half way") percent].
Proof.
  intros res.
  assert (E : TrackerOps.substep (L := unit) Demo2.failing_observer
                (init true) (lit "half way") 50 (tt, Demo.empty_env)
              = (res.1, Ret (init true))) by (vm_compute; reflexivity).
  split; [vm_compute; reflexivity |].
  destruct (substep_keeps_the_stage (L := unit) Demo2.failing_observer
              (init true) (lit "half way") 50 (tt, Demo.empty_env)
              res.1 (init true) E) as (_ & _ & percent & Ht).
  exists percent. exact Ht.
Defined.

End TrackerMore.

(** ** The publish sink *)

Module EffMore.
Import Props Props2.

(** A handler that returns makes the whole [try] statement return. *)
Lemma try_except_returns {S A} (body : M S A) (handler : exn -> M S A) :
  (forall x s, exists s' a, handler x s = (s', Ret a)) ->
  forall s, exists s' a, try_except body handler s = (s', Ret a).
Proof.
  intros Hh s. unfold try_except.
  destruct (body s) as [s1 [a | x]]; [now exists s1, a | apply Hh].
Qed.

Section Local.
Context {W L : Type}.

Lemma same_self_refl (st : L * env W) : same_self st st.
Proof. reflexivity. Qed.

Lemma same_self_trans (s1 s2 s3 : L * env W) :
  same_self s1 s2 -> same_self s2 s3 -> same_self s1 s3.
Proof. unfold same_self. congruence. Qed.

Lemma emit_same_self (ev : event) : respects same_self (emit (L := L) (W := W) ev).
Proof. intros [l e] st' r E. inversion E. reflexivity. Qed.

Lemma external_same_self {A} (f : W -> W * outcome A) :
  respects same_self (external (L := L) f).
Proof.
  intros [l e] st' r E. unfold external in E.
  destruct (f (world e)). inversion E. reflexivity.
Qed.

Lemma local_same_self {A} (f : L -> A) :
  respects same_self (local (W := W) f).
Proof. intros [l e] st' r E. inversion E. reflexivity. Qed.

End Local.
End EffMore.

Ltac same_self :=
  repeat first
    [ apply MonitorFacts.respects_ret; apply EffMore.same_self_refl
    | apply MonitorFacts.respects_raise; apply EffMore.same_self_refl
    | apply EffMore.emit_same_self
    | apply EffMore.external_same_self
    | apply EffMore.local_same_self
    | apply MonitorFacts.respects_bind; [apply EffMore.same_self_trans | | intros ?]
    | apply MonitorFacts.respects_try; [apply EffMore.same_self_trans | | intros ?]
    | progress cbv beta
    | match goal with
      | |- Props.respects _ (match ?x with _ => _ end) => destruct x
      | |- Props.respects _ (if ?c then _ else _) => destruct c
      | |- Props.respects _ (when ?c _) => destruct c; unfold when
      end ].

Module UploaderMore.
Import ProgressTracker YouTubeUploader Props Props2 UploaderFacts EffMore.

Lemma tracker_update_same_self {W L} (cb : str -> Z -> W -> W * outcome unit)
    (tr : ProgressTracker.t) (step : Z) (message : str) (sub : Z) :
  respects (S := L * env W) same_self (TrackerOps.update cb tr step message sub).
Proof. unfold TrackerOps.update. same_self. Qed.

Section WithBackend.
Context {W : Type} {B : Backend W}.

Lemma upload_same_self (video title description : str)
    (tags : option (list str)) (thumbnail : option str)
    (p : option ProgressTracker.t) :
  respects same_self
    (upload_video_with_confirmation video title description tags thumbnail p).
Proof.
  unfold upload_video_with_confirmation, progress, do_upload, TrackerOps.substep.
  same_self; apply tracker_update_same_self.
Qed.

(** X5: [upload_video_with_confirmation] never raises, whatever the gate,
    the observer and the upload workers do: it always returns a pair of a
    flag and a text, and it assigns no attribute of the uploader. *)
Theorem upload_never_raises (video title description : str)
    (tags : option (list str)) (thumbnail : option str)
    (p : option ProgressTracker.t) (st : t * env W) :
  exists st' ok text,
    upload_video_with_confirmation video title description tags thumbnail p st
    = (st', Ret (ok, text))
    /\ st'.1 = st.1.
Proof.
  destruct (try_except_returns
    (progress p (lit "📺 YouTube 업로드 준비 중") 10;;
     auto ← local auto_upload_mode;
     if negb auto then
       emit (ConfirmPrompt video title description);;
       confirmed ← external (_show_upload_confirmation video title description);
       if negb confirmed then mret (false, cancelled_by_user)
       else do_upload video title description tags thumbnail
     else
       progress p (lit "🚀 100% 자동화 모드 - 바로 업로드") 30;;
       do_upload video title description tags thumbnail)
    (fun e => mret (false, e))
    (fun x s => ex_intro _ s (ex_intro _ (false, x) eq_refl)) st)
    as (st' & [ok text] & E).
  exists st', ok, text. split; [exact E |].
  exact (upload_same_self video title description tags thumbnail p _ _ _ E).
Qed.

Lemma do_upload_kind (video title description : str)
    (tags : option (list str)) (thumbnail : option str)
    (self : t) (e : env W) :
  exists w' r,
    do_upload video title description tags thumbnail (self, e)
    = ((self, {| world := w';
                 trace := trace e ++ [UploadAttempt (youtube_service self)
                                                    video title] |}), r)
    /\ (w', r) = (if youtube_service self
                  then _upload_to_youtube video title description tags
                         thumbnail (world e)
                  else _mock_upload video title (world e)).
Proof.
  unfold do_upload. unfold_eff. simpl.
  destruct (youtube_service self); simpl.
  - destruct (_upload_to_youtube _ _ _ _ _ (world e)) as [w' r].
    exists w', r. split; reflexivity.
  - destruct (_mock_upload _ _ (world e)) as [w' r].
    exists w', r. split; reflexivity.
Qed.

(** The unattended run, step by step. *)
Lemma upload_auto_run (video title description : str)
    (tags : option (list str)) (thumbnail : option str)
    (p : option ProgressTracker.t) (self : t) (e : env W) :
  tracker_ok p -> auto_upload_mode self = true ->
  exists w2 evs,
    Forall (fun ev => is_progress ev = true) evs
    /\ upload_video_with_confirmation video title description tags thumbnail p
         (self, e)
       = ((self, {| world := (worker self video title description tags
                                thumbnail w2).1;
                    trace := trace e ++ evs
                             ++ [UploadAttempt (youtube_service self)
                                               video title] |}),
          caught (worker self video title description tags thumbnail w2).2).
Proof.
  intros Hp Hauto.
  destruct (progress_runs p (lit "📺 YouTube 업로드 준비 중") 10 self e Hp ltac:(lia))
    as (w1 & evs1 & E1 & F1).
  set (e1 := {| world := w1; trace := trace e ++ evs1 |}).
  destruct (progress_runs p (lit "🚀 100% 자동화 모드 - 바로 업로드") 30 self e1 Hp
              ltac:(lia)) as (w2 & evs2 & E2 & F2).
  set (e2 := {| world := w2; trace := trace e1 ++ evs2 |}).
  destruct (do_upload_kind video title description tags thumbnail self e2)
    as (w3 & r3 & E3 & Ew).
  exists w2, (evs1 ++ evs2). split; [now apply Forall_app |].
  unfold upload_video_with_confirmation.
  unfold mbind, M_bind, bind, try_except.
  rewrite E1. unfold local, gets. simpl. rewrite Hauto. simpl.
  fold e1. rewrite E2. fold e2. rewrite E3.
  unfold worker. simpl in Ew. rewrite <- Ew. simpl.
  rewrite <- !app_assoc. destruct r3; reflexivity.
Qed.

(** The confirmed run, step by step. *)
Lemma upload_confirmed_run (video title description : str)
    (tags : option (list str)) (thumbnail : option str)
    (p : option ProgressTracker.t) (self : t) (e : env W) :
  tracker_ok p -> auto_upload_mode self = false ->
  exists w1 evs,
    Forall (fun ev => is_progress ev = true) evs
    /\ upload_video_with_confirmation video title description tags thumbnail p
         (self, e)
       = match _show_upload_confirmation video title description w1 with
         | (w2, Ret true) =>
           ((self, {| world := (worker self video title description tags
                                  thumbnail w2).1;
                      trace := trace e ++ evs
                               ++ [ConfirmPrompt video title description;
                                   UploadAttempt (youtube_service self)
                                                 video title] |}),
            caught (worker self video title description tags thumbnail w2).2)
         | (w2, Ret false) =>
           ((self, {| world := w2;
                      trace := trace e ++ evs
                               ++ [ConfirmPrompt video title description] |}),
            Ret (false, cancelled_by_user))
         | (w2, Raise x) =>
           ((self, {| world := w2;
                      trace := trace e ++ evs
                               ++ [ConfirmPrompt video title description] |}),
            Ret (false, x))
         end.
Proof.
  intros Hp Hauto.
  destruct (progress_runs p (lit "📺 YouTube 업로드 준비 중") 10 self e Hp ltac:(lia))
    as (w1 & evs1 & E1 & F1).
  exists w1, evs1. split; [exact F1 |].
  unfold upload_video_with_confirmation.
  unfold mbind, M_bind, bind, try_except.
  rewrite E1. unfold local, gets. simpl. rewrite Hauto. simpl.
  unfold emit, modify, external. simpl.
  destruct (_show_upload_confirmation video title description w1)
    as [w2 [[|] | x]]; simpl.
  - set (e2 := {| world := w2;
                  trace := (trace e ++ evs1)
                           ++ [ConfirmPrompt video title description] |}).
    destruct (do_upload_kind video title description tags thumbnail self e2)
      as (w3 & r3 & E3 & Ew).
    rewrite E3. unfold worker. simpl in Ew. rewrite <- Ew. simpl.
    rewrite <- !app_assoc. destruct r3; reflexivity.
  - rewrite <- !app_assoc. reflexivity.
  - rewrite <- !app_assoc. reflexivity.
Qed.

(** X6: every upload the call attempts is the real one when a YouTube
    service was set up and the mock one when none was: without a service
    nothing is ever sent to YouTube. *)
Theorem upload_kind_follows_service (video title description : str)
    (tags : option (list str)) (thumbnail : option str)
    (p : option ProgressTracker.t) (self self' : t) (e e' : env W)
    (r : outcome (bool * str)) :
  tracker_ok p ->
  upload_video_with_confirmation video title description tags thumbnail p
    (self, e) = ((self', e'), r) ->
  exists evs,
    trace e' = trace e ++ evs
    /\ forall real v t,
         UploadAttempt real v t ∈ evs ->
         real = youtube_service self /\ v = video /\ t = title.
Proof.
  intros Hp Hrun.
  assert (Hprog : forall evs real v t,
            Forall (fun ev => is_progress ev = true) evs ->
            UploadAttempt real v t ∈ evs -> False).
  { intros evs real v t F Hin. rewrite Forall_forall in F.
    specialize (F _ Hin). discriminate. }
  destruct (auto_upload_mode self) eqn:Hauto.
  - destruct (upload_auto_run video title description tags thumbnail p self e
                Hp Hauto) as (w2 & evs & F & E).
    rewrite E in Hrun. inversion Hrun; subst. eexists. split; [reflexivity |].
    intros real v t Hin. rewrite elem_of_app in Hin. destruct Hin as [Hin | Hin].
    + destruct (Hprog _ _ _ _ F Hin).
    + apply list_elem_of_singleton in Hin. now inversion Hin.
  - destruct (upload_confirmed_run video title description tags thumbnail p
                self e Hp Hauto) as (w1 & evs & F & E).
    rewrite E in Hrun.
    destruct (_show_upload_confirmation video title description w1)
      as [w2 [[|] | x]]; inversion Hrun; subst;
      (eexists; split; [reflexivity |]);
      intros real v t Hin; rewrite elem_of_app in Hin;
      destruct Hin as [Hin | Hin]; try (destruct (Hprog _ _ _ _ F Hin));
      repeat (apply elem_of_cons in Hin; destruct Hin as [Hin | Hin];
              [try discriminate; now inversion Hin |]);
      now apply elem_of_nil in Hin.
Qed.

(** X7: an exception raised by the upload worker, or by the confirmation
    gate, comes back as the failure [(False, str(e))]; when it is the gate
    that raised, no upload is attempted. *)
Theorem upload_exception_becomes_failure (video title description : str)
    (tags : option (list str)) (thumbnail : option str)
    (p : option ProgressTracker.t) (self : t) (e : env W) (err : exn) :
  tracker_ok p ->
  (auto_upload_mode self = true ->
   (forall w, (worker self video title description tags thumbnail w).2
              = Raise err) ->
   (upload_video_with_confirmation video title description tags thumbnail p
      (self, e)).2 = Ret (false, err))
  /\ (auto_upload_mode self = false ->
      (forall w, (_show_upload_confirmation video title description w).2
                 = Raise err) ->
      (upload_video_with_confirmation video title description tags thumbnail p
         (self, e)).2 = Ret (false, err)
      /\ Forall (fun ev => is_upload ev = false)
           (drop (length (trace e))
              (trace (upload_video_with_confirmation video title description
                        tags thumbnail p (self, e)).1.2))).
Proof.
  intros Hp. split.
  - intros Hauto Hw.
    destruct (upload_auto_run video title description tags thumbnail p self e
                Hp Hauto) as (w2 & evs & F & ->).
    simpl. now rewrite Hw.
  - intros Hauto Hg.
    destruct (upload_confirmed_run video title description tags thumbnail p
                self e Hp Hauto) as (w1 & evs & F & ->).
    specialize (Hg w1).
    destruct (_show_upload_confirmation video title description w1)
      as [w2 [[|] | x]]; simpl in Hg; try discriminate.
    inversion Hg; subst. simpl. split; [reflexivity |].
    rewrite drop_app_length. apply Forall_app. split.
    + eapply Forall_impl; [exact F |]. intros [] Hev; simpl in *; congruence.
    + repeat constructor.
Qed.

End WithBackend.

Lemma upload_kind_witness :
  let start := (init false, Demo.empty_env) in
  let res :=
    upload_video_with_confirmation (B := Demo2.crashing_uploader)
      (lit "video.mp4") (lit "title") (lit "description") None None
      (Some (ProgressTracker.init true)) start in
  tracker_ok (Some (ProgressTracker.init true))
  /\ exists evs,
       trace res.1.2 = [] ++ evs
       /\ forall real v t,
            UploadAttempt real v t ∈ evs ->
            real = false /\ v = lit "video.mp4" /\ t = lit "title".
Proof.
  intros start res.
  assert (Hok : tracker_ok (Some (ProgressTracker.init true)))
    by (simpl; lia).
  split; [exact Hok |].
  apply (upload_kind_follows_service (B := Demo2.crashing_uploader)
           (lit "video.mp4") (lit "title") (lit "description") None None
           (Some (ProgressTracker.init true)) start.1 res.1.1 start.2 res.1.2
           res.2 Hok).
  vm_compute. reflexivity.
Defined.

Lemma upload_exception_witness :
  let self := set_auto_upload_mode true (init false) in
  tracker_ok (Some (ProgressTracker.init true))
  /\ (upload_video_with_confirmation (B := Demo2.crashing_uploader)
        (lit "video.mp4") (lit "title") (lit "description") None None
        (Some (ProgressTracker.init true)) (self, Demo.empty_env)).2
     = Ret (false, lit "network down").
Proof.
  intros self.
  assert (Hok : tracker_ok (Some (ProgressTracker.init true)))
    by (simpl; lia).
  split; [exact Hok |].
  destruct (upload_exception_becomes_failure (B := Demo2.crashing_uploader)
              (lit "video.mp4") (lit "title") (lit "description") None None
              (Some (ProgressTracker.init true)) self Demo.empty_env
              (lit "network down") Hok) as [Hauto _].
  apply Hauto; [reflexivity | intros w; reflexivity].
Defined.

End UploaderMore.

(** ** The work queue *)

Module SheetsMore.
Import FixedSheetsManager SheetColumns Props Props2 PyStrFacts EffFacts SheetsFacts.

Lemma first_field_none (fields : list str) (r : record) :
  first_field fields r = None <-> Forall (no_truthy r) fields.
Proof.
  induction fields as [| f fields IH]; simpl.
  - split; [constructor | reflexivity].
  - destruct (r !! f) as [v |] eqn:Ef.
    + destruct (truthy v) eqn:Hv.
      * split; [discriminate |]. intros H. inversion H as [| ? ? Hf _]; subst.
        specialize (Hf v Ef). congruence.
      * rewrite IH. split.
        -- intros H. constructor; [| exact H]. intros u Eu. congruence.
        -- intros H. now inversion H.
    + rewrite IH. split.
      * intros H. constructor; [| exact H]. intros u Eu. congruence.
      * intros H. now inversion H.
Qed.

(** X8: the field lookup of [get_property_queue] takes the first of the
    listed header names whose cell is present and true; names before it
    carry no true cell. *)
Theorem first_field_first_match (fields : list str) (r : record) (v : pyval) :
  first_field fields r = Some v <->
  exists pre f post,
    fields = pre ++ f :: post
    /\ Forall (no_truthy r) pre
    /\ r !! f = Some v /\ truthy v = true.
Proof.
  induction fields as [| f fields IH]; simpl.
  - split; [discriminate |]. intros (pre & g & post & E & _).
    destruct pre; discriminate.
  - split.
    + intros H. destruct (r !! f) as [u |] eqn:Ef.
      * destruct (truthy u) eqn:Hu.
        -- inversion H; subst. exists [], f, fields. repeat split; auto.
        -- apply IH in H. destruct H as (pre & g & post & -> & Hpre & Hg & Hv).
           exists (f :: pre), g, post. repeat split; auto.
           constructor; [| exact Hpre]. intros w Ew. congruence.
      * apply IH in H. destruct H as (pre & g & post & -> & Hpre & Hg & Hv).
        exists (f :: pre), g, post. repeat split; auto.
        constructor; [| exact Hpre]. intros w Ew. congruence.
    + intros (pre & g & post & E & Hpre & Hg & Hv).
      destruct pre as [| f' pre]; simpl in E; inversion E; subst.
      * now rewrite Hg, Hv.
      * inversion Hpre as [| ? ? Hf Hrest]; subst.
        assert (Hgo : first_field (pre ++ g :: post) r = Some v)
          by (apply IH; exists pre, g, post; auto).
        destruct (r !! f') as [u |] eqn:Ef; [| exact Hgo].
        now rewrite (Hf u Ef).
Qed.

Section Rows.
Variable lower : str -> str.
Variable today : str.

(** X9: a row without a usable address is never listed; a row with one is
    listed with the row id of its position (first data row is 2), its
    stripped address and the type and notice read from the row. The status
    cell plays no part (see [is_pending_always]). *)
Theorem row_is_listed_iff_it_has_an_address (idx : nat) (r : record) :
  (address_of r = [] -> row_item lower today idx r = None)
  /\ (address_of r <> [] ->
      exists it, row_item lower today idx r = Some it
                 /\ row_id it = Z.of_nat idx + 2
                 /\ address it = address_of r
                 /\ property_type it = property_type_of r
                 /\ advertising_notice it = notice_of r).
Proof.
  unfold row_item. rewrite is_pending_always. split.
  - intros ->. reflexivity.
  - intros H. destruct (address_of r) as [| c a] eqn:E; [congruence |].
    simpl. eexists. repeat split.
Qed.

Lemma notice_of_nonempty (r : record) : nonempty (notice_of r) = true.
Proof.
  unfold notice_of.
  destruct (nonempty match first_field notice_fields r with
                     | Some v => strip (py_str v) | None => [] end) eqn:E;
    [exact E | reflexivity].
Qed.

Lemma row_item_origin (idx : nat) (r : record) (it : item) :
  row_item lower today idx r = Some it ->
  row_id it = Z.of_nat idx + 2
  /\ address it = address_of r
  /\ nonempty (address it) = true
  /\ property_type it = property_type_of r
  /\ advertising_notice it = notice_of r.
Proof.
  unfold row_item. rewrite is_pending_always. simpl.
  destruct (nonempty (address_of r)) eqn:Ha; [| discriminate].
  intros E. inversion E; subst. simpl. repeat split; auto.
Qed.

(** Where a listed item comes from. *)
Lemma pending_item_origin (records : list record) (it : item) :
  it ∈ pending_items lower today records ->
  exists idx r,
    records !! idx = Some r
    /\ row_id it = Z.of_nat idx + 2
    /\ address it = address_of r
    /\ nonempty (address it) = true
    /\ strip (address it) = address it
    /\ nonempty (advertising_notice it) = true.
Proof.
  intros Hin. unfold pending_items in Hin.
  apply list_elem_of_omap in Hin. destruct Hin as ([idx r] & Hir & Hrow).
  apply list_elem_of_lookup in Hir. destruct Hir as [j Hj].
  rewrite list_lookup_imap in Hj.
  destruct (records !! j) as [r' |] eqn:Er; simpl in Hj; [| discriminate].
  inversion Hj; subst.
  destruct (row_item_origin _ _ _ Hrow) as (H1 & H2 & H3 & _ & H5).
  exists idx, r. repeat split; auto.
  - rewrite H2. apply address_of_stripped.
  - rewrite H5. apply notice_of_nonempty.
Qed.

(** X10: every listed item comes from a row of the sheet: its row id is the
    row's position plus 2, its address is that row's, non-empty and
    stripped, and its advertising notice is non-empty. *)
Theorem listed_item_origin (records : list record) (it : item) :
  it ∈ pending_items lower today records ->
  exists idx r,
    records !! idx = Some r
    /\ row_id it = Z.of_nat idx + 2
    /\ address it = address_of r
    /\ nonempty (address it) = true
    /\ strip (address it) = address it
    /\ nonempty (advertising_notice it) = true.
Proof. apply pending_item_origin. Qed.

(** The rows from position [k] on. *)
Lemma items_from_cons (k : nat) (r : record) (records : list record) :
  items_from lower today k (r :: records)
  = match row_item lower today k r with
    | Some it => it :: items_from lower today (S k) records
    | None => items_from lower today (S k) records
    end.
Proof.
  unfold items_from. rewrite imap_cons. cbn [omap list_omap].
  replace (k + 0)%nat with k by lia.
  rewrite (imap_ext _ (fun i r => ((S k + i)%nat, r)))
    by (intros; cbn; f_equal; lia).
  reflexivity.
Qed.

Lemma pending_from (k : nat) (records : list record) :
  Forall (fun it => Z.of_nat k + 2 <= row_id it) (items_from lower today k records)
  /\ StronglySorted Z.lt (row_id <$> items_from lower today k records)
  /\ (length (items_from lower today k records) <= length records)%nat.
Proof.
  revert k. induction records as [| r records IH]; intros k.
  - repeat split; constructor.
  - rewrite items_from_cons.
    destruct (IH (S k)) as (Hge & Hs & Hlen).
    rewrite Nat2Z.inj_succ in Hge.
    assert (Hge' : Forall (fun it => Z.of_nat k + 2 < row_id it)
                          (items_from lower today (S k) records))
      by (eapply Forall_impl; [exact Hge |]; intros x Hx; cbv beta in Hx; lia).
    destruct (row_item lower today k r) as [it |] eqn:Hrow.
    + destruct (row_item_origin _ _ _ Hrow) as (Hid & _).
      repeat split.
      * constructor; [lia |]. eapply Forall_impl; [exact Hge' |].
        intros x Hx. cbv beta in Hx. lia.
      * rewrite fmap_cons. constructor; [exact Hs |]. apply Forall_fmap.
        eapply Forall_impl; [exact Hge' |]. intros x Hx.
        cbv beta in *. unfold compose. lia.
      * cbn [length]. lia.
    + repeat split.
      * eapply Forall_impl; [exact Hge' |]. intros x Hx. cbv beta in Hx. lia.
      * exact Hs.
      * cbn [length]. lia.
Qed.

(** X11: the list keeps the order of the sheet: row ids are strictly
    increasing, none is below 2, and no row is listed twice or invented. *)
Theorem listed_items_keep_sheet_order (records : list record) :
  StronglySorted Z.lt (row_id <$> pending_items lower today records)
  /\ Forall (fun it => 2 <= row_id it) (pending_items lower today records)
  /\ (length (pending_items lower today records) <= length records)%nat.
Proof.
  destruct (pending_from 0 records) as (Hge & Hs & Hlen).
  unfold items_from in *. unfold pending_items.
  split; [exact Hs |]. split; [exact Hge | exact Hlen].
Qed.

End Rows.

Section Columns.
Variable lower : str -> str.

Lemma find_col_from_app (keywords : list str) (i : nat)
    (pre post : list str) (col : option nat) :
  find_col_from lower keywords i (pre ++ post) col
  = find_col_from lower keywords (i + length pre) post
      (find_col_from lower keywords i pre col).
Proof.
  revert i col. induction pre as [| h pre IH]; intros i col; simpl.
  - now replace (i + 0)%nat with i by lia.
  - rewrite IH. now replace (S i + length pre)%nat with (i + S (length pre))%nat by lia.
Qed.

Lemma find_col_from_no_match (keywords : list str) (i : nat)
    (headers : list str) (col : option nat) :
  Forall (fun h => header_matches lower keywords h = false) headers ->
  find_col_from lower keywords i headers col = col.
Proof.
  intros H. revert i col. induction H as [| h rest Hh _ IH]; intros i col;
    simpl; [reflexivity |]. now rewrite Hh, IH.
Qed.

Lemma find_col_from_cases (keywords : list str) (i : nat)
    (headers : list str) (col : option nat) :
  (find_col_from lower keywords i headers col = col
   /\ Forall (fun h => header_matches lower keywords h = false) headers)
  \/ exists pre h post,
       headers = pre ++ h :: post
       /\ header_matches lower keywords h = true
       /\ Forall (fun h => header_matches lower keywords h = false) post
       /\ find_col_from lower keywords i headers col = Some (i + length pre + 1)%nat.
Proof.
  revert i col. induction headers as [| h rest IH]; intros i col; simpl.
  - left. split; [reflexivity | constructor].
  - destruct (IH (S i) (if header_matches lower keywords h then Some (S i) else col))
      as [[E F] | (pre & g & post & -> & Hg & Hpost & E)].
    + destruct (header_matches lower keywords h) eqn:Hh.
      * right. exists [], h, rest. simpl. repeat split; auto.
        rewrite E. f_equal. lia.
      * left. split; [exact E |]. now constructor.
    + right. exists (h :: pre), g, post. simpl. repeat split; auto.
      rewrite E. f_equal. lia.
Qed.

(** X12: the column [update_status] writes to is the last header that
    contains one of the keywords (the loop does not stop at the first); with
    no such header there is no column. *)
Theorem status_column_is_last_match (keywords headers : list str) :
  (find_col lower keywords headers = None <->
   Forall (fun h => header_matches lower keywords h = false) headers)
  /\ forall c,
       find_col lower keywords headers = Some c <->
       exists pre h post,
         headers = pre ++ h :: post
         /\ c = S (length pre)
         /\ header_matches lower keywords h = true
         /\ Forall (fun h => header_matches lower keywords h = false) post.
Proof.
  unfold find_col.
  destruct (find_col_from_cases keywords 0 headers None)
    as [[E F] | (pre & h & post & -> & Hh & Hpost & E)].
  - split.
    + split; [intros _; exact F | intros _; exact E].
    + intros c. rewrite E. split; [discriminate |].
      intros (pre & h & post & -> & _ & Hh & _).
      rewrite Forall_app in F. destruct F as [_ F]. inversion F; congruence.
  - split.
    + rewrite E. split; [discriminate |]. intros F.
      rewrite Forall_app in F. destruct F as [_ F]. inversion F; congruence.
    + intros c. rewrite E. split.
      * intros Hc. inversion Hc; subst. exists pre, h, post.
        repeat split; auto. lia.
      * intros (pre' & h' & post' & E' & -> & Hh' & Hpost').
        f_equal. 
        assert (length pre = length pre'); [| lia].
        clear E. revert pre' E'. induction pre as [| a pre IH]; intros pre' E'.
        -- destruct pre' as [| b pre']; [reflexivity |]. simpl in E'.
           inversion E'; subst. rewrite Forall_app in Hpost.
           destruct Hpost as [_ Hpost]. inversion Hpost; congruence.
        -- destruct pre' as [| b pre']; simpl in E'.
           ++ inversion E'; subst. rewrite Forall_app in Hpost'.
              destruct Hpost' as [_ Hpost']. inversion Hpost'; congruence.
           ++ inversion E'; subst. simpl. f_equal. now apply IH.
Qed.

End Columns.

Section WithBackend.
Context {W : Type} {B : Backend W}.

Lemma try_methods_outcome (methods : list (strategy W)) (url : str)
    (st : t * env W) :
  exists st' b,
    try_methods methods url st = (st', Ret b)
    /\ is_connected st'.1 = b
    /\ (b = false -> data_source st'.1 = SrcMock)
    /\ trace st'.2 = trace st.2.
Proof.
  revert st. induction methods as [| s methods IH]; intros [m e].
  - eexists _, false. split; [reflexivity |]. repeat split.
  - simpl. unfold_eff. simpl.
    destruct (s url m (world e)) as [[m1 w1] [[|] | err]]; simpl.
    + eexists _, true. split; [reflexivity |]. repeat split. discriminate.
    + destruct (IH (m1, {| world := w1; trace := trace e |}))
        as (st' & b & E & H1 & H2 & H3).
      exists st', b. unfold_eff. rewrite E. repeat split; auto.
    + destruct (IH (m1, {| world := w1; trace := trace e |}))
        as (st' & b & E & H1 & H2 & H3).
      exists st', b. unfold_eff. rewrite E. repeat split; auto.
Qed.

(** X13: [setup_sheets_connection] never raises; when it answers [False]
    the manager is in mock mode, when it answers [True] it is connected,
    and with the sheets library installed its answer is [is_connected]. *)
Theorem setup_reports_the_connection (url : str) (st : t * env W) :
  exists st' b,
    setup_sheets_connection url st = (st', Ret b)
    /\ (b = false -> data_source st'.1 = SrcMock)
    /\ (b = true -> is_connected st'.1 = true)
    /\ (GSPREAD_AVAILABLE = true -> is_connected st'.1 = b).
Proof.
  unfold setup_sheets_connection.
  destruct GSPREAD_AVAILABLE; cbn [negb].
  - destruct (try_methods_outcome connection_methods url st)
      as (st' & b & E & H1 & H2 & _).
    exists st', b. repeat split; auto. intros ->. exact H1.
  - destruct st as [m e]. eexists _, false. split; [reflexivity |].
    repeat split; discriminate.
Qed.

(** X14: the strategies are tried in order and the first that connects
    ends the search: the strategies listed after it have no effect. *)
Theorem first_connection_wins (pre post : list (strategy W))
    (s : strategy W) (url : str) (st : t * env W) :
  (forall m w, (s url m w).2 = Ret true) ->
  try_methods (pre ++ s :: post) url st = try_methods (pre ++ [s]) url st
  /\ exists st',
       try_methods (pre ++ s :: post) url st = (st', Ret true)
       /\ is_connected st'.1 = true.
Proof.
  intros Hs. revert st. induction pre as [| p pre IH]; intros [m e].
  - simpl. unfold_eff. simpl. specialize (Hs m (world e)).
    destruct (s url m (world e)) as [[m1 w1] r]. simpl in Hs. subst r.
    simpl. split; [reflexivity |]. eexists. split; reflexivity.
  - simpl. unfold_eff. simpl.
    destruct (p url m (world e)) as [[m1 w1] [[|] | err]]; simpl.
    + split; [reflexivity |]. eexists. split; reflexivity.
    + specialize (IH (m1, {| world := w1; trace := trace e |})).
      unfold_eff. exact IH.
    + specialize (IH (m1, {| world := w1; trace := trace e |})).
      unfold_eff. exact IH.
Qed.

(** X15: [update_status] never raises and assigns no attribute of the
    manager, whatever the sheet does; on a manager that is not connected to
    a sheet it does not reach the outside world at all. *)
Theorem update_status_is_best_effort (row : Z) (status : str)
    (url : option str) (m : t) (e : env W) :
  exists w',
    update_status row status url (m, e)
    = ((m, {| world := w';
              trace := trace e ++ [StatusWrite row status (default [] url)] |}),
       Ret tt)
    /\ (is_connected m = false \/ sheet m = None
        \/ reads_sheet (data_source m) = false -> w' = world e).
Proof.
  unfold update_status. unfold_eff. simpl.
  destruct (is_connected m); simpl;
    [| exists (world e); split; [reflexivity | reflexivity]].
  destruct (sheet m) as [ws |]; simpl;
    [| exists (world e); split; [reflexivity | reflexivity]].
  destruct (reads_sheet _); simpl;
    [| exists (world e); split; [reflexivity | reflexivity]].
  destruct (update_cells ws row status url (world e)) as [w' [[] | x]];
    exists w'; (split; [reflexivity |]);
    intros [H | [H | H]]; discriminate.
Qed.

(** X16: [get_property_queue] never raises, and what it returns is always
    the filtered rows: every item has a non-empty stripped address, a
    non-empty notice and a row id of at least 2. *)
Theorem queue_never_raises (url : str) (st : t * env W) :
  exists st' items,
    get_property_queue url st = (st', Ret items)
    /\ (exists now records, items = pending_items lower now records)
    /\ Forall (fun it => nonempty (address it) = true
                         /\ strip (address it) = address it
                         /\ nonempty (advertising_notice it) = true
                         /\ 2 <= row_id it) items.
Proof.
  destruct (get_property_queue_never_falls_back url st)
    as (st' & now & records & E).
  exists st', (pending_items lower now records). split; [exact E |].
  split; [now exists now, records |].
  apply Forall_forall. intros it Hin.
  destruct (pending_item_origin lower now records it Hin)
    as (idx & r & _ & Hid & _ & Ha & Hs & Hn).
  repeat split; auto. lia.
Qed.

End WithBackend.

Lemma row_is_listed_witness :
  let r : record :=
    {[ lit "주소" := VStr (lit "  Seoul Gangnam Apt ");
       lit "status" := VStr (lit "완료") ]} in
  address_of r <> []
  /\ exists it,
       row_item Demo.ascii_lower (lit "2024-01-01") 0 r = Some it
       /\ row_id it = 2 /\ address it = lit "Seoul Gangnam Apt".
Proof.
  intros r.
  assert (H : address_of r <> []) by (vm_compute; discriminate).
  split; [exact H |].
  destruct (row_is_listed_iff_it_has_an_address Demo.ascii_lower
              (lit "2024-01-01") 0 r) as [_ Hyes].
  destruct (Hyes H) as (it & E & Hid & Ha & _).
  exists it. split; [exact E |]. split; [exact Hid |].
  rewrite Ha. vm_compute. reflexivity.
Defined.

Lemma listed_item_witness :
  let records := Demo.finished_rows in
  let items := pending_items Demo.ascii_lower (lit "2024-01-01") records in
  exists it,
    items !! 1%nat = Some it
    /\ exists idx r,
         records !! idx = Some r
         /\ row_id it = Z.of_nat idx + 2
         /\ address it = address_of r
         /\ nonempty (address it) = true
         /\ strip (address it) = address it
         /\ nonempty (advertising_notice it) = true.
Proof.
  intros records items.
  assert (Hit : exists it, items !! 1%nat = Some it)
    by (vm_compute; eexists; reflexivity).
  destruct Hit as [it Hit]. exists it. split; [exact Hit |].
  apply (listed_item_origin Demo.ascii_lower (lit "2024-01-01") records it).
  apply list_elem_of_lookup. exists 1%nat. exact Hit.
Defined.

Lemma first_connection_witness :
  (forall m w, (Demo2.csv_connects [] m w).2 = Ret true)
  /\ exists st',
       try_methods
         ([Demo.no_strategy] ++ Demo2.csv_connects :: [Demo.no_strategy])
         [] (init, Demo.empty_env) = (st', Ret true)
       /\ is_connected st'.1 = true.
Proof.
  assert (H : forall m w, (Demo2.csv_connects [] m w).2 = Ret true)
    by (intros m w; reflexivity).
  split; [exact H |].
  exact (proj2 (first_connection_wins
                  [Demo.no_strategy] [Demo.no_strategy] Demo2.csv_connects
                  [] (init, Demo.empty_env) H)).
Defined.

End SheetsMore.

(** ** The content pipeline *)

Module PipelineMore.
Import ProgressTracker Props Props2 Pipeline TraceFacts EffFacts EffMore
  PipelineFacts UploaderFacts UploaderMore.

Section WithBackend.
Context {W : Type} {B : Backend W}.

Lemma total_ret {A} (I : Pipeline.t -> Prop) (a : A) (Q : A -> Prop) :
  Q a -> total_with (W := W) I (mret a) Q.
Proof. intros H l e Hl. now exists l, e, a. Qed.

Lemma total_bind {A C} (I : Pipeline.t -> Prop)
    (m : M (Pipeline.t * env W) A) (k : A -> M (Pipeline.t * env W) C)
    (P : A -> Prop) (Q : C -> Prop) :
  total_with I m P -> (forall a, P a -> total_with I (k a) Q) ->
  total_with I (m ≫= k) Q.
Proof.
  intros Hm Hk l e Hl. destruct (Hm l e Hl) as (l1 & e1 & a & E & Hl1 & Ha).
  destruct (Hk a Ha l1 e1 Hl1) as (l2 & e2 & c & E2 & Hl2 & Hc).
  exists l2, e2, c. unfold mbind, M_bind, bind. rewrite E. now split.
Qed.

Lemma total_external {A} (I : Pipeline.t -> Prop)
    (f : W -> W * outcome A) :
  (forall w, exists w' a, f w = (w', Ret a)) ->
  total_with I (external f) (fun _ => True).
Proof.
  intros Hf l e Hl. destruct (Hf (world e)) as (w' & a & E).
  exists l, {| world := w'; trace := trace e |}, a.
  unfold external. now rewrite E.
Qed.

Lemma track_runs (step : Z) (message : str) (sub : Z) (l : Pipeline.t)
    (e : env W) (tr : ProgressTracker.t) :
  progress_tracker l = Some tr -> total_steps tr = 10 ->
  0 <= step < 10 -> 0 <= sub <= 100 ->
  exists w' percent,
    track step message sub (l, e)
    = ((set_progress_tracker
          (Some {| has_callback := has_callback tr; current_step := step;
                   total_steps := 10; step_details := step_details tr |}) l,
        {| world := w';
           trace := trace e ++ [Progress (message_of tr step message)
                                         percent] |}), Ret tt).
Proof.
  intros Hp Htot Hstep Hsub. unfold track.
  unfold mbind at 1, M_bind at 1, bind at 1, local, gets. simpl. rewrite Hp.
  destruct (TrackerMore.update_runs YouTubeUploader.callback tr step message
              sub l e Htot Hstep Hsub) as (w' & percent & E & _).
  exists w', percent. unfold mbind, M_bind, bind. rewrite E. reflexivity.
Qed.

Lemma total_track (step : Z) (message : str) (sub : Z) :
  0 <= step < 10 -> 0 <= sub <= 100 ->
  total_with tracking (track step message sub) (fun _ => True).
Proof.
  intros Hstep Hsub l e (tr & Hp & Htot).
  destruct (track_runs step message sub l e tr Hp Htot Hstep Hsub)
    as (w' & percent & E).
  eexists _, _, tt. split; [exact E |]. split; [| exact I].
  eexists. split; [reflexivity | reflexivity].
Qed.

Lemma zoom_same_self {L1 A} (proj : Pipeline.t -> L1)
    (inj : L1 -> Pipeline.t -> Pipeline.t) (m : M (L1 * env W) A) :
  (forall l, inj (proj l) l = l) ->
  respects same_self m -> respects same_self (zoom proj inj m).
Proof.
  intros Hid Hm [l e] st' r E. unfold zoom in E.
  destruct (m (proj l, e)) as [[l1 e1] r1] eqn:Em.
  inversion E; subst. specialize (Hm _ _ _ Em). unfold same_self in *.
  simpl in *. subst l1. apply Hid.
Qed.

Lemma stage_8_same_self (video : str) (p : PropertyData) (script_text : str) :
  respects same_self (_upload_to_youtube_with_confirmation video p script_text).
Proof.
  unfold _upload_to_youtube_with_confirmation.
  same_self.
  apply zoom_same_self; [intros []; reflexivity | apply upload_same_self].
Qed.

Lemma stage_8_returns (video : str) (p : PropertyData) (script_text : str)
    (st : Pipeline.t * env W) :
  exists st' url,
    _upload_to_youtube_with_confirmation video p script_text st
    = (st', Ret url)
    /\ st'.1 = st.1.
Proof.
  unfold _upload_to_youtube_with_confirmation.
  match goal with |- context [try_except ?b ?h] =>
    destruct (try_except_returns b h
      (fun x s => ex_intro _ s (ex_intro _ None eq_refl)) st)
      as (st' & url & E) end.
  exists st', url. split; [exact E |].
  exact (stage_8_same_self video p script_text _ _ _ E).
Qed.

Lemma total_stage_8 (I : Pipeline.t -> Prop) (video : str) (p : PropertyData)
    (script_text : str) :
  total_with I (_upload_to_youtube_with_confirmation video p script_text)
             (fun _ => True).
Proof.
  intros l e Hl.
  destruct (stage_8_returns video p script_text (l, e)) as ([l' e'] & url & E & Hs).
  simpl in Hs. subst l'. now exists l, e', url.
Qed.

Lemma finalize_returns_success (sheets_row_id0 : option Z) (a : artifacts) :
  returns (finalize sheets_row_id0 a)
    (fun res => success res = true /\ sheets_row_id res = sheets_row_id0
                /\ youtube_url res = a.2).
Proof.
  destruct a as [[[[[[video sd] ppt] voice] subtitle] thumbnail] url].
  unfold finalize.
  repeat (apply returns_bind; intros ?).
  apply returns_ret. repeat split.
Qed.

(** X17: [run_full_automation_with_notice] never raises, whatever the
    stage workers, the uploader and the sheet do; the result it returns
    carries the row id it was given, and is either a success or the failure
    result with empty artifact paths. *)
Theorem pipeline_never_raises (property_address property_type
    advertising_notice : str) (sheets_row_id0 : option Z)
    (st : Pipeline.t * env W) :
  exists st' res,
    run_full_automation_with_notice property_address property_type
      advertising_notice sheets_row_id0 st = (st', Ret res)
    /\ sheets_row_id res = sheets_row_id0
    /\ (success res = true
        \/ exists err, res = failure_result err sheets_row_id0).
Proof.
  unfold run_full_automation_with_notice, try_except.
  destruct ((stages property_address advertising_notice
             ≫= finalize sheets_row_id0) st) as [[l1 e1] [res | err]] eqn:E.
  - exists (l1, e1), res. split; [reflexivity |].
    assert (H : returns (stages property_address advertising_notice
                         ≫= finalize sheets_row_id0)
                  (fun res => success res = true
                              /\ sheets_row_id res = sheets_row_id0))
      by (apply returns_bind; intros a s s' r Hr;
          destruct (finalize_returns_success _ _ _ _ _ Hr) as (? & ? & _);
          now split).
    destruct (H _ _ _ E) as [Hs Hid]. split; [exact Hid | now left].
  - unfold row_given. destruct sheets_row_id0 as [row |];
      [destruct (row =? 0) |].
    + eexists _, _. split; [reflexivity |]. split; [reflexivity |].
      right. now exists err.
    + destruct (update_status_runs row (lit "오류") (Some []) l1 e1) as [w' Eu].
      unfold mbind, M_bind, bind. rewrite Eu.
      eexists _, _. split; [reflexivity |]. split; [reflexivity |].
      right. now exists err.
    + eexists _, _. split; [reflexivity |]. split; [reflexivity |].
      right. now exists err.
Qed.

(** X18: the upload stage of the pipeline never raises and assigns no
    attribute; when the operator declines, it returns the text
    [업로드 실패: 사용자가 업로드를 취소했습니다.] as the link, so the pipeline goes on
    to its last stage. *)
Theorem declined_upload_is_not_an_error (video : str) (p : PropertyData)
    (script_text : str) (l : Pipeline.t) (e : env W) :
  (exists st' url,
     _upload_to_youtube_with_confirmation video p script_text (l, e)
     = (st', Ret url) /\ st'.1 = l)
  /\ (tracker_ok (progress_tracker l) ->
      YouTubeUploader.auto_upload_mode (youtube_uploader l) = false ->
      (forall w, exists w' title,
         create_branded_title (pd_address p) (pd_property_type p) w
         = (w', Ret title)) ->
      (forall v t d w,
         (YouTubeUploader._show_upload_confirmation v t d w).2 = Ret false) ->
      (_upload_to_youtube_with_confirmation video p script_text (l, e)).2
      = Ret (Some (lit "업로드 실패: " ++ YouTubeUploader.cancelled_by_user))).
Proof.
  split; [apply stage_8_returns |].
  intros Hp Hauto Htitle Hno.
  unfold _upload_to_youtube_with_confirmation, try_except.
  unfold mbind at 1, M_bind at 1, bind at 1, external.
  destruct (Htitle (world e)) as (w1 & title & ->).
  unfold mbind at 1, M_bind at 1, bind at 1, local, gets. cbn [fst snd].
  unfold mbind at 1, M_bind at 1, bind at 1, zoom.
  destruct (upload_confirmed_run video title (youtube_description p)
              (Some upload_tags) None (progress_tracker l)
              (youtube_uploader l) {| world := w1; trace := trace e |}
              Hp Hauto) as (w2 & evs & _ & ->).
  specialize (Hno video title (youtube_description p) w2).
  destruct (YouTubeUploader._show_upload_confirmation video title
              (youtube_description p) w2) as [w3 r]. simpl in Hno. subst r.
  reflexivity.
Qed.

Lemma stages_return (property_address advertising_notice : str)
    (l : Pipeline.t) (e : env W) :
  workers_never_raise B ->
  exists l' e' a,
    stages property_address advertising_notice (l, e) = ((l', e'), Ret a)
    /\ tracking l'.
Proof.
  intros (H1 & H2 & H3 & H4 & H5 & H6).
  assert (Hrest : total_with tracking
    (track 0 (lit "🚀 청산부동산 완전 자동화 시작...") 0;;
     track 1 (lit "🏠 부동산 데이터 수집 중...") 0;;
     property_data ← external (mock_property_data property_address
                                                  advertising_notice);
     track 2 (lit "✍️ AI 스크립트 생성 중...") 0;;
     script_data ← external (_generate_branded_script_with_notice property_data);
     track 3 (lit "📊 브랜디드 PPT 생성 중...") 0;;
     ppt ← external (_create_branded_ppt_with_notice script_data property_data);
     track 4 (lit "🎨 썸네일 생성 중...") 0;;
     thumbnail ← external (_create_thumbnail property_data script_data);
     track 5 (lit "🎙️ 음성 생성 중...") 0;;
     '(voice, subtitle) ← external (_generate_real_voice_and_subtitles script_data);
     track 6 (lit "📝 자막 파일 생성 중...") 0;;
     track 7 (lit "🎬 영상 편집 중...") 0;;
     video ← external (_create_real_video ppt voice subtitle thumbnail);
     track 8 (lit "📺 YouTube 업로드 중...") 0;;
     url ← _upload_to_youtube_with_confirmation video property_data
                                                (full_script script_data);
     mret (video, script_data, ppt, voice, subtitle, thumbnail, url))
    (fun _ => True)).
  { repeat first
      [ apply total_ret; exact I
      | apply (total_bind tracking _ _ (fun _ => True));
          [ first [ apply total_track; lia
                  | apply total_external; auto
                  | apply total_stage_8 ]
          | intros ? _ ]
      | progress cbv beta
      | match goal with
        | |- total_with _ (match ?x with _ => _ end) _ => destruct x
        end ]. }
  destruct (Hrest (set_progress_tracker (Some (ProgressTracker.init true)) l) e)
    as (l' & e' & a & E & Hl' & _).
  { eexists. split; reflexivity. }
  exists l', e', a. split; [| exact Hl'].
  unfold stages. unfold mbind at 1, M_bind at 1, bind at 1, update_local, modify.
  exact E.
Qed.

Lemma finalize_runs (sheets_row_id0 : option Z) (a : artifacts)
    (l : Pipeline.t) (e : env W) :
  tracking l ->
  exists l' e' res evs,
    finalize sheets_row_id0 a (l, e) = ((l', e'), Ret res)
    /\ trace e' = trace e ++ evs
    /\ List.filter is_status_write evs
       = match sheets_row_id0 with
         | Some row => if row =? 0 then []
                       else [StatusWrite row (lit "완료") (default [] a.2)]
         | None => []
         end.
Proof.
  intros (tr & Hp & Htot).
  destruct a as [[[[[[video sd] ppt] voice] subtitle] thumbnail] url].
  unfold finalize.
  destruct (track_runs 9 (lit "✅ 최종 완료 및 상태 업데이트...") 0 l e tr Hp Htot
              ltac:(lia) ltac:(lia)) as (w1 & p1 & E1).
  unfold mbind at 1, M_bind at 1, bind at 1. rewrite E1.
  set (l1 := set_progress_tracker _ l).
  set (e1 := {| world := w1; trace := _ |}).
  assert (Hmid : exists w2 evs2,
    (match row_given sheets_row_id0 with
     | Some row => update_status row (lit "완료") url
     | None => mret tt
     end) (l1, e1)
    = ((l1, {| world := w2; trace := trace e1 ++ evs2 |}), Ret tt)
    /\ evs2 = match sheets_row_id0 with
              | Some row => if row =? 0 then []
                            else [StatusWrite row (lit "완료") (default [] url)]
              | None => []
              end).
  { unfold row_given. destruct sheets_row_id0 as [row |];
      [destruct (row =? 0) |].
    - exists w1, []. rewrite app_nil_r. split; reflexivity.
    - destruct (update_status_runs row (lit "완료") url l1 e1) as [w2 Eu].
      exists w2, [StatusWrite row (lit "완료") (default [] url)].
      split; [exact Eu | reflexivity].
    - exists w1, []. rewrite app_nil_r. split; reflexivity. }
  destruct Hmid as (w2 & evs2 & E2 & Hevs2).
  unfold mbind at 1, M_bind at 1, bind at 1. rewrite E2.
  set (e2 := {| world := w2; trace := _ |}).
  destruct (track_runs 9 (lit "🎉 완전 자동화 100% 완료!") 100 l1 e2 _
              eq_refl eq_refl ltac:(lia) ltac:(lia)) as (w3 & p3 & E3).
  unfold mbind at 1, M_bind at 1, bind at 1. rewrite E3.
  eexists _, _, _, ([_] ++ evs2 ++ [_]). split; [reflexivity |].
  split.
  - simpl. rewrite <- !app_assoc. reflexivity.
  - rewrite !List.filter_app. simpl. rewrite app_nil_r. subst evs2. simpl.
    destruct sheets_row_id0 as [row |]; [destruct (row =? 0) |]; reflexivity.
Qed.

(** X19: when no stage worker raises, the pipeline returns a success
    carrying the row id, and writes to the queue exactly once, status [완료]
    with the link of the result, when the row id is given and is not 0, and
    not at all otherwise. *)
Theorem pipeline_success_is_reported_once (property_address property_type
    advertising_notice : str) (sheets_row_id0 : option Z)
    (l : Pipeline.t) (e : env W) :
  workers_never_raise B ->
  exists st' res evs,
    run_full_automation_with_notice property_address property_type
      advertising_notice sheets_row_id0 (l, e) = (st', Ret res)
    /\ success res = true
    /\ sheets_row_id res = sheets_row_id0
    /\ trace st'.2 = trace e ++ evs
    /\ List.filter is_status_write evs
       = match sheets_row_id0 with
         | Some row => if row =? 0 then []
                       else [StatusWrite row (lit "완료")
                                         (default [] (youtube_url res))]
         | None => []
         end.
Proof.
  intros Hw.
  destruct (stages_return property_address advertising_notice l e Hw)
    as (l1 & e1 & a & E1 & Ht).
  destruct (stages_quiet _ _ _ _ _ _ E1) as (evs1 & T1 & F1). simpl in T1.
  destruct (finalize_runs sheets_row_id0 a l1 e1 Ht)
    as (l2 & e2 & res & evs2 & E2 & T2 & F2).
  destruct (finalize_returns_success _ _ _ _ _ E2) as (Hs & Hid & Hurl).
  exists (l2, e2), res, (evs1 ++ evs2).
  split.
  - unfold run_full_automation_with_notice, try_except.
    unfold mbind at 1, M_bind at 1, bind at 1. rewrite E1, E2. reflexivity.
  - split; [exact Hs |]. split; [exact Hid |]. split.
    + simpl. rewrite T2, T1, app_assoc. reflexivity.
    + rewrite List.filter_app, (no_status_write_filter _ F1), Hurl. exact F2.
Qed.

End WithBackend.

Lemma declined_upload_witness :
  let l := {| sheets_manager := FixedSheetsManager.init;
              youtube_uploader := YouTubeUploader.init false;
              progress_tracker := Some (ProgressTracker.init true) |} in
  tracker_ok (progress_tracker l)
  /\ (_upload_to_youtube_with_confirmation (B := Demo2.working_pipeline)
        (lit "video.mp4") Demo2.sample_property (lit "script")
        (l, Demo.empty_env)).2
     = Ret (Some (lit "업로드 실패: 사용자가 업로드를 취소했습니다.")).
Proof.
  intros l.
  assert (Hok : tracker_ok (progress_tracker l))
    by (split; [reflexivity | split; [discriminate | reflexivity]]).
  split; [exact Hok |].
  destruct (declined_upload_is_not_an_error (B := Demo2.working_pipeline)
              (lit "video.mp4") Demo2.sample_property (lit "script")
              l Demo.empty_env) as [_ H].
  assert (Ht : forall w : unit, exists w' title,
             create_branded_title (Backend := Demo2.working_pipeline)
               (pd_address Demo2.sample_property)
               (pd_property_type Demo2.sample_property) w
             = (w', Ret title))
    by (intros w; exists w, (lit "title"); reflexivity).
  assert (Hno : forall v t d (w : unit),
             (YouTubeUploader._show_upload_confirmation
                (Backend := @upload_backend _ Demo2.working_pipeline)
                v t d w).2 = Ret false)
    by (intros; reflexivity).
  pose proof (H Hok eq_refl Ht Hno) as E.
  etransitivity; [exact E |]. vm_compute. reflexivity.
Defined.

Lemma workers_never_raise_demo : workers_never_raise Demo2.working_pipeline.
Proof. repeat split; intros; eexists _, _; reflexivity. Qed.

Lemma pipeline_success_witness :
  workers_never_raise Demo2.working_pipeline
  /\ exists st' res evs,
       run_full_automation_with_notice (B := Demo2.working_pipeline)
         (lit "Seoul Gangnam Apt") (lit "아파트") [] (Some 2)
         (Demo.idle_pipeline, Demo.empty_env) = (st', Ret res)
       /\ success res = true
       /\ sheets_row_id res = Some 2
       /\ trace st'.2 = [] ++ evs
       /\ List.filter is_status_write evs
          = [StatusWrite 2 (lit "완료") (default [] (youtube_url res))].
Proof.
  split; [exact workers_never_raise_demo |].
  exact (pipeline_success_is_reported_once (B := Demo2.working_pipeline)
           (lit "Seoul Gangnam Apt") (lit "아파트") [] (Some 2)
           Demo.idle_pipeline Demo.empty_env workers_never_raise_demo).
Defined.

End PipelineMore.

(** ** The monitoring thread *)

Module MonitorMore.
Import Props Props2 FixedSheetsManager Pipeline AutoMonitoringManager
  TraceFacts EffMore MonitorFacts.

Section WithBackend.
Context {W : Type} {B : Backend W}.

Lemma grows_refl (st : mstate * env W) : grows st st.
Proof. repeat split; reflexivity. Qed.

Lemma grows_trans (s1 s2 s3 : mstate * env W) :
  grows s1 s2 -> grows s2 s3 -> grows s1 s3.
Proof.
  intros (A1 & A2 & A3 & A4) (B1 & B2 & B3 & B4).
  repeat split; [set_solver | congruence ..].
Qed.

Lemma blocking_grows {A} (f : outside W -> outside W * outcome A) :
  respects grows (blocking f).
Proof.
  intros [[m sd] e] st' r E. unfold blocking in E.
  destruct (f _) as [o r']. inversion E; subst. repeat split; reflexivity.
Qed.

Lemma emit_grows (ev : event) :
  respects (S := mstate * env W) grows (emit ev).
Proof. intros [l e] st' r E. inversion E. repeat split; reflexivity. Qed.

Lemma add_processed_grows (k : str) :
  respects (S := mstate * env W) grows
    (update_local (on_self (add_processed k))).
Proof.
  intros [l e] st' r E. inversion E. repeat split; simpl; try reflexivity.
  set_solver.
Qed.

Lemma last_check_grows (now : Z) :
  respects (S := mstate * env W) grows
    (update_local (on_self (set_last_check_time now))).
Proof. intros [l e] st' r E. inversion E. repeat split; reflexivity. Qed.

Lemma local_grows {A} (f : mstate -> A) :
  respects (S := mstate * env W) grows (local f).
Proof. intros [l e] st' r E. inversion E. apply grows_refl. Qed.

Lemma external_grows {A} (f : W -> W * outcome A) :
  respects (S := mstate * env W) grows (external f).
Proof.
  intros [l e] st' r E. unfold external in E.
  destruct (f (world e)). inversion E. repeat split; reflexivity.
Qed.

Ltac growing :=
  repeat first
    [ apply respects_ret; apply grows_refl
    | apply respects_raise; apply grows_refl
    | apply emit_grows
    | apply add_processed_grows
    | apply last_check_grows
    | apply local_grows
    | apply external_grows
    | apply blocking_grows
    | apply respects_bind; [apply grows_trans | | intros ?]
    | apply respects_try; [apply grows_trans | | intros ?]
    | progress cbv beta
    | match goal with
      | |- respects _ (match ?x with _ => _ end) => destruct x
      | |- respects _ (if ?c then _ else _) => destruct c
      end ].

Lemma process_single_item_grows (it : item) :
  respects grows (_process_single_item it).
Proof. unfold _process_single_item, write_status, nap. growing. Qed.

Lemma process_new_items_grows (items : list item) :
  respects grows (process_new_items items).
Proof.
  induction items as [| it rest IH]; simpl; growing. exact IH.
Qed.

Lemma poll_grows : respects grows _check_and_process_new_items.
Proof.
  unfold _check_and_process_new_items. growing.
  apply process_new_items_grows.
Qed.

(** X20: [_check_and_process_new_items] never raises, whatever the queue,
    the sheet and the pipeline do; it never removes a key from
    [processed_items] and assigns neither the sheet reference, the polling
    interval nor the thread. *)
Theorem poll_never_raises (st : mstate * env W) :
  exists st',
    _check_and_process_new_items st = (st', Ret tt)
    /\ processed_items (self st.1) ⊆ processed_items (self st'.1)
    /\ sheet_url (self st'.1) = sheet_url (self st.1)
    /\ check_interval (self st'.1) = check_interval (self st.1)
    /\ monitoring_thread (self st'.1) = monitoring_thread (self st.1).
Proof.
  unfold _check_and_process_new_items.
  match goal with |- context [try_except ?b ?h] =>
    destruct (try_except_returns b h
      (fun x s => ex_intro _ s (ex_intro _ tt eq_refl)) st)
      as (st' & [] & E) end.
  exists st'. split; [exact E |]. exact (poll_grows _ _ _ E).
Qed.

Lemma poll_returns (st : mstate * env W) :
  exists st', _check_and_process_new_items st = (st', Ret tt).
Proof.
  unfold _check_and_process_new_items.
  match goal with |- context [try_except ?b ?h] =>
    destruct (try_except_returns b h
      (fun x s => ex_intro _ s (ex_intro _ tt eq_refl)) st)
      as (st' & [] & E) end.
  now exists st'.
Qed.

Lemma emits_blocking {A} (P : event -> Prop)
    (f : outside W -> outside W * outcome A) :
  emits_only P (blocking f).
Proof.
  intros l e st' r E. unfold blocking in E.
  destruct (f _) as [o r']. inversion E; subst. exists []. simpl.
  now rewrite app_nil_r.
Qed.

Ltac calm :=
  repeat first
    [ apply emits_ret
    | apply emits_raise
    | apply emits_local
    | apply emits_update_local
    | apply emits_external
    | apply emits_blocking
    | apply emits_emit; reflexivity
    | apply emits_bind; [| intros ?]
    | apply emits_try; [| intros ?]
    | progress cbv beta
    | match goal with
      | |- emits_only _ (match ?x with _ => _ end) => destruct x
      | |- emits_only _ (if ?c then _ else _) => destruct c
      end ].

Lemma process_new_items_calm (items : list item) :
  emits_only (fun ev => is_back_off ev = false) (process_new_items items).
Proof. induction items as [| it rest IH]; simpl; calm. exact IH. Qed.

Lemma poll_calm :
  emits_only (fun ev => is_back_off ev = false) _check_and_process_new_items.
Proof.
  unfold _check_and_process_new_items. calm. apply process_new_items_calm.
Qed.

Lemma interval_wait_calm (n : nat) :
  emits_only (fun ev => is_back_off ev = false) (interval_wait n).
Proof. induction n as [| n IH]; simpl; calm. exact IH. Qed.

Lemma interval_wait_grows (n : nat) : respects grows (interval_wait n).
Proof. induction n as [| n IH]; simpl; growing. exact IH. Qed.

Lemma interval_wait_returns (n : nat) (st : mstate * env W) :
  exists st', interval_wait n st = (st', Ret tt).
Proof.
  revert st. induction n as [| n IH]; intros st; [now exists st |].
  rewrite interval_wait_S.
  destruct (stop_requested st.1); [now exists st | apply IH].
Qed.

Lemma turn_returns (st : mstate * env W) :
  exists st', turn st = (st', Ret tt).
Proof.
  destruct (poll_returns st) as ([l1 e1] & E).
  unfold turn. unfold mbind at 1, M_bind at 1, bind at 1. rewrite E.
  unfold mbind, M_bind, bind, local, gets.
  apply interval_wait_returns.
Qed.

Lemma turn_calm : emits_only (fun ev => is_back_off ev = false) turn.
Proof.
  unfold turn. apply emits_bind; [apply poll_calm | intros ?].
  apply emits_bind; [apply emits_local | intros ?]. apply interval_wait_calm.
Qed.

Lemma turn_grows : respects grows turn.
Proof.
  unfold turn. apply respects_bind; [apply grows_trans | apply poll_grows |].
  intros ?. apply respects_bind; [apply grows_trans | apply local_grows |].
  intros ?. apply interval_wait_grows.
Qed.

Lemma monitoring_loop_S (fuel : nat) (st : mstate * env W) :
  _monitoring_loop (S fuel) st
  = if stop_requested st.1 then (st, Ret tt)
    else _monitoring_loop fuel (turn st).1.
Proof.
  destruct st as [l e].
  change (_monitoring_loop (S fuel))
    with (stop ← local stop_requested;
          if stop : bool then mret tt
          else try_except turn (fun _ => nap 30);; _monitoring_loop fuel).
  unfold mbind at 1, M_bind at 1, bind at 1, local at 1, gets at 1.
  cbv beta iota. cbn [fst].
  destruct (stop_requested l); [reflexivity |].
  unfold mbind at 1, M_bind at 1, bind at 1, try_except.
  destruct (turn_returns (l, e)) as (st1 & ->). reflexivity.
Qed.

Lemma monitoring_loop_run (fuel : nat) (st : mstate * env W) :
  exists st' evs,
    _monitoring_loop fuel st = (st', Ret tt)
    /\ trace st'.2 = trace st.2 ++ evs
    /\ Forall (fun ev => is_back_off ev = false) evs
    /\ grows st st'.
Proof.
  revert st. induction fuel as [| fuel IH]; intros st.
  - exists st, []. rewrite app_nil_r.
    split; [reflexivity |]. split; [reflexivity |].
    split; [constructor | apply grows_refl].
  - rewrite monitoring_loop_S. destruct (stop_requested st.1).
    + exists st, []. rewrite app_nil_r.
      split; [reflexivity |]. split; [reflexivity |].
      split; [constructor | apply grows_refl].
    + destruct (turn_returns st) as (st1 & E1). rewrite E1. simpl.
      destruct st as [l e].
      destruct (turn_calm _ _ _ _ E1) as (evs1 & T1 & F1).
      pose proof (turn_grows _ _ _ E1) as G1.
      destruct (IH st1) as (st2 & evs2 & E2 & T2 & F2 & G2).
      exists st2, (evs1 ++ evs2). split; [exact E2 |].
      split; [rewrite T2, T1, app_assoc; reflexivity |].
      split; [now apply Forall_app | exact (grows_trans _ _ _ G1 G2)].
Qed.

(** X24: the monitoring loop never raises and never takes the 30-second
    pause of its [except] clause: a turn of the loop cannot raise, because
    the poll catches every exception and the interval wait only sleeps. No
    key leaves [processed_items] while the loop runs. *)
Theorem monitoring_loop_never_backs_off (fuel : nat) (st : mstate * env W) :
  exists st' evs,
    _monitoring_loop fuel st = (st', Ret tt)
    /\ trace st'.2 = trace st.2 ++ evs
    /\ Forall (fun ev => ev <> Sleep 30) evs
    /\ processed_items (self st.1) ⊆ processed_items (self st'.1).
Proof.
  destruct (monitoring_loop_run fuel st) as (st' & evs & E & T & F & G & _).
  exists st', evs. split; [exact E |]. split; [exact T |].
  split; [| exact G].
  eapply Forall_impl; [exact F |]. intros ev Hev ->. discriminate.
Qed.

Lemma item_start (it : item) (st : mstate * env W) :
  nonempty (strip (address it)) = true ->
  exists st' evs,
    _process_single_item it st = (st', Ret tt)
    /\ trace st'.2
       = trace st.2 ++ StatusWrite (row_id it) (lit "처리중") [] :: evs.
Proof.
  intros Ha. destruct st as [[m sd] [w tr]].
  unfold _process_single_item, write_status, nap, blocking.
  unfold_eff. simpl. rewrite Ha. simpl.
  call_cases;
    (eexists; eexists; split; [reflexivity |]; simpl;
     rewrite <- ?app_assoc; reflexivity).
Qed.

(** X21: an item whose address is blank is recorded as processed with
    no call to the sheet or the pipeline. An item listed by the queue never
    takes that path: whatever the collaborators do, its processing returns
    and starts by writing the status [처리중] to its row. *)
Theorem item_without_address_is_skipped (it : item) (st : mstate * env W) :
  (strip (address it) = [] ->
   _process_single_item it st
   = ((on_self (add_processed (of_Z (row_id it) ++ lit "_")) st.1, st.2),
      Ret tt))
  /\ (forall lower today records,
        it ∈ pending_items lower today records ->
        exists st' evs,
          _process_single_item it st = (st', Ret tt)
          /\ trace st'.2
             = trace st.2 ++ StatusWrite (row_id it) (lit "처리중") [] :: evs).
Proof.
  split.
  - intros Ha. destruct st as [[m sd] [w tr]].
    unfold _process_single_item. unfold_eff. simpl. rewrite Ha. reflexivity.
  - intros lower today records Hin. apply item_start.
    destruct (SheetsMore.pending_item_origin lower today records it Hin)
      as (idx & r & _ & _ & _ & Hne & Hs & _).
    now rewrite Hs.
Qed.

(** X22: when the sheet writes and the notification go through and the
    pipeline returns a result, the item is handled in this order: status
    [처리중], the pipeline run on the stripped address with the notice of the
    sheet, the notification (on success only), the final status ([완료] with
    the link, or [오류] with the error text), and a pause of 10 seconds. *)
Theorem item_result_is_written (it : item) (res : ContentResult)
    (st : mstate * env W) :
  let address := strip (FixedSheetsManager.address it) in
  nonempty address = true ->
  (forall row status url o, (update_status row status url o).2 = Ret tt) ->
  (forall o,
     (run_full_automation_with_notice address (property_type it)
        (advertising_notice it) (row_id it) o).2 = Ret res) ->
  (forall o, (_send_completion_notification address res o).2 = Ret tt) ->
  exists st',
    _process_single_item it st = (st', Ret tt)
    /\ trace st'.2
       = trace st.2
         ++ [StatusWrite (row_id it) (lit "처리중") [];
             PipelineRun address (property_type it) (advertising_notice it)
                         (row_id it)]
         ++ (if success res then [Notify address] else [])
         ++ [if success res
             then StatusWrite (row_id it) (lit "완료")
                              (default [] (youtube_url res))
             else StatusWrite (row_id it) (lit "오류")
                    (lit "오류: " ++ default (lit "None") (error_message res));
             Sleep 10].
Proof.
  intros addr Ha Hu Hr Hn. subst addr. destruct st as [[m sd] [w tr]].
  unfold _process_single_item, write_status, nap, blocking.
  unfold_eff. simpl. rewrite Ha. simpl.
  repeat match goal with
  | |- context [update_status ?a ?b ?c ?o] =>
    let H := fresh in
    pose proof (Hu a b c o) as H;
    destruct (update_status a b c o) as [? ?]; simpl in H; subst; simpl
  | |- context [run_full_automation_with_notice ?a ?b ?c ?d ?o] =>
    let H := fresh in
    pose proof (Hr o) as H;
    destruct (run_full_automation_with_notice a b c d o) as [? ?];
    simpl in H; subst; simpl; destruct (success res); simpl
  | |- context [_send_completion_notification ?a ?b ?o] =>
    let H := fresh in
    pose proof (Hn o) as H;
    destruct (_send_completion_notification a b o) as [? ?];
    simpl in H; subst; simpl
  end;
  (eexists; split; [reflexivity |]; simpl; rewrite <- ?app_assoc; reflexivity).
Qed.

(** X23: when the pipeline raises, the row gets the status [오류] with
    the text [처리 실패: ] followed by the first 100 characters of the
    exception, the item is recorded as processed, and the 10-second pause is
    skipped. *)
Theorem pipeline_exception_is_reported (it : item) (e : exn)
    (st : mstate * env W) :
  let address := strip (FixedSheetsManager.address it) in
  nonempty address = true ->
  (forall o, (update_status (row_id it) (lit "처리중") (Some []) o).2 = Ret tt) ->
  (forall o,
     (run_full_automation_with_notice address (property_type it)
        (advertising_notice it) (row_id it) o).2 = Raise e) ->
  exists st' text,
    _process_single_item it st = (st', Ret tt)
    /\ trace st'.2
       = trace st.2
         ++ [StatusWrite (row_id it) (lit "처리중") [];
             PipelineRun address (property_type it) (advertising_notice it)
                         (row_id it);
             StatusWrite (row_id it) (lit "오류") text]
    /\ text = lit "처리 실패: " ++ prefix 100 e
    /\ (length text <= 107)%nat
    /\ processed_key it ∈ processed_items (self st'.1).
Proof.
  intros addr Ha Hu Hr. subst addr. destruct st as [[m sd] [w tr]].
  exists (_process_single_item it ({| self := m; SHUTDOWN_FLAG := sd |},
                                   {| world := w; trace := tr |})).1,
         (lit "처리 실패: " ++ prefix 100 e).
  assert (Hlen : (length (lit "처리 실패: " ++ prefix 100 e) <= 107)%nat).
  { rewrite length_app. unfold prefix. rewrite length_take.
    change (length (lit "처리 실패: ")) with 7%nat. lia. }
  unfold _process_single_item, write_status, nap, blocking, processed_key.
  unfold_eff. simpl. rewrite Ha. simpl.
  match goal with |- context [update_status ?a ?b ?c ?o] =>
    let H := fresh in
    pose proof (Hu o) as H;
    destruct (update_status a b c o) as [? ?]; simpl in H; subst; simpl end.
  match goal with |- context [run_full_automation_with_notice ?a ?b ?c ?d ?o] =>
    let H := fresh in
    pose proof (Hr o) as H;
    destruct (run_full_automation_with_notice a b c d o) as [? ?];
    simpl in H; subst; simpl end.
  call_cases;
    (split; [reflexivity |]; split; [rewrite <- ?app_assoc; reflexivity |];
     split; [reflexivity |]; split; [exact Hlen | set_solver]).
Qed.

(** X25: stopping the monitor and starting it again on another sheet
    keeps [processed_items]: the monitor runs again, on the new sheet, with a
    newly started thread, and rows handled before the stop are not handled
    again. No stop or start request is assumed to arrive from outside during
    the two-second wait of [stop_monitoring]. *)
Theorem restart_keeps_processed_items (url : str) (st : mstate * env W) :
  (forall s, keeps_flags (fun o => (sleep s o, Ret tt))) ->
  exists st1 st2 evs,
    stop_monitoring st = (st1, Ret tt)
    /\ is_running (self st1.1) = false
    /\ start_monitoring url st1 = (st2, Ret tt)
    /\ is_running (self st2.1) = true
    /\ sheet_url (self st2.1) = Some url
    /\ monitoring_thread (self st2.1)
       = Some {| thread_name := thread_label; daemon := true; started := true |}
    /\ processed_items (self st2.1) = processed_items (self st.1)
    /\ trace st2.2 = trace st.2 ++ evs ++ [ThreadStart thread_label]
    /\ (evs = [] \/ evs = [Sleep 2]).
Proof.
  intros Hs. destruct st as [[m sd] [w tr]].
  unfold stop_monitoring, start_monitoring, nap, blocking.
  unfold_eff. simpl.
  destruct (monitoring_thread m) as [th |]; simpl.
  - destruct (is_alive th w); simpl.
    + match goal with |- context [sleep 2 ?o] =>
        destruct (Hs 2 o) as [H1 _]; simpl in H1 end.
      eexists _, _, [Sleep 2]. split; [reflexivity |]. simpl.
      split; [exact H1 |]. rewrite H1. simpl.
      split; [reflexivity |]. repeat (split; [reflexivity |]).
      split; [now rewrite <- app_assoc | now right].
    + eexists _, _, []. split; [reflexivity |]. simpl.
      repeat (split; [reflexivity |]). now left.
  - eexists _, _, []. split; [reflexivity |]. simpl.
    repeat (split; [reflexivity |]). now left.
Qed.

End WithBackend.

Lemma item_without_address_witness :
  let it :=
    {| row_id := 7; address := lit "   "; property_type := lit "아파트";
       status := VStr []; priority := VStr (lit "medium");
       created_date := VStr (lit "2024-01-01");
       advertising_notice := default_notice |} in
  strip (address it) = []
  /\ _process_single_item (B := Demo2.productive_monitor) it
       Demo.running_monitor
     = ((on_self (add_processed (lit "7_")) Demo.running_monitor.1,
         Demo.running_monitor.2), Ret tt).
Proof.
  intros it.
  assert (Ha : strip (address it) = []) by reflexivity.
  split; [exact Ha |].
  destruct (item_without_address_is_skipped (B := Demo2.productive_monitor)
              it Demo.running_monitor) as [H _].
  exact (H Ha).
Defined.

Lemma item_result_witness :
  let it := Demo2.sample_item in
  let res :=
    {| video_file := lit "video.mp4";
       script := lit "Hello. World.";
       ppt_file := lit "deck.pptx";
       voice_file := lit "narration.wav";
       subtitle_file := lit "subtitles.srt";
       thumbnail_file := lit "thumbnail.png";
       youtube_url := Some (lit "https://www.youtube.com/watch?v=mock_0");
       success := true; error_message := None;
       sheets_row_id := Some 2 |} in
  nonempty (strip (address it)) = true
  /\ exists st',
       _process_single_item (B := Demo2.productive_monitor) it
         Demo.running_monitor = (st', Ret tt)
       /\ trace st'.2
          = [StatusWrite 2 (lit "처리중") [];
             PipelineRun (lit "Seoul Gangnam Apt") (lit "아파트")
                         default_notice 2;
             Notify (lit "Seoul Gangnam Apt");
             StatusWrite 2 (lit "완료")
                         (lit "https://www.youtube.com/watch?v=mock_0");
             Sleep 10].
Proof.
  intros it res.
  assert (Ha : nonempty (strip (address it)) = true)
    by (vm_compute; reflexivity).
  assert (Hu : forall row status url o,
             (update_status (Backend := Demo2.productive_monitor)
                row status url o).2 = Ret tt)
    by (intros; reflexivity).
  assert (Hr : forall o,
             (run_full_automation_with_notice
                (Backend := Demo2.productive_monitor)
                (strip (address it)) (property_type it)
                (advertising_notice it) (row_id it) o).2 = Ret res)
    by (intros; reflexivity).
  assert (Hn : forall o,
             (_send_completion_notification
                (Backend := Demo2.productive_monitor)
                (strip (address it)) res o).2 = Ret tt)
    by (intros; reflexivity).
  split; [exact Ha |].
  destruct (item_result_is_written (B := Demo2.productive_monitor) it res
              Demo.running_monitor Ha Hu Hr Hn) as (st' & E & T).
  exists st'. split; [exact E |].
  etransitivity; [exact T |]. vm_compute. reflexivity.
Defined.

Lemma pipeline_exception_witness :
  let it := Demo2.sample_item in
  let B := Demo.monitor_backend [] true None in
  nonempty (strip (address it)) = true
  /\ exists st',
       _process_single_item (B := B) it Demo.running_monitor = (st', Ret tt)
       /\ trace st'.2
          = [StatusWrite 2 (lit "처리중") [];
             PipelineRun (lit "Seoul Gangnam Apt") (lit "아파트")
                         default_notice 2;
             StatusWrite 2 (lit "오류") (lit "처리 실패: renderer crashed")].
Proof.
  intros it B.
  assert (Ha : nonempty (strip (address it)) = true)
    by (vm_compute; reflexivity).
  assert (Hu : forall o,
             (update_status (Backend := B) (row_id it) (lit "처리중")
                (Some []) o).2 = Ret tt)
    by (intros; reflexivity).
  assert (Hr : forall o,
             (run_full_automation_with_notice (Backend := B)
                (strip (address it)) (property_type it)
                (advertising_notice it) (row_id it) o).2
             = Raise (lit "renderer crashed"))
    by (intros; reflexivity).
  split; [exact Ha |].
  destruct (pipeline_exception_is_reported (B := B) it
              (lit "renderer crashed") Demo.running_monitor Ha Hu Hr)
    as (st' & text & E & T & Htext & _).
  exists st'. split; [exact E |].
  etransitivity; [exact T |]. rewrite Htext. vm_compute. reflexivity.
Defined.

Lemma restart_witness :
  let B := Demo.monitor_backend [] false None in
  (forall s, keeps_flags (fun o => (sleep (Backend := B) s o, Ret tt)))
  /\ exists st1 st2,
       stop_monitoring (B := B) Demo.running_monitor = (st1, Ret tt)
       /\ start_monitoring (lit "https://example.org/sheet") st1
          = (st2, Ret tt)
       /\ is_running (self st2.1) = true
       /\ sheet_url (self st2.1) = Some (lit "https://example.org/sheet")
       /\ processed_items (self st2.1)
          = processed_items (self Demo.running_monitor.1).
Proof.
  intros B.
  assert (Hs : forall s, keeps_flags (fun o => (sleep (Backend := B) s o, Ret tt)))
    by (intros s o; split; reflexivity).
  split; [exact Hs |].
  destruct (restart_keeps_processed_items (B := B)
              (lit "https://example.org/sheet") Demo.running_monitor Hs)
    as (st1 & st2 & evs & E1 & _ & E2 & Hr & Hu & _ & Hp & _).
  exists st1, st2. repeat split; assumption.
Defined.

End MonitorMore.
(** ** Subtitles, sample data, listings and the YouTube sign-in *)

Module StrMore.

Lemma starts_with_app (x s : str) : starts_with x (x ++ s) = true.
Proof.
  induction x as [| c x IH]; simpl; [reflexivity |].
  now rewrite N.eqb_refl, IH.
Qed.

Lemma contains_here (x s : str) : contains x (x ++ s) = true.
Proof.
  destruct (x ++ s) eqn:E; simpl.
  - destruct x; [reflexivity | discriminate].
  - rewrite <- E, starts_with_app. reflexivity.
Qed.

Lemma contains_skip (x a s : str) :
  contains x s = true -> contains x (a ++ s) = true.
Proof.
  intros H. induction a as [| c a IH]; simpl; [exact H |].
  rewrite IH. apply orb_true_r.
Qed.

Lemma elem_of_lstrip (c : N) (s : str) : c ∈ lstrip s -> c ∈ s.
Proof.
  induction s as [| d s IH]; simpl; [trivial |].
  destruct (isspace d); [| trivial]. intros H. right. now apply IH.
Qed.

Lemma elem_of_strip (c : N) (s : str) : c ∈ strip s -> c ∈ s.
Proof.
  unfold strip, rstrip. intros H.
  apply list_elem_of_In, in_rev, list_elem_of_In, elem_of_lstrip in H.
  apply list_elem_of_In, in_rev, list_elem_of_In in H.
  now apply elem_of_lstrip.
Qed.

End StrMore.

Module SubtitleFacts.
Import Props Props2 Subtitles StrMore PyStrFacts.

Lemma split_on_no_sep (sep : N) (s : str) :
  Forall (fun piece => sep ∉ piece) (split_on sep s).
Proof.
  induction s as [| c s IH]; simpl.
  - repeat constructor. apply not_elem_of_nil.
  - destruct (N.eqb_spec c sep) as [-> | Hne].
    + constructor; [apply not_elem_of_nil | exact IH].
    + destruct (split_on sep s) as [| piece rest]; simpl.
      * repeat constructor. intros H. apply list_elem_of_singleton in H.
        now apply Hne.
      * inversion IH as [| ? ? Hp Hr]; subst. constructor; [| assumption].
        intros H. apply elem_of_cons in H.
        destruct H as [H | H]; [now apply Hne | now apply Hp].
Qed.

(** Joining the pieces with the separator gives the string back. *)
Lemma split_on_join (sep : N) (s : str) :
  exists piece rest,
    split_on sep s = piece :: rest
    /\ piece ++ concat (List.map (cons sep) rest) = s.
Proof.
  induction s as [| c s (piece & rest & E & J)]; simpl.
  - now exists [], [].
  - destruct (N.eqb_spec c sep) as [-> | Hne].
    + exists [], (piece :: rest). rewrite E. split; [reflexivity |].
      simpl. now rewrite J.
    + rewrite E. exists (c :: piece), rest. split; [reflexivity |].
      simpl. now rewrite J.
Qed.

Lemma sentences_clean (script : str) :
  Forall (fun t => nonempty t = true /\ strip t = t /\ full_stop ∉ t)
         (sentences script).
Proof.
  unfold sentences. apply Forall_forall. intros t Hin.
  apply list_elem_of_In, filter_In in Hin. destruct Hin as [Hin Hne].
  apply in_map_iff in Hin. destruct Hin as (piece & <- & Hp).
  split; [exact Hne |]. split; [apply strip_idem |].
  intros Hdot. apply elem_of_strip in Hdot.
  pose proof (split_on_no_sep full_stop script) as F.
  rewrite Forall_forall in F. apply (F piece); [| exact Hdot].
  now apply list_elem_of_In.
Qed.

Section WithWorld.
Context {W L : Type}.
Variable write_text : str -> str -> W -> W * outcome unit.

(** X27: the subtitle file holds at most 20 cues, whatever the length of
    the script: sentences after the twentieth are dropped. Every cue text is
    a non-empty, stripped piece of the script without a full stop; a script
    without a full stop gives one cue. A failure to write the file is
    swallowed: the call returns normally. *)
Theorem subtitles_are_capped (script filename : str) (st : L * env W) :
  let cues := take 20 (sentences script) in
  (length cues <= 20)%nat
  /\ Forall (fun t => nonempty t = true /\ strip t = t /\ full_stop ∉ t) cues
  /\ (full_stop ∉ script -> nonempty (strip script) = true ->
      cues = [strip script])
  /\ exists w',
       _create_subtitle_file write_text script filename st
       = ((st.1, {| world := w'; trace := trace st.2 |}), Ret tt).
Proof.
  intros cues. split; [| split; [| split]].
  - subst cues. rewrite length_take. lia.
  - subst cues. apply Forall_take, sentences_clean.
  - intros Hdot Hne. subst cues. unfold sentences.
    assert (E : split_on full_stop script = [script]).
    { clear Hne. induction script as [| c s IH]; simpl; [reflexivity |].
      destruct (N.eqb_spec c full_stop) as [-> | _].
      - exfalso. apply Hdot. now left.
      - rewrite IH; [reflexivity |]. intros H. apply Hdot. now right. }
    rewrite E. simpl. rewrite Hne. reflexivity.
  - destruct st as [l e]. unfold _create_subtitle_file, try_except, external.
    destruct (write_text filename (subtitle_content script) (world e))
      as [w' [[] | x]]; now exists w'.
Qed.

End WithWorld.

Lemma two_digits_spec (n : Z) :
  0 <= n < 100 ->
  two_digits n = [Z.to_N (48 + n / 10); Z.to_N (48 + n mod 10)].
Proof.
  intros H.
  assert (Hall : forallb
            (fun k => bool_decide
               (two_digits k = [Z.to_N (48 + k / 10); Z.to_N (48 + k mod 10)]))
            (seqZ 0 100) = true) by (vm_compute; reflexivity).
  rewrite forallb_forall in Hall.
  assert (Hin : In n (seqZ 0 100))
    by (apply list_elem_of_In, elem_of_seqZ; lia).
  exact (bool_decide_eq_true_1 _ (Hall n Hin)).
Qed.

Lemma digit_spec (d : Z) : 0 <= d <= 9 -> digit (Z.to_N (48 + d)) = Some d.
Proof.
  intros H. unfold digit.
  assert (E : Z.of_N (Z.to_N (48 + d)) = 48 + d) by (apply Z2N.id; lia).
  destruct (N.leb_spec 48 (Z.to_N (48 + d))); [| lia].
  destruct (N.leb_spec (Z.to_N (48 + d)) 57); [| lia].
  simpl. f_equal. lia.
Qed.

(** X28: below one hundred hours [_format_time] gives a stamp of twelve
    characters, [HH:MM:SS,000], from which the number of seconds can be read
    back; so distinct times give distinct stamps. *)
Theorem format_time_round_trip (seconds : Z) :
  0 <= seconds < 360000 ->
  length (_format_time seconds) = 12%nat
  /\ read_time (_format_time seconds) = Some seconds.
Proof.
  intros H. unfold _format_time.
  assert (Hh : 0 <= seconds / 3600 < 100)
    by (split; [apply Z.div_pos; lia | apply Z.div_lt_upper_bound; lia]).
  pose proof (Z.mod_pos_bound seconds 3600 ltac:(lia)) as Hm0.
  assert (Hm : 0 <= seconds mod 3600 / 60 < 60)
    by (split; [apply Z.div_pos; lia | apply Z.div_lt_upper_bound; lia]).
  pose proof (Z.mod_pos_bound seconds 60 ltac:(lia)) as Hs.
  rewrite !two_digits_spec by lia.
  change (lit ":") with [58%N]. change (lit ",000") with [44%N; 48%N; 48%N; 48%N].
  split; [reflexivity |].
  cbn [app read_time]. rewrite !N.eqb_refl. cbn [andb].
  set (h := seconds / 3600) in *. set (m := seconds mod 3600 / 60) in *.
  set (s := seconds mod 60) in *.
  pose proof (Z.mod_pos_bound h 10 ltac:(lia)).
  pose proof (Z.mod_pos_bound m 10 ltac:(lia)).
  pose proof (Z.mod_pos_bound s 10 ltac:(lia)).
  assert (0 <= h / 10 <= 9)
    by (split; [apply Z.div_pos; lia | apply Z.lt_succ_r, Z.div_lt_upper_bound; lia]).
  assert (0 <= m / 10 <= 9)
    by (split; [apply Z.div_pos; lia | apply Z.lt_succ_r, Z.div_lt_upper_bound; lia]).
  assert (0 <= s / 10 <= 9)
    by (split; [apply Z.div_pos; lia | apply Z.lt_succ_r, Z.div_lt_upper_bound; lia]).
  rewrite !digit_spec by lia. cbn [mbind option_bind].
  f_equal.
  rewrite <- !(Z.div_mod _ 10) by lia.
  subst h m s.
  pose proof (Z.div_mod seconds 3600 ltac:(lia)).
  pose proof (Z.div_mod (seconds mod 3600) 60 ltac:(lia)).
  assert (seconds mod 60 = (seconds mod 3600) mod 60).
  { symmetry. apply Z.mod_mod_divide. exists 60. reflexivity. }
  pose proof (Z.div_mod (seconds mod 3600) 60 ltac:(lia)).
  lia.
Qed.

Lemma subtitles_witness :
  let script := lit "  Seoul Gangnam Apt " in
  let cues := take 20 (sentences script) in
  ((full_stop ∉ script) /\ nonempty (strip script) = true)
  /\ cues = [lit "Seoul Gangnam Apt"].
Proof.
  intros script cues.
  assert (Hdot : full_stop ∉ script).
  { apply (bool_decide_unpack _). vm_compute. exact I. }
  assert (Hne : nonempty (strip script) = true) by (vm_compute; reflexivity).
  split; [split; [exact Hdot | exact Hne] |].
  destruct (subtitles_are_capped (W := unit) (L := unit)
              (fun _ _ w => (w, Ret tt)) script [] (tt, Demo.empty_env))
    as (_ & _ & H & _).
  etransitivity; [exact (H Hdot Hne) |]. vm_compute. reflexivity.
Defined.

Lemma format_time_witness :
  0 <= 3725 < 360000
  /\ _format_time 3725 = lit "01:02:05,000"
  /\ read_time (_format_time 3725) = Some 3725.
Proof.
  assert (H : 0 <= 3725 < 360000) by lia.
  split; [exact H |]. split; [vm_compute; reflexivity |].
  exact (proj2 (format_time_round_trip 3725 H)).
Defined.

End SubtitleFacts.

Module ListingFacts.
Import Props Props2 Pipeline Listings PipelineFacts.

Section WithBackend.
Context {W : Type} {B : Backend W}.
Variable notify : str -> W -> W * outcome unit.

(** X26: [update_all_listings_to_completed] never raises and never
    answers [True]: [update_status] returns [None], so [sheets_result and
    ten_result] is [None] even when every step went through. Whatever the
    address, the row it marks [거래완료] is row 1. *)
Theorem closing_a_deal_reports_nothing (property_address : str)
    (l : Pipeline.t) (e : env W) :
  exists w',
    update_all_listings_to_completed notify property_address (l, e)
    = ((l, {| world := w';
              trace := trace e ++ [StatusWrite 1 (lit "거래완료") []] |}),
       Ret None)
    /\ truth None = false.
Proof.
  destruct (update_status_runs 1 (lit "거래완료") (Some []) l e) as [w1 E1].
  unfold update_all_listings_to_completed, update_deal_status,
    _send_completion_notification, try_except.
  unfold mbind, M_bind, bind. rewrite E1. unfold mret, M_ret, ret, external.
  cbn [world trace].
  destruct (notify property_address w1) as [w2 [[] | x]];
    exists w2; split; reflexivity.
Qed.

End WithBackend.
End ListingFacts.

Module SampleDataFacts.
Import Props Props2 FixedSheetsManager Pipeline EnhancedMockAPIHandler StrMore.

Section WithRandom.
Context {W : Type}.
Variable randint : Z -> Z -> W -> W * Z.
Variable choice : list str -> W -> W * str.

Lemma description_has_address (p : PropertyData) :
  contains (pd_address p) (youtube_description p) = true.
Proof.
  unfold youtube_description.
  do 2 apply contains_skip. apply contains_here.
Qed.

Lemma description_has_notice (p : PropertyData) :
  contains (pd_advertising_notice p) (youtube_description p) = true.
Proof.
  unfold youtube_description.
  do 30 apply contains_skip. apply contains_here.
Qed.

Lemma mock_property_data_fields (address notice : str) (w : W) :
  let p := (mock_property_data randint choice address notice w).2 in
  pd_address p = address
  /\ pd_property_type p = lit "아파트"
  /\ pd_advertising_notice p
     = if nonempty notice then notice else get_advertising_notice.
Proof.
  unfold mock_property_data.
  destruct (randint 30000 80000 w) as [w1 price_base].
  destruct (randint (-500) 500 w1) as [w2 d1].
  destruct (randint (-300) 300 w2) as [w3 d2].
  destruct (randint (-200) 200 w3) as [w4 d3].
  destruct (choice trends w4) as [w5 trend].
  cbn [snd pd_address pd_property_type pd_advertising_notice].
  destruct (nonempty notice); repeat split.
Qed.

(** X29: the sample data keeps the address and the notice it is given
    and replaces an empty notice by the brand's own, so the notice is never
    empty; the type is always [아파트]. The description of the upload built
    from it contains the address and the notice. For an item listed by the
    queue the notice is the one read from the sheet. *)
Theorem sheet_notice_reaches_the_description (address notice : str) (w : W) :
  let p := (mock_property_data randint choice address notice w).2 in
  pd_address p = address
  /\ pd_property_type p = lit "아파트"
  /\ nonempty (pd_advertising_notice p) = true
  /\ (nonempty notice = true -> pd_advertising_notice p = notice)
  /\ contains address (youtube_description p) = true
  /\ contains (pd_advertising_notice p) (youtube_description p) = true
  /\ forall lower today records it,
       it ∈ pending_items lower today records ->
       pd_advertising_notice
         (mock_property_data randint choice (FixedSheetsManager.address it)
            (advertising_notice it) w).2
       = advertising_notice it.
Proof.
  intros p.
  destruct (mock_property_data_fields address notice w) as (Ha & Ht & Hn).
  fold p in Ha, Ht, Hn.
  split; [exact Ha |]. split; [exact Ht |]. split; [| split; [| split; [| split]]].
  - rewrite Hn. destruct (nonempty notice) eqn:E; [exact E | reflexivity].
  - intros E. now rewrite Hn, E.
  - rewrite <- Ha at 1. apply description_has_address.
  - apply description_has_notice.
  - intros lower today records it Hin.
    destruct (SheetsMore.pending_item_origin lower today records it Hin)
      as (_ & _ & _ & _ & _ & _ & _ & Hne).
    destruct (mock_property_data_fields (FixedSheetsManager.address it)
                (advertising_notice it) w) as (_ & _ & ->).
    now rewrite Hne.
Qed.

End WithRandom.
Lemma sheet_notice_witness :
  let p := (mock_property_data Demo2.lowest Demo2.first_choice
              (lit "Seoul Gangnam Apt") (lit "notice") tt).2 in
  nonempty (lit "notice") = true
  /\ pd_advertising_notice p = lit "notice"
  /\ average_price p = lit "30000만원"
  /\ price_trend p = lit "상승".
Proof.
  intros p.
  assert (Hne : nonempty (lit "notice") = true) by (vm_compute; reflexivity).
  split; [exact Hne |].
  destruct (sheet_notice_reaches_the_description Demo2.lowest
              Demo2.first_choice (lit "Seoul Gangnam Apt") (lit "notice") tt)
    as (_ & _ & _ & H & _).
  split; [exact (H Hne) |]. split; vm_compute; reflexivity.
Defined.

End SampleDataFacts.

Module YouTubeAuthFacts.
Import Props Props2 YouTubeUploader YouTubeAuth.

Section WithWorld.
Context {W : Type}.
Variable path_exists : str -> W -> bool.
Variable run_flow : str -> W -> W * outcome unit.
Variable build : W -> W * outcome unit.

(** X30: [setup_youtube_auth] never raises. It answers [True] only when
    the API library is present, the secrets file exists, and the service was
    built; when it answers [False] the service is as before; without the
    library or the file nothing outside the process is touched. It never
    changes the upload mode. *)
Theorem youtube_auth_outcome (client_secrets_file : str) (self : t)
    (e : env W) :
  exists self' e' b,
    setup_youtube_auth path_exists run_flow build client_secrets_file (self, e)
    = ((self', e'), Ret b)
    /\ auto_upload_mode self' = auto_upload_mode self
    /\ api_available self' = api_available self
    /\ trace e' = trace e
    /\ (b = true ->
        youtube_service self' = true /\ api_available self = true
        /\ path_exists client_secrets_file (world e) = true)
    /\ (b = false -> youtube_service self' = youtube_service self)
    /\ (api_available self = false
        \/ path_exists client_secrets_file (world e) = false ->
        b = false /\ e' = e).
Proof.
  destruct e as [w tr].
  unfold setup_youtube_auth, try_except.
  unfold mbind, M_bind, bind, local, gets, external, update_local, modify,
    mret, M_ret, ret.
  simpl.
  destruct (api_available self) eqn:Ha; simpl;
    [destruct (path_exists client_secrets_file w) eqn:Hp; simpl;
     [destruct (run_flow client_secrets_file w) as [w1 [[] | x]]; simpl;
      [destruct (build w1) as [w2 [[] | x]]; simpl |] |] |];
    eexists _, _, _; (split; [reflexivity |]); simpl;
    (split; [reflexivity |]); (split; [first [reflexivity | assumption] |]);
    (split; [reflexivity |]);
    (split; [intros Hb; try discriminate; repeat split; first [reflexivity | assumption] |]);
    (split; [intros Hb; try discriminate; reflexivity |]);
    (intros [H | H]; try congruence; split; reflexivity).
Qed.

End WithWorld.
Lemma youtube_auth_witness :
  let missing : str -> unit -> bool := fun _ _ => false in
  let flow : str -> unit -> unit * outcome unit := fun _ w => (w, Ret tt) in
  let build : unit -> unit * outcome unit := fun w => (w, Ret tt) in
  setup_youtube_auth missing flow build (lit "youtube_secrets.json")
    (init true, Demo.empty_env)
  = ((init true, Demo.empty_env), Ret false).
Proof.
  intros missing flow build.
  destruct (youtube_auth_outcome missing flow build
              (lit "youtube_secrets.json") (init true) Demo.empty_env)
    as (self' & e' & b & E & _ & _ & _ & _ & Hf & Hn).
  destruct (Hn (or_intror eq_refl)) as [-> ->].
  rewrite E. f_equal. f_equal.
  destruct self' as [s a m]. vm_compute in E. inversion E. reflexivity.
Defined.

End YouTubeAuthFacts.
